(* ===== verification/_CoqProject ===== *)
-Q . S2P
Prelude.v
PyStr.v
ElementTree.v
ProviderMap.v
Device.v
Status.v
StatusLoop.v
StatusProps.v
Extraction.v
Logging.v
Json.v
View.v
Plugin.v
Packaging.v
Bootstrap.v
