(* ===== verification/Prelude.v ===== *)
(** * A verification development of mast.datapower.status

    The repository is a plugin of the MAST web console.  It answers a
    POST from the browser dashboard with the current values of a few
    status metrics (CPU, memory, filesystem, TCP, system load) of one or
    more IBM DataPower appliances, as a JSON object.  Everything lives in
    [src/mast/datapower/status/status.py]; [src/setup.py] packages it.

    ** Parts of the program and how they interact

    - [PROVIDER_MAP] (status.py 9-18): a static dict from a metric name
      ["Category.Field"] to an ElementTree path built from the external
      constant [datapower.STATUS_XPATH].
    - Module import and bootstrap (status.py 1-61): the web console
      imports the module through the [mast_web_plugin] entry point of
      setup.py, which runs its imports (lines 1-7 and 31-33), builds
      [PROVIDER_MAP] and reads [mast_home] from [os.environ] (line 20); [get_data_file(f)] reads
      [data/<f>] next to status.py; [WebPlugin.__init__] writes a default
      [MAST_HOME/etc/default/status.conf] from [data/plugin.conf] when
      there is none; [css], [js] and [html] return data files.
    - [WebPlugin.status] (status.py 64-112): the request handler.  It
      reads the clock ([Timestamp()]), the form lists [appliances[]],
      [credentials[]] and [providers[]], decodes every credential with a
      key derived from one cookie, answers 404 when no appliance is
      given, builds a [datapower.Environment], and then, for every
      provider and every appliance, calls [appliance.get_status(category)]
      and extracts one value with [xml.find(PROVIDER_MAP[provider]).text].
      On [datapower.AuthenticationFailure] it sleeps 2 seconds and
      returns [self.status()]: the whole request is re-run, recursively.
    - [setup.py]: the packages and [package_data] that decide which files
      an installation contains, which is where [get_data_file] looks.
    - External collaborators (not under src/): the device library
      [mast.datapower.datapower] (Environment, DataPower.get_status,
      STATUS_XPATH), [mast.xor], [mast.timestamp], Flask's request,
      [abort] and [jsonify], ElementTree's [find], Python's [open] and
      [os.path], and setuptools.

    ** Files of the development, in dependency order

    - [Prelude] (this file): the error-state monad [ESM] with its
      [do x <- m ; k] notation in [mast_scope], the model of a Python
      dict display [py_dict], string and dict lemmas, the [mast] hint
      database, the [mast_run] rewrite database and the tactics
      [esm_unfold], [esm_step] and [list_elem_cases].
    - [PyStr]: Python's [str.split(sep)] and [sep.join] for a one-character
      separator, [l[0]], [endswith] and [startswith]; round trips and the
      structural lemmas the path arguments use.
    - [ElementTree]: XML elements and the subset of ElementPath that
      [Element.find] evaluates on the paths the program builds: the
      brace-aware tokenizer, the compilation of steps to selectors and
      their evaluation (modelled from the library's documented behaviour).
    - [ProviderMap]: [PROVIDER_MAP] for an arbitrary [STATUS_XPATH]
      (a Section variable), its key set, and which entries' paths line
      up with their metric names for each way the root can end.
    - [Device]: the interface [MastLib] (a typeclass) of the external
      pure functions the handler calls, the appliance record, and the
      world the handler runs in: a clock, the log of status queries and
      the appliances' answers as an oracle; [get_status] and [sleep].
    - [Status]: [WebPlugin.status] itself, as a fuel-indexed function in
      the error-state monad over the world, with its loops as fixpoints
      ([collect_providers], [collect_appliances]), an abstract
      specification [collect_spec] of a successful collection, and the
      handler's theorems.
    - [StatusLoop]: the two loops exactly as lines 85-111 write them,
      updating [resp] in place ([resp[provider] = []], then
      [resp[provider].append(metric)]), and the handler built on them.
    - [StatusProps]: properties of every run: the world it leaves
      ([grows]: queries only appended, sleeps counted), the shape of the
      JSON response, and runs against answering appliances.
    - [Extraction]: line 110 on DataPower [get-status] responses (the
      envelope, the status root steps, the category and its fields), for
      every [STATUS_XPATH] of tag steps given as Section hypotheses: a
      root that ends inside a name ([StatusRoot]) and one that ends with
      ["/"] ([SlashRoot]).
    - [Logging]: the handler with its [logger] calls (the debug messages
      and [logger.exception] in the two [except:] clauses) as a write-only
      log beside the world.
    - [Json]: [flask.jsonify] (line 112) as [json.dumps] does it with
      Flask's defaults (keys sorted by code point, [ensure_ascii], compact
      separators, a final newline): the string escape, values, members and
      the object; and a JSON reader with fuel, the specification the body
      is read back against.
    - [View]: the view as served, [Status.status] followed by [jsonify],
      and the answer to the POST with the status code Flask gives an
      exception (404 for [abort(404)], 400 for a missing cookie key, 500
      for any other).
    - [Plugin]: a filesystem (files and directories) with [open],
      [write], [os.path.exists], [os.path.join] and [os.path.dirname];
      [get_data_file], [WebPlugin_init] (for [__init__]), [css], [js],
      [html] and [load_plugin] (the import-time [os.environ] lookup) as
      operations of the error-state monad over it.
    - [Packaging]: the arguments of [setup()] and the installation
      setuptools makes from them ([build_py] with [glob] patterns).
    - [Bootstrap]: the module's top level (lines 1-35) as a list of
      statements in source order, run by an interpreter of Python's
      [import], [from ... import], assignment, decorated [def] and
      [class] statements over the module's globals, in an installation of
      modules; then the console's [WebPlugin()].  It composes
      [ProviderMap] (lines 9-18) and [Plugin] (line 20 and [__init__]).

    ** What the theorems show

    - [Status]: with answering appliances the handler refines
      [collect_spec] and issues one query per provider and appliance;
      every successful response holds, for every requested provider, a
      list with one value per appliance (also with duplicate providers and
      after retries); the error paths (404, missing cookie, unknown metric,
      missing element, device error) and their precedence; the retry
      re-runs the whole request any number of times: it succeeds after [k]
      transient failures exactly when the recursion budget exceeds [k],
      and never gives up after two attempts as the spec says.
    - [StatusLoop]: a lemma that the in-place handler is the same
      function as [Status.status] for every request, budget and world, so
      every theorem about the latter holds of the code as written.
    - [StatusProps]: every response has the JSON shape of spec section 6;
      the credentials are decoded in order with one key, and read the
      cookie only when one is given.  Lemmas bound the queries and sleeps
      of a run and show that a result other than [RecursionError] does
      not change with a larger recursion budget.
    - [Extraction]: for a status root of tag steps that ends inside a
      name, and every DataPower response, the three entries written with a
      leading ['/'] extract their field and the five others raise
      [AttributeError] whatever the response holds, so a request for any
      of these five metrics never succeeds; for a root that ends with
      ["/"] the five extract their field instead.
    - [ProviderMap]: the keys of [PROVIDER_MAP] are the eight metric
      names, for every [STATUS_XPATH]; the path of an entry lines up with
      its metric name (status root, category, field) exactly for the three
      entries whose literal starts with ['/'] when the root ends inside a
      name, and exactly for the five [FilesystemStatus.*] and
      [SystemUsage.*] entries when it ends with ["/"]: no root makes all
      eight right (a finding).
    - [Logging]: logging does not change what the handler does; the
      [Checking] messages are exactly the queries issued; an exception
      after [n] retries is logged [n] times (once more for a device
      error), an answer the spec says the core should not give (a
      finding).
    - [Json] and [View] (lemmas): reading the body back gives the
      response map, for every map and whatever its strings hold (the
      reader's fuel, the length of the body, is enough because every value
      is at least as long as its size); the body is printable ASCII up to
      its newline, with its keys in increasing order.  The theorem: the
      status code of every answer, error paths included: 400
      for a credential without the key cookie (before the appliances are
      checked), else 404 without appliances, else 200 or 500, so no loop
      error or recursion limit is reported as a client error.
    - [Plugin]: a start keeps every directory and every other file and
      changes nothing when [status.conf] exists; a first start writes the
      contents of [data/plugin.conf]; when the
      data file is missing, [open(..., "w")] has already created an empty
      [status.conf], which no later start replaces (a finding).
    - [Packaging]: no installation contains a file under [data/], so on
      an installed copy [get_data_file] always raises [IOError] and the
      first start leaves an empty [status.conf] (a finding).
    - [Bootstrap] (lemmas): importing the module and calling
      [WebPlugin()] refines [load_plugin] in an installation with every module the
      module imports, and binds [PROVIDER_MAP] to the dict of
      [ProviderMap]; without [MAST_HOME] the import stops at line 20,
      before lines 31-33 and before [WebPlugin] exists (a finding); a
      failed import leaves the filesystem untouched.
    - [PyStr] (lemmas): [split] has one more field than separators (so
      [[0]] cannot raise), no field contains the separator, and [join]
      and [split] are inverse.

    ** Fuel

    [WebPlugin.status] recurses without bound on repeated authentication
    failures; Python stops it with [RecursionError] at its recursion
    limit.  [Status.status] takes that budget as its fuel argument and
    returns [RecursionError] when it is exhausted, so fuel is not an
    artefact of the model but the interpreter's limit.  The theorems
    hold for every fuel; [status_retry_success] states how much is enough
    ([k + 1] for [k] failures), [status_retry_exhausted] that no fuel
    bounds the number of attempts, and the lemma [status_fuel_mono] that any fuel
    larger than enough gives the same result.  The JSON reader takes the
    length of the text as fuel; each nested value uses one unit per
    element and per array, and [jsize_dump] shows a written value is at
    least that long.  The other loops are structural.

    ** Not modelled

    What the [@logged] decorator and [make_logger] of [mast.logging] write
    (external code); the rest of the Flask layer: routing, form parsing
    and [abort] enter only as the [Request] record and the [HTTPNotFound]
    exception, and the headers of the answer are not modelled;
    [jsonify] is modelled from the documented defaults of Flask 1.0 and
    later (Flask 0.x indents the body and adds no newline), and the 400
    of a missing cookie assumes Werkzeug 1.0 or later, where
    [BadRequestKeyError] is an [HTTPException] (before, a plain
    [KeyError] and a 500); [mast.xor.xordecode] is a total function of
    the [MastLib] interface, so a credential it cannot decode is not
    modelled as an error; the bodies of the modules the
    plugin imports and what [@logged] returns (an imported name is an
    opaque value in [Bootstrap]); the serving of the
    [docroot] assets by the console; the XOR cipher, the timestamp format
    and the device protocol, which are external and enter only through the
    [MastLib] interface and the world's oracle; file permissions, symlinks
    and encodings. *)

From Stdlib Require Export String Ascii ZArith Lia.
From stdpp Require Export base gmap strings list.

Declare Scope mast_scope.
Delimit Scope mast_scope with mast.

(** ** Error-state monad

    [ESM S E A] threads a state [S] and can raise an exception [E].  The
    state reached when the exception is raised is kept: a Python
    exception does not undo the I/O done before it. *)

Definition ESM (S E A : Type) : Type := S -> (E + A) * S.

Definition esm_ret {S E A} (a : A) : ESM S E A := fun s => (inr a, s).

Definition esm_bind {S E A B} (m : ESM S E A) (k : A -> ESM S E B) : ESM S E B :=
  fun s => match m s with
           | (inl e, s') => (inl e, s')
           | (inr a, s') => k a s'
           end.

Definition esm_raise {S E A} (e : E) : ESM S E A := fun s => (inl e, s).

Definition esm_get {S E} : ESM S E S := fun s => (inr s, s).

(** Run a state transformer that cannot fail. *)
Definition esm_lift {S E A} (f : S -> A * S) : ESM S E A :=
  fun s => let '(a, s') := f s in (inr a, s').

(** Update the state. *)
Definition esm_modify {S E} (f : S -> S) : ESM S E unit := fun s => (inr tt, f s).

(** The value of an option, or the exception [e]. *)
Definition esm_from_option {S E A} (e : E) (o : option A) : ESM S E A :=
  fun s => match o with Some a => (inr a, s) | None => (inl e, s) end.

(** Replace the state. *)
Definition esm_put {S E} (s : S) : ESM S E unit := fun _ => (inr tt, s).

(** Run [m] on the first or the second component of a pair of states. *)
Definition esm_on_fst {S T E A} (m : ESM S E A) : ESM (S * T) E A :=
  fun st => let '(r, s') := m st.1 in (r, (s', st.2)).
Definition esm_on_snd {S T E A} (m : ESM T E A) : ESM (S * T) E A :=
  fun st => let '(r, t') := m st.2 in (r, (st.1, t')).

Notation "'do' x <- m ; k" := (esm_bind m (fun x => k))
  (at level 10, x name, m at level 100, k at level 200) : mast_scope.
Notation "'do' ' p <- m ; k" := (esm_bind m (fun x => match x with p => k end))
  (at level 10, p pattern, m at level 100, k at level 200) : mast_scope.

Open Scope mast_scope.

(** [for x in l: f(x)]: in order, stopping at the first exception. *)
Fixpoint esm_iter {S E A} (f : A -> ESM S E unit) (l : list A) : ESM S E unit :=
  match l with
  | [] => esm_ret tt
  | x :: l' => do _ <- f x ; esm_iter f l'
  end.

(** ** Python dict displays

    [{k1: v1, k2: v2, ...}] inserts from left to right, so a later
    duplicate key wins. *)
Definition py_dict {V} (kvs : list (string * V)) : gmap string V :=
  foldl (fun m kv => <[kv.1 := kv.2]> m) ∅ kvs.

(** ** Hint and rewrite databases *)
Create HintDb mast discriminated.
Create Rewrite HintDb mast_run.

(** ** Monad lemmas *)

Lemma esm_bind_ret_l {S E A B} (a : A) (k : A -> ESM S E B) s :
  esm_bind (esm_ret a) k s = k a s.
Proof. reflexivity. Qed.

Lemma esm_bind_assoc {S E A B C} (m : ESM S E A) (f : A -> ESM S E B)
    (g : B -> ESM S E C) s :
  esm_bind (esm_bind m f) g s = esm_bind m (fun a => esm_bind (f a) g) s.
Proof. unfold esm_bind. by destruct (m s) as [[e|a] s']. Qed.

#[export] Hint Rewrite @esm_bind_ret_l @esm_bind_assoc : mast_run.

(** [esm_unfold] exposes the plumbing of the monad everywhere;
    [esm_step] then destructs the first pending step, in a hypothesis or in
    the goal, and cleans up the equations it produces. *)
Ltac esm_unfold :=
  unfold esm_bind, esm_lift, esm_ret, esm_raise, esm_get, esm_put, esm_modify, esm_from_option in *.
Ltac esm_step := esm_unfold; case_match; simplify_eq.

(** [list_elem_cases H] splits [H : x ∈ [a; b; ...]] into one goal per
    element, with [x] replaced. *)
Ltac list_elem_cases H :=
  repeat (apply elem_of_cons in H as [->|H]); [..|by apply not_elem_of_nil in H].

(** ** String concatenation *)

Lemma string_app_cons a (s1 s2 : string) :
  (String a s1 ++ s2)%string = String a (s1 ++ s2)%string.
Proof. reflexivity. Qed.

Lemma string_app_nil_l (s : string) : ("" ++ s)%string = s.
Proof. reflexivity. Qed.

Lemma string_app_nil_r (s : string) : (s ++ "")%string = s.
Proof. induction s as [|a s IH]; [done|]. rewrite string_app_cons. by f_equal. Qed.

#[export] Hint Rewrite string_app_cons string_app_nil_l string_app_nil_r : mast_run.

Lemma string_app_inv_l (s t1 t2 : string) : (s ++ t1)%string = (s ++ t2)%string -> t1 = t2.
Proof. induction s as [|a s IH]; [done|]. cbn. intros [= H]. by apply IH. Qed.

Lemma string_app_assoc (s1 s2 s3 : string) :
  (s1 ++ (s2 ++ s3))%string = ((s1 ++ s2) ++ s3)%string.
Proof. induction s1 as [|a s1 IH]; [done|]. rewrite !string_app_cons. by rewrite IH. Qed.

Lemma string_length_app (s t : string) :
  String.length (s ++ t) = String.length s + String.length t.
Proof. induction s as [|a s IH]; [done|]. rewrite string_app_cons. cbn [String.length]. by rewrite IH. Qed.

Lemma string_app_not_empty (s t : string) : t <> EmptyString -> (s ++ t)%string <> EmptyString.
Proof. destruct s; cbn; [done|]. discriminate. Qed.

Lemma esm_iter_app {S E A} (f : A -> ESM S E unit) l1 l2 s :
  esm_iter f (l1 ++ l2) s = esm_bind (esm_iter f l1) (fun _ => esm_iter f l2) s.
Proof.
  revert s. induction l1 as [|x l1 IH]; intros s; [done|]. cbn [esm_iter app].
  unfold esm_bind in *. destruct (f x s) as [[e|[]] s']; [done|]. apply IH.
Qed.

(** A run whose outcome evaluates to a value: used to name the response
    of a concrete run. *)
Lemma run_inr {E A S} (x : (E + A) * S) :
  match x.1 with inl _ => false | inr _ => true end = true -> exists a s, x = (inr a, s).
Proof. destruct x as [[e|a] s]; [done|eauto]. Qed.

(** ** Python dict lemmas *)

Section PyDict.
Context {V : Type}.

Lemma py_dict_go_notin (kvs : list (string * V)) (m : gmap string V) k :
  k ∉ kvs.*1 -> foldl (fun m kv => <[kv.1 := kv.2]> m) m kvs !! k = m !! k.
Proof.
  revert m. induction kvs as [|[k' v'] kvs IH]; intros m Hk; [done|].
  csimpl in *. rewrite elem_of_cons in Hk.
  rewrite IH; [|naive_solver]. apply lookup_insert_ne. naive_solver.
Qed.

Lemma py_dict_go_in (kvs : list (string * V)) (m : gmap string V) k v :
  NoDup kvs.*1 -> (k, v) ∈ kvs ->
  foldl (fun m kv => <[kv.1 := kv.2]> m) m kvs !! k = Some v.
Proof.
  revert m. induction kvs as [|[k' v'] kvs IH]; intros m Hnd Hin;
    [by apply not_elem_of_nil in Hin|].
  csimpl in *. apply NoDup_cons in Hnd as [Hk' Hnd].
  apply elem_of_cons in Hin as [[= -> ->]|Hin].
  - rewrite py_dict_go_notin by done. apply lookup_insert_eq.
  - by apply IH.
Qed.

(** The value of a key is the one written in the display. *)
Lemma py_dict_lookup_in (kvs : list (string * V)) k v :
  NoDup kvs.*1 -> (k, v) ∈ kvs -> py_dict kvs !! k = Some v.
Proof. apply py_dict_go_in. Qed.

(** A key that is not written in the display is absent. *)
Lemma py_dict_lookup_notin (kvs : list (string * V)) k :
  k ∉ kvs.*1 -> py_dict kvs !! k = None.
Proof. intros Hk. unfold py_dict. by rewrite py_dict_go_notin. Qed.

(** A display of a map's entries, in any order, is the map again. *)
Lemma py_dict_map_to_list (kvs : list (string * V)) (r : gmap string V) :
  kvs ≡ₚ map_to_list r -> py_dict kvs = r.
Proof.
  intros Hp. apply map_eq. intros k. destruct (r !! k) as [v|] eqn:E.
  - apply py_dict_lookup_in; rewrite Hp; [apply NoDup_fst_map_to_list|].
    by apply elem_of_map_to_list.
  - apply py_dict_lookup_notin. rewrite Hp.
    intros ([k' v] & -> & Hin)%list_elem_of_fmap.
    apply elem_of_map_to_list in Hin. cbn in E. by rewrite Hin in E.
Qed.
End PyDict.

#[export] Hint Resolve py_dict_lookup_in py_dict_lookup_notin : mast.
