(* ===== verification/PyStr.v ===== *)
(** Python string operations the handler and the provider map use:
    [s.split(sep)] and [sep.join(ws)] for a one-character separator, and
    indexing [[0]] of the resulting list.  Python's [split] with an
    explicit separator keeps empty fields (["a..b".split(".")] is
    [["a", "", "b"]]) and returns [[""]] on the empty string; the model
    does the same.  The lemmas give the structure of [split] on
    concatenations, which the path arguments of [ProviderMap] rest on. *)

From S2P Require Import Prelude.

Module PyStr.

(** [s.split(c)] *)
Fixpoint split (c : ascii) (s : string) : list string :=
  match s with
  | EmptyString => [EmptyString]
  | String a s' =>
      let ws := split c s' in
      if Ascii.eqb a c then EmptyString :: ws
      else String a (hd EmptyString ws) :: tl ws
  end.

(** [c.join(ws)] *)
Fixpoint join (c : ascii) (ws : list string) : string :=
  match ws with
  | [] => EmptyString
  | [w] => w
  | w :: ws' => (w ++ String c (join c ws'))%string
  end.

(** [l[0]]: [None] is Python's [IndexError]. *)
Definition index0 {A} (l : list A) : option A := head l.

(** Last character, [s[-1:]]. *)
Fixpoint last_char (s : string) : option ascii :=
  match s with
  | EmptyString => None
  | String a EmptyString => Some a
  | String _ s' => last_char s'
  end.

(** [s.endswith(c)] and [s.startswith(c)] for a one-character suffix or
    prefix. *)
Definition endswith (c : ascii) (s : string) : bool :=
  match last_char s with Some a => Ascii.eqb a c | None => false end.
Definition startswith (c : ascii) (s : string) : bool :=
  match s with String a _ => Ascii.eqb a c | EmptyString => false end.

Lemma last_char_app (s t : string) :
  t <> EmptyString -> last_char (s ++ t)%string = last_char t.
Proof.
  intros Ht. induction s as [|a s IH]; [done|]. rewrite string_app_cons. cbn [last_char].
  rewrite <- IH. destruct (s ++ t)%string eqn:E; [|done].
  by apply string_app_not_empty in E.
Qed.

Lemma endswith_app_r c (s t : string) :
  t <> EmptyString -> endswith c (s ++ t) = endswith c t.
Proof. intros Ht. unfold endswith. by rewrite last_char_app. Qed.

Lemma endswith_cons c a (t : string) :
  t <> EmptyString -> endswith c (String a t) = endswith c t.
Proof. intros Ht. unfold endswith. cbn. by destruct t. Qed.

Lemma startswith_app_l c (s t : string) :
  s <> EmptyString -> startswith c (s ++ t) = startswith c s.
Proof. by destruct s. Qed.

(** Number of occurrences of a character. *)
Fixpoint count_char (c : ascii) (s : string) : nat :=
  match s with
  | EmptyString => 0
  | String a s' => (if Ascii.eqb a c then 1 else 0) + count_char c s'
  end.

(** ** Lemmas *)

Lemma split_not_nil c s : split c s <> [].
Proof.
  destruct s as [|a s]; cbn; [done|]. by destruct (Ascii.eqb a c).
Qed.

(** [s.split(c)[0]] never raises [IndexError]. *)
Lemma index0_split c s : index0 (split c s) = Some (hd EmptyString (split c s)).
Proof. pose proof (split_not_nil c s). by destruct (split c s). Qed.

Lemma split_cons c s : split c s = hd EmptyString (split c s) :: tl (split c s).
Proof. pose proof (split_not_nil c s). by destruct (split c s). Qed.

#[export] Hint Resolve split_not_nil : mast.

(** [s.split(c)] has exactly one more field than [s] has occurrences
    of [c]; in particular it is never empty. *)
Theorem length_split c s : length (split c s) = S (count_char c s).
Proof.
  induction s as [|a s IH]; cbn; [done|].
  destruct (Ascii.eqb a c); cbn; [by rewrite IH|].
  rewrite (split_cons c s) in IH |- *. cbn in *. lia.
Qed.

(** Splitting a concatenation glued by the separator concatenates the
    fields of both sides. *)
Lemma split_app_sep c (s1 s2 : string) :
  split c (s1 ++ String c s2)%string = split c s1 ++ split c s2.
Proof.
  induction s1 as [|a s1 IH]; simpl.
  - by rewrite Ascii.eqb_refl.
  - rewrite IH. destruct (Ascii.eqb a c); [done|].
    by rewrite (split_cons c s1).
Qed.

(** No field of [s.split(c)] contains [c]. *)
Theorem split_fields_sep_free c s w :
  w ∈ split c s -> count_char c w = 0.
Proof.
  revert w. induction s as [|a s IH]; intros w Hw; cbn in Hw.
  - apply list_elem_of_singleton in Hw as ->. done.
  - destruct (Ascii.eqb a c) eqn:E.
    + apply elem_of_cons in Hw as [->|Hw]; [done|by apply IH].
    + rewrite (split_cons c s) in IH. cbn in Hw.
      apply elem_of_cons in Hw as [->|Hw].
      * cbn. rewrite E. apply IH. left.
      * apply IH. by right.
Qed.

Lemma join_cons_cons c w w' ws :
  join c (w :: w' :: ws) = (w ++ String c (join c (w' :: ws)))%string.
Proof. reflexivity. Qed.

Lemma join_cons_char c a w ws :
  join c (String a w :: ws) = String a (join c (w :: ws)).
Proof. by destruct ws. Qed.

(** A string with no separator is a single field. *)
Lemma split_sep_free c w : count_char c w = 0 -> split c w = [w].
Proof.
  induction w as [|a w IH]; simpl; [done|].
  destruct (Ascii.eqb a c); [lia|]. intros H. by rewrite IH.
Qed.

(** Round trip, [c.join(s.split(c)) == s] for every string. *)
Theorem join_split c s : join c (split c s) = s.
Proof.
  induction s as [|a s IH]; [done|]. cbn [split].
  destruct (Ascii.eqb a c) eqn:E.
  - apply Ascii.eqb_eq in E as ->. rewrite (split_cons c s) in IH |- *.
    rewrite join_cons_cons, IH. done.
  - rewrite join_cons_char, <- split_cons, IH. done.
Qed.

(** Round trip the other way: splitting the join of a non-empty
    list of fields without the separator gives the fields back. *)
Theorem split_join c ws :
  ws <> [] -> Forall (fun w => count_char c w = 0) ws -> split c (join c ws) = ws.
Proof.
  induction ws as [|w [|w' ws] IH]; intros Hne Hf; [done| |].
  - inversion Hf. by apply split_sep_free.
  - inversion Hf as [|? ? Hw Hf']; subst.
    rewrite join_cons_cons, split_app_sep, IH by done.
    by rewrite split_sep_free.
Qed.

Lemma split_join_witness :
  split "." (join "." ["CPUUsage"; "tenSeconds"]) = ["CPUUsage"; "tenSeconds"]%string.
Proof.
  apply split_join; [done|]. apply (bool_decide_unpack _). by vm_compute.
Defined.

Lemma split_fields_sep_free_witness :
  count_char "." "tenSeconds" = 0.
Proof.
  apply (split_fields_sep_free "." "CPUUsage.tenSeconds" "tenSeconds").
  apply (bool_decide_unpack _). by vm_compute.
Defined.

End PyStr.
