(* ===== verification/ElementTree.v ===== *)
(** XML elements and [Element.find] of Python's ElementTree, on the paths
    the plugin builds.  This library is not part of the repository; the
    model follows ElementPath ([xml/etree/ElementPath.py]):

    - [iterfind] appends ["*"] to a path that ends with ["/"] and raises
      [SyntaxError] on a path that starts with ["/"];
    - the tokenizer reads a tag as an optional [{uri}] (which may contain
      ["/"]) followed by name characters, and ["/"] or ["//"] between
      steps: [path_split] cuts the path at the ["/"] that are outside a
      [{...}] opened at the start of a step;
    - each step becomes a selector: a tag selects the children with that
      tag, ["*"] all children, ["."] the context itself, and ["//"]
      followed by a tag or ["*"] the descendants (preorder, the context
      element excluded); a path that cannot be compiled raises
      [SyntaxError] before the document is looked at;
    - [find] returns the first element the selectors produce, or [None].

    Steps with predicates ([[...]]), [".."], or namespace prefixes are not
    used by the program and are not modelled: [compile] rejects them.
    [path_split] agrees with the library's tokenizer when no [{] opened at
    the start of a step is left unclosed ([brace_closed]). *)

From S2P Require Import Prelude PyStr.

Module ElementTree.

Inductive Element : Type :=
| Elem (tag : string) (text : option string) (children : list Element).

Definition tag (e : Element) : string := let '(Elem t _ _) := e in t.
Definition text (e : Element) : option string := let '(Elem _ x _) := e in x.
Definition children (e : Element) : list Element := let '(Elem _ _ cs) := e in cs.

(** [elem.iter()]: the element and all its descendants, in preorder. *)
Fixpoint iter (e : Element) : list Element :=
  let '(Elem _ _ cs) := e in
  e :: (fix go (cs : list Element) : list Element :=
          match cs with [] => [] | c :: cs' => iter c ++ go cs' end) cs.

(** ** Tokenizer *)

Inductive TokState := AtStart | InName | InBrace.

Definition cons_char (a : ascii) (ws : list string) : list string :=
  String a (hd EmptyString ws) :: tl ws.

Arguments cons_char : simpl never.

Fixpoint path_split_go (st : TokState) (s : string) : list string :=
  match s with
  | EmptyString => [EmptyString]
  | String a s' =>
      match st with
      | AtStart =>
          if Ascii.eqb a "/" then EmptyString :: path_split_go AtStart s'
          else if Ascii.eqb a "{" then cons_char a (path_split_go InBrace s')
          else cons_char a (path_split_go InName s')
      | InName =>
          if Ascii.eqb a "/" then EmptyString :: path_split_go AtStart s'
          else cons_char a (path_split_go InName s')
      | InBrace =>
          if Ascii.eqb a "}" then cons_char a (path_split_go InName s')
          else cons_char a (path_split_go InBrace s')
      end
  end.

Definition path_split (s : string) : list string := path_split_go AtStart s.

(** The tokenizer state after reading [s]. *)
Fixpoint tok_state (st : TokState) (s : string) : TokState :=
  match s with
  | EmptyString => st
  | String a s' =>
      match st with
      | AtStart =>
          if Ascii.eqb a "/" then tok_state AtStart s'
          else if Ascii.eqb a "{" then tok_state InBrace s'
          else tok_state InName s'
      | InName =>
          if Ascii.eqb a "/" then tok_state AtStart s' else tok_state InName s'
      | InBrace =>
          if Ascii.eqb a "}" then tok_state InName s' else tok_state InBrace s'
      end
  end.

Definition brace_closed (s : string) : bool :=
  match tok_state AtStart s with InBrace => false | _ => true end.

(** Number of step separators the tokenizer reads. *)
Fixpoint slashes (st : TokState) (s : string) : nat :=
  match s with
  | EmptyString => 0
  | String a s' =>
      match st with
      | AtStart =>
          if Ascii.eqb a "/" then S (slashes AtStart s')
          else if Ascii.eqb a "{" then slashes InBrace s'
          else slashes InName s'
      | InName =>
          if Ascii.eqb a "/" then S (slashes AtStart s') else slashes InName s'
      | InBrace =>
          if Ascii.eqb a "}" then slashes InName s' else slashes InBrace s'
      end
  end.

(** ** Selectors *)

Inductive Selector :=
| SelChild (t : string)
| SelAllChildren
| SelSelf
| SelDescendant (t : string)
| SelAllDescendants.

(** A step the model covers: a tag with no operator character. *)
Definition plain_tag (t : string) : bool :=
  negb (String.eqb t "") && negb (String.eqb t ".") && negb (String.eqb t "*")
  && negb (String.eqb t "..")
  && forallb (fun a => negb (Ascii.eqb a "[" || Ascii.eqb a "]" || Ascii.eqb a "@"
                          || Ascii.eqb a "=" || Ascii.eqb a "(" || Ascii.eqb a ")"))
             (list_ascii_of_string t).

(** Compile the steps; [None] is [SyntaxError]. *)
Fixpoint compile (steps : list string) : option (list Selector) :=
  match steps with
  | [] => Some []
  | s :: rest =>
      if String.eqb s "" then
        match rest with
        | t :: rest' =>
            let sel := if String.eqb t "*" then Some SelAllDescendants
                       else if plain_tag t then Some (SelDescendant t) else None in
            match sel, compile rest' with
            | Some x, Some xs => Some (x :: xs)
            | _, _ => None
            end
        | [] => None
        end
      else
        let sel := if String.eqb s "*" then Some SelAllChildren
                   else if String.eqb s "." then Some SelSelf
                   else if plain_tag s then Some (SelChild s) else None in
        match sel, compile rest with
        | Some x, Some xs => Some (x :: xs)
        | _, _ => None
        end
  end.

Definition has_tag (t : string) (e : Element) : bool := String.eqb (tag e) t.

Definition select (sel : Selector) (ctx : list Element) : list Element :=
  match sel with
  | SelChild t => List.concat (map (fun e => filter (has_tag t) (children e)) ctx)
  | SelAllChildren => List.concat (map children ctx)
  | SelSelf => ctx
  | SelDescendant t => List.concat (map (fun e => filter (has_tag t) (tl (iter e))) ctx)
  | SelAllDescendants => List.concat (map (fun e => tl (iter e)) ctx)
  end.

Definition run (sels : list Selector) (ctx : list Element) : list Element :=
  fold_left (fun c s => select s c) sels ctx.

(** [elem.find(path)]: [inl tt] is [SyntaxError]; [path[-1:] == "/"] and
    [path[:1] == "/"] are tested as in [iterfind]. *)
Definition find (e : Element) (path : string) : unit + option Element :=
  let path := if PyStr.endswith "/" path then (path ++ "*")%string else path in
  if PyStr.startswith "/" path then inl tt else
  match compile (path_split path) with
  | Some sels => inr (head (run sels [e]))
  | None => inl tt
  end.

(** A document whose steps [ts] each have one child, ending in [c]. *)
Fixpoint chain (ts : list string) (c : Element) : Element :=
  match ts with
  | [] => c
  | t :: ts' => Elem t None [chain ts' c]
  end.

(** ** Tokenizer lemmas *)

Lemma path_split_go_not_nil st s : path_split_go st s <> [].
Proof.
  destruct s as [|a s]; [done|]. unfold cons_char.
  destruct st; simpl; repeat case_match; done.
Qed.

#[export] Hint Resolve path_split_go_not_nil : mast.

Lemma cons_char_app a (l l' : list string) :
  l <> [] -> cons_char a (l ++ l') = cons_char a l ++ l'.
Proof. by destruct l. Qed.

Lemma length_cons_char a l : l <> [] -> length (cons_char a l) = length l.
Proof. by destruct l. Qed.

(** One more step than separators. *)
Lemma length_path_split_go st s :
  length (path_split_go st s) = S (slashes st s).
Proof.
  revert st. induction s as [|a s IH]; intros st; [done|].
  destruct st; cbn [path_split_go slashes]; repeat case_match;
    rewrite ?length_cons_char; cbn [length]; rewrite ?IH; auto with mast.
Qed.

Lemma slashes_app st (s1 s2 : string) :
  slashes st (s1 ++ s2)%string = slashes st s1 + slashes (tok_state st s1) s2.
Proof.
  revert st. induction s1 as [|a s1 IH]; intros st; [done|].
  destruct st; simpl; repeat case_match; simpl; rewrite ?IH; lia.
Qed.

(** Gluing two paths with a separator outside any brace concatenates
    their steps. *)
Lemma path_split_go_app_slash st (s1 s2 : string) :
  tok_state st s1 <> InBrace ->
  path_split_go st (s1 ++ String "/" s2)%string = path_split_go st s1 ++ path_split s2.
Proof.
  revert st. induction s1 as [|a s1 IH]; intros st Hst.
  - destruct st; [done|done|by cbn in Hst].
  - autorewrite with mast_run.
    destruct st; cbn [tok_state path_split_go] in *;
      repeat case_match; cbn [app]; rewrite ?IH, ?cons_char_app; auto with mast.
Qed.

(** The steps of a concatenation: the last step of the first part and
    the first step of the second part form one step. *)
Definition glue (l1 l2 : list string) : list string :=
  List.removelast l1 ++ [(List.last l1 "" ++ hd "" l2)%string] ++ tl l2.

Lemma glue_nil_l l2 : l2 <> [] -> glue [""] l2 = l2.
Proof. destruct l2; [done|]. reflexivity. Qed.

Lemma glue_cons x l1 l2 : l1 <> [] -> x :: glue l1 l2 = glue (x :: l1) l2.
Proof. by destruct l1. Qed.

Lemma glue_cons_char a l1 l2 :
  l1 <> [] -> cons_char a (glue l1 l2) = glue (cons_char a l1) l2.
Proof. unfold cons_char, glue. destruct l1 as [|y [|z l1]]; done. Qed.

Lemma path_split_go_app st (s1 s2 : string) :
  path_split_go st (s1 ++ s2)%string =
    glue (path_split_go st s1) (path_split_go (tok_state st s1) s2).
Proof.
  revert st. induction s1 as [|a s1 IH]; intros st.
  - symmetry. apply glue_nil_l, path_split_go_not_nil.
  - rewrite string_app_cons.
    destruct st; cbn [path_split_go tok_state]; repeat case_match;
      rewrite IH, ?glue_cons_char, ?glue_cons; auto with mast.
Qed.

(** A name without ["/"] is one step, read in the name state. *)
Lemma path_split_go_name (s : string) :
  PyStr.count_char "/" s = 0 ->
  path_split_go InName s = [s] /\ tok_state InName s = InName.
Proof.
  induction s as [|a s IH]; [done|]. cbn.
  destruct (Ascii.eqb a "/"); [lia|]. intros Hs. destruct (IH Hs) as [-> ->].
  done.
Qed.

Lemma path_split_go_sep s : path_split_go InName (String "/" s) = "" :: path_split s.
Proof. reflexivity. Qed.

(** Gluing after a root that ends inside a name. *)
Lemma glue_sep ts l : ts <> [] -> glue ts ("" :: l) = ts ++ l.
Proof.
  intros Hts. unfold glue. cbn [hd tl]. rewrite string_app_nil_r.
  rewrite app_assoc. by rewrite <- app_removelast_last.
Qed.

(** ** Selector lemmas *)

Lemma run_cons sel sels ctx : run (sel :: sels) ctx = run sels (select sel ctx).
Proof. reflexivity. Qed.

Lemma run_nil sels : run sels [] = [].
Proof. induction sels as [|sel sels IH]; [done|]. rewrite run_cons. by destruct sel. Qed.

Lemma select_child_single t r x e :
  select (SelChild t) [Elem r x [e]] = if has_tag t e then [e] else [].
Proof. cbn. by destruct (has_tag t e). Qed.

Lemma has_tag_elem t x cs : has_tag t (Elem t x cs) = true.
Proof. apply String.eqb_refl. Qed.

Lemma chain_app ts1 ts2 c : chain (ts1 ++ ts2) c = chain ts1 (chain ts2 c).
Proof. induction ts1 as [|t ts1 IH]; [done|]. cbn. by rewrite IH. Qed.

(** Following the steps of a chain reaches the parent of its end. *)
Lemma run_chain ts r x c sels :
  exists r' x', run (map SelChild ts ++ sels) [Elem r x [chain ts c]] = run sels [Elem r' x' [c]].
Proof.
  revert r x. induction ts as [|t ts IH]; intros r x; [by exists r, x|].
  cbn [map app chain]. rewrite run_cons, select_child_single, has_tag_elem. apply IH.
Qed.

Lemma plain_tag_not_op t :
  plain_tag t = true -> String.eqb t "" = false /\ String.eqb t "*" = false /\ String.eqb t "." = false.
Proof.
  unfold plain_tag. intros Hp.
  destruct (String.eqb t ""), (String.eqb t "*"), (String.eqb t "."); by cbn in Hp.
Qed.

(** Steps that are all tags compile to child selectors. *)
Lemma compile_plain ts :
  Forall (fun t => plain_tag t = true) ts -> compile ts = Some (map SelChild ts).
Proof.
  induction 1 as [|t ts Ht _ IH]; [done|]. cbn [compile].
  destruct (plain_tag_not_op t Ht) as (-> & -> & ->). by rewrite Ht, IH.
Qed.

Lemma find_run e path sels :
  PyStr.endswith "/" path = false -> PyStr.startswith "/" path = false ->
  compile (path_split path) = Some sels -> find e path = inr (head (run sels [e])).
Proof. intros He Hs Hc. unfold find. by rewrite He, Hs, Hc. Qed.

Lemma list_ascii_of_string_app (s1 s2 : string) :
  list_ascii_of_string (s1 ++ s2) = list_ascii_of_string s1 ++ list_ascii_of_string s2.
Proof.
  induction s1 as [|a s1 IH]; [done|].
  rewrite string_app_cons. cbn [list_ascii_of_string]. by rewrite IH.
Qed.

(** Two tags glued together are a tag. *)
Lemma plain_tag_app t1 t2 :
  plain_tag t1 = true -> plain_tag t2 = true -> plain_tag (t1 ++ t2) = true.
Proof.
  unfold plain_tag. intros [H1 F1]%andb_true_iff [H2 F2]%andb_true_iff.
  rewrite list_ascii_of_string_app, forallb_app, F1, F2, !andb_true_r.
  destruct t1 as [|a r1]; [by cbn in H1|]. destruct t2 as [|b r2]; [by cbn in H2|].
  destruct r1 as [|c [|d r1]], r2 as [|e r2]; simpl in *;
    repeat (case_match; simpl in * ); done.
Qed.

End ElementTree.
