(* ===== verification/ProviderMap.v ===== *)
(** [PROVIDER_MAP] (status.py lines 9-18): the static dict from a metric
    name ["Category.Field"] to the ElementTree path of its value in the
    appliance's status response.  The paths are built by string
    concatenation from the external constant [datapower.STATUS_XPATH],
    which is a Section variable here: every theorem holds for every value
    of it.

    The three first literals start with ["/"], the five last do not.  The
    theorem [provider_path_consistent_iff] shows what this does to the
    steps ElementTree reads: for the first three the steps are those of
    [STATUS_XPATH] followed by the category and the field of the metric
    name; for the five others the category is glued onto the last step of
    [STATUS_XPATH], so the path has one step too few. *)

From S2P Require Import Prelude PyStr ElementTree.

Module ProviderMap.
Import ElementTree.

Section WithStatusXPath.

Variable STATUS_XPATH : string.

Definition PROVIDER_MAP_entries : list (string * string) :=
  [("CPUUsage.tenSeconds", STATUS_XPATH ++ "/CPUUsage/tenSeconds");
   ("TCPSummary.established", STATUS_XPATH ++ "/TCPSummary/established");
   ("MemoryStatus.Usage", STATUS_XPATH ++ "/MemoryStatus/Usage");
   ("FilesystemStatus.FreeTemporary", STATUS_XPATH ++ "FilesystemStatus/FreeTemporary");
   ("FilesystemStatus.FreeEncrypted", STATUS_XPATH ++ "FilesystemStatus/FreeEncrypted");
   ("FilesystemStatus.FreeInternal", STATUS_XPATH ++ "FilesystemStatus/FreeInternal");
   ("SystemUsage.Load", STATUS_XPATH ++ "SystemUsage/Load");
   ("SystemUsage.WorkList", STATUS_XPATH ++ "SystemUsage/WorkList")]%string.

Definition PROVIDER_MAP : gmap string string := py_dict PROVIDER_MAP_entries.

End WithStatusXPath.

(** The metric names, in the order of the dict display. *)
Definition metric_names : list string := (PROVIDER_MAP_entries "").*1.

(** The entries whose path is the status root, then category, then field. *)
Definition well_formed_metrics : list string :=
  ["CPUUsage.tenSeconds"; "TCPSummary.established"; "MemoryStatus.Usage"].

(** The entries whose literal does not start with ["/"]. *)
Definition glued_metrics : list string :=
  ["FilesystemStatus.FreeTemporary"; "FilesystemStatus.FreeEncrypted";
   "FilesystemStatus.FreeInternal"; "SystemUsage.Load"; "SystemUsage.WorkList"].

#[export] Instance TokState_eq_dec : EqDecision TokState.
Proof. solve_decision. Defined.

(** The steps of the status root read as a directory: a root that ends
    with ["/"] (or is empty) ends with an empty step, which is not one of
    its elements. *)
Definition root_steps (base : string) : list string :=
  match tok_state AtStart base with
  | InName => path_split base
  | _ => List.removelast (path_split base)
  end.

(** The path of metric [k] is the child path "root, category, field": its
    steps are those of the root followed by the ["."]-separated parts of
    the name. *)
Definition path_consistent (base k : string) : Prop :=
  exists xp, PROVIDER_MAP base !! k = Some xp /\
             path_split xp = root_steps base ++ PyStr.split "." k.

(** A status root of the shape of a DataPower SOAP management response
    (Clark notation, with ["/"] inside the namespace URIs), used by the
    concrete runs. *)
Definition SOAP_NS : string := "{http://schemas.xmlsoap.org/soap/envelope/}".
Definition MGMT_NS : string := "{http://www.datapower.com/schemas/management}".
Definition sample_STATUS_XPATH : string :=
  (SOAP_NS ++ "Body/" ++ MGMT_NS ++ "get-status-response/" ++ MGMT_NS ++ "status")%string.

(** ** Lemmas *)

Lemma PROVIDER_MAP_entries_keys base : (PROVIDER_MAP_entries base).*1 = metric_names.
Proof. reflexivity. Qed.

Lemma metric_names_eq :
  metric_names =
    ["CPUUsage.tenSeconds"; "TCPSummary.established"; "MemoryStatus.Usage";
     "FilesystemStatus.FreeTemporary"; "FilesystemStatus.FreeEncrypted";
     "FilesystemStatus.FreeInternal"; "SystemUsage.Load"; "SystemUsage.WorkList"]%string.
Proof. reflexivity. Qed.

Lemma metric_names_NoDup : NoDup metric_names.
Proof. apply (bool_decide_unpack _). by vm_compute. Qed.

Lemma PROVIDER_MAP_lookup base k v :
  (k, v) ∈ PROVIDER_MAP_entries base -> PROVIDER_MAP base !! k = Some v.
Proof.
  intros. apply py_dict_lookup_in; [|done].
  rewrite PROVIDER_MAP_entries_keys. apply metric_names_NoDup.
Qed.

Lemma PROVIDER_MAP_lookup_Some base k v :
  PROVIDER_MAP base !! k = Some v -> (k, v) ∈ PROVIDER_MAP_entries base.
Proof.
  intros H. destruct (decide (k ∈ metric_names)) as [Hk|Hk].
  - rewrite <- (PROVIDER_MAP_entries_keys base) in Hk.
    apply list_elem_of_fmap in Hk as [[k' v'] [Heq Hin]]. cbn in Heq; subst k'.
    by rewrite (PROVIDER_MAP_lookup _ _ _ Hin) in H; simplify_eq.
  - unfold PROVIDER_MAP in H. rewrite py_dict_lookup_notin in H; [done|].
    by rewrite PROVIDER_MAP_entries_keys.
Qed.

Lemma PROVIDER_MAP_lookup_key base k v :
  PROVIDER_MAP base !! k = Some v -> k ∈ metric_names.
Proof.
  intros Hv%PROVIDER_MAP_lookup_Some. rewrite <- (PROVIDER_MAP_entries_keys base).
  apply list_elem_of_fmap. by exists (k, v).
Qed.

Lemma PROVIDER_MAP_lookup_None base k :
  k ∉ metric_names -> PROVIDER_MAP base !! k = None.
Proof.
  intros Hk. unfold PROVIDER_MAP. apply py_dict_lookup_notin.
  by rewrite PROVIDER_MAP_entries_keys.
Qed.

(** A status root the tokenizer leaves outside a brace, glued with a step
    that starts with a letter and holds one separator, gains exactly one
    step. *)
Lemma length_path_split_glued base (t : string) :
  brace_closed base = true ->
  slashes AtStart t = 1 -> slashes InName t = 1 ->
  length (path_split (base ++ t)%string) = S (length (path_split base)).
Proof.
  unfold brace_closed, path_split. intros Hb H0 H1.
  rewrite !length_path_split_go, slashes_app.
  destruct (tok_state AtStart base); [lia|lia|done].
Qed.

(** A root the tokenizer leaves at the start of a step is empty or ends
    with a separator read outside a brace. *)
Lemma tok_state_cons st a (s : string) :
  tok_state st (String a s) =
    tok_state (match st with
               | AtStart => if Ascii.eqb a "/" then AtStart
                            else if Ascii.eqb a "{" then InBrace else InName
               | InName => if Ascii.eqb a "/" then AtStart else InName
               | InBrace => if Ascii.eqb a "}" then InName else InBrace
               end) s.
Proof. destruct st; cbn; by repeat case_match. Qed.

Lemma tok_state_at_start st (s : string) :
  tok_state st s = AtStart ->
  (s = EmptyString /\ st = AtStart) \/
  exists b, s = (b ++ "/")%string /\ tok_state st b <> InBrace.
Proof.
  revert st. induction s as [|a s IH]; intros st H; [by left|right].
  rewrite tok_state_cons in H. destruct s as [|a' s].
  - exists EmptyString. cbn in H. destruct st; repeat case_match; try done;
      (split; [|done]);
      match goal with E : Ascii.eqb a "/" = true |- _ => by apply Ascii.eqb_eq in E as -> end.
  - destruct (IH _ H) as [[? _]|(b & Hb & Hs)]; [done|].
    exists (String a b). rewrite Hb. split; [done|]. by rewrite tok_state_cons.
Qed.

(** After a root that ends with ["/"] (or is empty), the steps of the
    rest follow the steps of the root. *)
Lemma path_split_after_sep base (t : string) :
  tok_state AtStart base = AtStart ->
  path_split (base ++ t) = root_steps base ++ path_split t.
Proof.
  intros H. unfold root_steps. rewrite H.
  destruct (tok_state_at_start AtStart base H) as [[-> _]|(b & -> & Hb)]; [done|].
  rewrite <- string_app_assoc. change ("/" ++ t)%string with (String "/" t).
  rewrite <- (string_app_nil_r (b ++ "/")), <- string_app_assoc.
  change ("/" ++ "")%string with (String "/" "").
  unfold path_split. rewrite !path_split_go_app_slash by done.
  cbn [path_split path_split_go]. by rewrite removelast_last.
Qed.

(** ** Theorems *)


(** C5: exactly one of the two groups of literals builds the child path
    "status root, category, field", and which one depends on how
    [STATUS_XPATH] ends (for every root outside a [{uri}]): when the root
    ends inside a name, the three literals written with a leading ["/"]
    ([CPUUsage.tenSeconds], [TCPSummary.established],
    [MemoryStatus.Usage]), and the five others glue the category onto the
    last step of the root; when the root ends with ["/"] (or is empty),
    the five [FilesystemStatus.*] and [SystemUsage.*] literals, and the
    three others put an empty step, ElementPath's [//], before the
    category. *)
Theorem provider_path_consistent_iff base k :
  brace_closed base = true ->
  path_consistent base k <->
    k ∈ (if bool_decide (tok_state AtStart base = InName)
         then well_formed_metrics else glued_metrics).
Proof.
  intros Hb. unfold brace_closed in Hb.
  destruct (tok_state AtStart base) eqn:Hst; [|clear Hb|done]; cbn [bool_decide decide_rel].
  - (* the root ends with a separator *)
    rewrite bool_decide_false by done. split.
    + intros (xp & Hxp & Hsteps). apply PROVIDER_MAP_lookup_Some in Hxp.
      unfold PROVIDER_MAP_entries in Hxp.
      repeat (apply elem_of_cons in Hxp as [Hxp|Hxp]); [..|by apply not_elem_of_nil in Hxp];
      injection Hxp as -> ->;
        rewrite path_split_after_sep in Hsteps by done;
        apply app_inv_head in Hsteps; revert Hsteps;
        first [intros _; unfold glued_metrics; set_solver
              |intros Hs; exfalso; revert Hs; apply (bool_decide_unpack _); by vm_compute].
    + intros Hk. unfold glued_metrics in Hk. list_elem_cases Hk;
        (eexists; split; [apply PROVIDER_MAP_lookup, list_elem_of_In; cbn [PROVIDER_MAP_entries In];
                   repeat (first [left; reflexivity | right])|];
         rewrite path_split_after_sep by done; apply (f_equal (app _)); by vm_compute).
  - (* the root ends inside a name *)
    rewrite bool_decide_true by done. split.
    + intros (xp & Hxp & Hsteps). apply PROVIDER_MAP_lookup_Some in Hxp.
      unfold root_steps in Hsteps. rewrite Hst in Hsteps.
      unfold PROVIDER_MAP_entries in Hxp.
      repeat (apply elem_of_cons in Hxp as [Hxp|Hxp]); [..|by apply not_elem_of_nil in Hxp];
      injection Hxp as -> ->.
      1-3: unfold well_formed_metrics; set_solver.
      all: exfalso; apply (f_equal length) in Hsteps;
        rewrite length_path_split_glued, length_app in Hsteps by (unfold brace_closed; rewrite ?Hst; done);
        cbn in Hsteps; lia.
    + intros Hk. unfold path_consistent, root_steps. rewrite Hst.
      unfold well_formed_metrics in Hk. list_elem_cases Hk;
        (eexists; split; [apply PROVIDER_MAP_lookup, list_elem_of_In; cbn [PROVIDER_MAP_entries In];
                   repeat (first [left; reflexivity | right])|];
         unfold path_split; rewrite path_split_go_app_slash by (rewrite Hst; done);
         apply (f_equal (app _)); by vm_compute).
Qed.

(** Witness of C5 at the sample status root, which ends inside a name,
    and at the same root followed by ["/"]. *)
Lemma provider_path_consistent_iff_witness :
  brace_closed sample_STATUS_XPATH = true /\
  ~ path_consistent sample_STATUS_XPATH "FilesystemStatus.FreeTemporary" /\
  path_consistent sample_STATUS_XPATH "CPUUsage.tenSeconds" /\
  brace_closed (sample_STATUS_XPATH ++ "/") = true /\
  path_consistent (sample_STATUS_XPATH ++ "/") "FilesystemStatus.FreeTemporary" /\
  ~ path_consistent (sample_STATUS_XPATH ++ "/") "CPUUsage.tenSeconds".
Proof.
  assert (Hb1 : brace_closed sample_STATUS_XPATH = true) by reflexivity.
  assert (Hb2 : brace_closed (sample_STATUS_XPATH ++ "/") = true) by reflexivity.
  split_and!; [exact Hb1| | |exact Hb2| |].
  - intros Hc. apply (provider_path_consistent_iff sample_STATUS_XPATH _ eq_refl) in Hc.
    revert Hc. apply (bool_decide_unpack _). by vm_compute.
  - apply (provider_path_consistent_iff sample_STATUS_XPATH _ eq_refl).
    apply (bool_decide_unpack _). by vm_compute.
  - apply (provider_path_consistent_iff (sample_STATUS_XPATH ++ "/") _ eq_refl).
    apply (bool_decide_unpack _). by vm_compute.
  - intros Hc. apply (provider_path_consistent_iff (sample_STATUS_XPATH ++ "/") _ eq_refl) in Hc.
    revert Hc. apply (bool_decide_unpack _). by vm_compute.
Defined.

End ProviderMap.
