(* ===== verification/Device.v ===== *)
(** The collaborators of the handler that are not in the repository, as
    the handler sees them.

    - [MastLib] is the interface (a typeclass) of the pure functions the
      handler calls: [mast.xor.xordecode]/[xorencode], the short format
      of [mast.timestamp.Timestamp], [datapower.Environment] and the
      constant [datapower.STATUS_XPATH].  Its one law,
      [Environment_hostnames], is what the handler relies on: the
      environment holds one appliance per hostname, in the given order.
    - [World] is the state the handler's effects act on: the clock read by
      [Timestamp()] and advanced by [sleep], the log of the status
      queries issued, and the appliances' behaviour as an oracle that
      answers the [n]-th query.  The oracle is arbitrary, so every
      deterministic appliance (one that answers, fails intermittently,
      or raises) is an instance of it.
    - [get_status] and [sleep] are the two effectful calls of the
      handler: [DataPower.get_status] and [time.sleep]. *)

From S2P Require Import Prelude ElementTree ProviderMap.

Module Device.
Import ElementTree.

(** A [datapower.DataPower] object: the fields the environment sets. *)
Record Appliance : Type := mkAppliance {
  hostname : string;
  credentials : string;
  check_hostname : bool
}.

(** The outcome of [appliance.get_status(provider)]: a response whose
    [.xml] is the parsed document, the exception
    [datapower.AuthenticationFailure], or any other exception. *)
Inductive StatusOutcome : Type :=
| StatusResponse (xml : Element)
| AuthenticationFailure
| OtherException (msg : string).

Class MastLib : Type := {
  xordecode : string -> string -> string;
  xorencode : string -> string;
  Timestamp_short : Z -> string;
  Environment : list string -> list string -> bool -> list Appliance;
  Environment_hostnames : forall hs cs b, map hostname (Environment hs cs b) = hs;
  STATUS_XPATH : string
}.

Record World : Type := mkWorld {
  clock : Z;
  queries : list (string * string);
  respond : nat -> Appliance -> string -> StatusOutcome
}.

(** [appliance.get_status(provider)]: one query, logged, answered by the
    oracle according to how many queries came before it. *)
Definition get_status (a : Appliance) (provider : string) (w : World)
    : StatusOutcome * World :=
  (respond w (length (queries w)) a provider,
   mkWorld (clock w) (queries w ++ [(hostname a, provider)]) (respond w)).

(** [time.sleep(secs)] *)
Definition sleep (secs : Z) (w : World) : World :=
  mkWorld (clock w + secs) (queries w) (respond w).

(** ** Lemmas *)

Lemma length_Environment `{MastLib} hs cs b : length (Environment hs cs b) = length hs.
Proof. by rewrite <- (length_map hostname), Environment_hostnames. Qed.

(** ** Sample collaborators for concrete runs

    A library whose environment gives every appliance the first
    credential, and appliances answering with a document of the shape of
    a DataPower [get-status] response: the status element holds the
    requested category with its fields. *)

Definition sample_lib : MastLib.
Proof.
  refine {| xordecode s _ := s; xorencode k := k; Timestamp_short _ := "12:00:00";
            Environment hs cs b := map (fun h => mkAppliance h (hd "" cs) b) hs;
            STATUS_XPATH := ProviderMap.sample_STATUS_XPATH |}.
  intros hs cs b. induction hs as [|h hs IH]; cbn; congruence.
Defined.

Definition sample_fields (cat : string) : list string :=
  match cat with
  | "CPUUsage" => ["tenSeconds"; "oneMinute"]
  | "TCPSummary" => ["established"]
  | "MemoryStatus" => ["Usage"; "TotalMemory"]
  | "FilesystemStatus" => ["FreeTemporary"; "FreeEncrypted"; "FreeInternal"]
  | "SystemUsage" => ["Load"; "WorkList"]
  | _ => []
  end%string.

Definition status_doc (h cat : string) : Element :=
  Elem (ProviderMap.SOAP_NS ++ "Envelope") None
    [Elem (ProviderMap.SOAP_NS ++ "Body") None
      [Elem (ProviderMap.MGMT_NS ++ "get-status-response") None
        [Elem (ProviderMap.MGMT_NS ++ "status") None
          [Elem cat None (map (fun f => Elem f (Some (h ++ ":" ++ f)) []) (sample_fields cat))]]]]%string.

End Device.
