(* ===== verification/Status.v ===== *)
(** [WebPlugin.status] (status.py lines 64-112), the request handler.

    The handler runs in the error-state monad [ESM World Exc] of
    [Prelude]: Python exceptions are values of [Exc], and the world keeps
    the queries issued and the time slept before an exception.

    - [decode_credentials] is the list comprehension of lines 70-72: the
      cookie is looked up once per credential, so a missing cookie only
      matters when a credential is given.
    - [extract_metric] is line 110, [_status.xml.find(PROVIDER_MAP[p]).text].
    - [collect_appliances] is the inner loop (lines 88-111) and
      [collect_providers] the outer loop (lines 85-111).  The
      [except AuthenticationFailure] branch sleeps two seconds and signals
      [Restart]; [status] then makes the recursive call [self.status()]
      with one unit of fuel less, exactly as the Python handler returns the
      result of the recursive call.
    - [status fuel] is the handler; [fuel] is the number of nested
      [self.status()] calls Python's recursion limit allows, and running
      out of it is [RecursionError], which the [except:] clauses log and
      re-raise unchanged.

    [collect_spec] is the abstract specification of a successful
    collection (spec section 4.1): the echoed appliances, the time, and for
    every metric one value per appliance in appliance order. *)

From S2P Require Import Prelude PyStr ElementTree ProviderMap Device.

Module Status.
Import ElementTree ProviderMap Device.

(** The JSON values of the response. *)
Inductive JVal : Type :=
| JStr (s : string)
| JNull
| JArr (vs : list JVal).

(** The exceptions that leave the handler. *)
Inductive Exc : Type :=
| HTTPNotFound                      (** [flask.abort(404)] *)
| BadRequestKeyError (key : string) (** [flask.request.cookies[key]], absent
                                        (a plain [KeyError] before Werkzeug 1.0) *)
| IndexError                        (** [provider.split(".")[0]] on [[]] *)
| KeyError (key : string)           (** [PROVIDER_MAP[provider]], absent *)
| XPathSyntaxError                  (** [find] with a path it cannot compile *)
| AttributeError                    (** [None.text] *)
| DeviceError (msg : string)        (** re-raised exception of [get_status] *)
| RecursionError.                   (** Python's recursion limit *)

(** The parts of [flask.request] the handler reads. *)
Record Request : Type := mkRequest {
  form_appliances : list string;    (** [form.getlist('appliances[]')] *)
  form_credentials : list string;   (** [form.getlist('credentials[]')] *)
  form_providers : list string;     (** [form.getlist("providers[]")] *)
  cookies : gmap string string
}.

Definition COOKIE_KEY : string := "9x4h/mmek/j.ahba.ckhafn".

Inductive Step (A : Type) : Type :=
| Done (a : A)
| Restart.
Arguments Done {A} a.
Arguments Restart {A}.

Abbreviation M := (ESM World Exc).

Section Handler.
Context `{MastLib}.
Variable req : Request.

(** Lines 70-72. *)
Fixpoint decode_credentials (cs : list string) : M (list string) :=
  match cs with
  | [] => esm_ret []
  | c :: cs' =>
      match cookies req !! COOKIE_KEY with
      | None => esm_raise (BadRequestKeyError COOKIE_KEY)
      | Some k =>
          do rest <- decode_credentials cs';
          esm_ret (xordecode c (xorencode k) :: rest)
      end
  end.

(** Line 110: [_status.xml.find(PROVIDER_MAP[provider]).text]; a text of
    [None] is sent as JSON [null]. *)
Definition extract_metric (doc : Element) (provider : string) : Exc + JVal :=
  match PROVIDER_MAP STATUS_XPATH !! provider with
  | None => inl (KeyError provider)
  | Some xp =>
      match find doc xp with
      | inl _ => inl XPathSyntaxError
      | inr None => inl AttributeError
      | inr (Some e) =>
          inr (match text e with Some s => JStr s | None => JNull end)
      end
  end.

(** Lines 88-111, the loop over [env.appliances] for one provider. *)
Fixpoint collect_appliances (provider cat : string) (apps : list Appliance)
    (acc : list JVal) : M (Step (list JVal)) :=
  match apps with
  | [] => esm_ret (Done acc)
  | a :: apps' =>
      do st <- esm_lift (get_status a cat);
      match st with
      | AuthenticationFailure =>
          do _ <- esm_lift (fun w => (tt, sleep 2 w));
          esm_ret Restart
      | OtherException msg => esm_raise (DeviceError msg)
      | StatusResponse doc =>
          match extract_metric doc provider with
          | inl e => esm_raise e
          | inr v => collect_appliances provider cat apps' (acc ++ [v])
          end
      end
  end.

(** Lines 85-111, the loop over the providers: [resp[provider] = []] then
    the values appended by the inner loop; the list is stored when the
    inner loop finishes, which is the same since [resp] is dropped on
    every other exit. *)
Fixpoint collect_providers (apps : list Appliance) (providers : list string)
    (resp : gmap string JVal) : M (Step (gmap string JVal)) :=
  match providers with
  | [] => esm_ret (Done resp)
  | p :: ps =>
      match PyStr.index0 (PyStr.split "." p) with
      | None => esm_raise IndexError
      | Some cat =>
          do r <- collect_appliances p cat apps [];
          match r with
          | Restart => esm_ret Restart
          | Done vs => collect_providers apps ps (<[p := JArr vs]> resp)
          end
      end
  end.

(** Lines 64-112. *)
Fixpoint status (fuel : nat) : M (gmap string JVal) :=
  match fuel with
  | O => esm_raise RecursionError
  | S fuel' =>
      do w <- esm_get;
      let t := clock w in
      let appliances := form_appliances req in
      do credentials <- decode_credentials (form_credentials req);
      match appliances with
      | [] => esm_raise HTTPNotFound
      | _ :: _ =>
          let env := Environment appliances credentials false in
          let providers := form_providers req in
          let resp := py_dict [("appliances", JArr (map JStr appliances));
                               ("time", JStr (Timestamp_short t))] in
          do r <- collect_providers env providers resp;
          match r with
          | Restart => status fuel'
          | Done resp' => esm_ret resp'
          end
      end
  end.

End Handler.

(** ** Abstract specification of a successful collection *)

(** The category a provider is queried for: [provider.split(".")[0]]. *)
Definition category (p : string) : string := hd "" (PyStr.split "." p).

(** [value h p] is the value of metric [p] on the appliance [h]. *)
Definition collect_spec (hosts : list string) (time : string)
    (providers : list string) (value : string -> string -> JVal) : gmap string JVal :=
  foldl (fun r p => <[p := JArr (map (fun h => value h p) hosts)]> r)
        (py_dict [("appliances", JArr (map JStr hosts)); ("time", JStr time)])
        providers.

(** The queries a successful collection issues: one per provider and
    appliance, providers outermost. *)
Definition spec_queries (hosts providers : list string) : list (string * string) :=
  List.concat (map (fun p => map (fun h => (h, category p)) hosts) providers).

(** ** Lemmas *)

Section Proofs.
Context `{MastLib}.


Lemma collect_appliances_done_length p cat apps acc w vs w' :
  collect_appliances p cat apps acc w = (inr (Done vs), w') ->
  length vs = length acc + length apps.
Proof.
  revert acc w. induction apps as [|a apps IH]; intros acc w Hrun; cbn in Hrun.
  - esm_unfold. simplify_eq. cbn. lia.
  - repeat esm_step. apply IH in Hrun. rewrite length_app in Hrun. cbn in *. lia.
Qed.

(** A key that is not a requested provider keeps its value. *)
Lemma collect_providers_notin apps ps resp w r w' k :
  collect_providers apps ps resp w = (inr (Done r), w') -> k ∉ ps -> r !! k = resp !! k.
Proof.
  revert resp w. induction ps as [|p ps IH]; intros resp w Hrun Hk; cbn in Hrun.
  - esm_unfold. by simplify_eq.
  - rewrite elem_of_cons in Hk. repeat esm_step.
    rewrite (IH _ _ Hrun) by naive_solver. apply lookup_insert_ne. naive_solver.
Qed.

(** Every requested provider ends with one value per appliance, also when
    it is requested twice: the later request replaces the earlier list. *)
Lemma collect_providers_lengths apps ps resp w r w' :
  collect_providers apps ps resp w = (inr (Done r), w') ->
  forall p, p ∈ ps -> exists vs, r !! p = Some (JArr vs) /\ length vs = length apps.
Proof.
  revert resp w. induction ps as [|p0 ps IH]; intros resp w Hrun p Hp; cbn in Hrun.
  - by apply not_elem_of_nil in Hp.
  - repeat esm_step.
    destruct (decide (p ∈ ps)) as [Hin|Hnin]; [by eapply IH|].
    apply elem_of_cons in Hp as [->|]; [|done].
    rewrite (collect_providers_notin _ _ _ _ _ _ _ Hrun Hnin), lookup_insert_eq.
    eexists; split; [done|].
    match goal with Hc : collect_appliances _ _ _ _ _ = _ |- _ =>
      apply collect_appliances_done_length in Hc end.
    cbn in *. lia.
Qed.

Lemma decode_credentials_ok req cs w :
  cs = [] \/ is_Some (cookies req !! COOKIE_KEY) ->
  exists creds, decode_credentials req cs w = (inr creds, w).
Proof.
  intros Hc. induction cs as [|c cs IH]; cbn; [by eexists|].
  destruct Hc as [|[k Hk]]; [done|]. rewrite Hk.
  destruct IH as [creds Hcr]; [by right; exists k|].
  esm_unfold. rewrite Hcr. by eexists.
Qed.

(** Appliances that answer every query from now on. *)
Definition answers (w : World) (docs : string -> string -> Element) : Prop :=
  forall n a c, length (queries w) <= n -> respond w n a c = StatusResponse (docs (hostname a) c).

Lemma answers_later w docs q :
  answers w docs -> answers (mkWorld (clock w) (queries w ++ q) (respond w)) docs.
Proof.
  intros Hans n a c Hn. apply Hans. cbn in Hn. rewrite length_app in Hn. lia.
Qed.

#[local] Hint Resolve answers_later : mast.

Lemma collect_appliances_answers p cat apps acc w docs value :
  answers w docs ->
  (forall a, a ∈ apps -> extract_metric (docs (hostname a) cat) p = inr (value (hostname a) p)) ->
  collect_appliances p cat apps acc w =
    (inr (Done (acc ++ map (fun h => value h p) (map hostname apps))),
     mkWorld (clock w) (queries w ++ map (fun h => (h, cat)) (map hostname apps)) (respond w)).
Proof.
  revert acc w. induction apps as [|a apps IH]; intros acc w Hans Hext; cbn.
  - esm_unfold. rewrite !app_nil_r. by destruct w.
  - esm_unfold. cbn. rewrite Hans by done.
    rewrite Hext by (by left).
    rewrite IH; [|auto with mast|by intros; apply Hext; right].
    cbn. by rewrite <- !app_assoc.
Qed.

Lemma collect_providers_answers apps ps resp w docs value :
  answers w docs ->
  (forall a p, a ∈ apps -> p ∈ ps ->
     extract_metric (docs (hostname a) (category p)) p = inr (value (hostname a) p)) ->
  collect_providers apps ps resp w =
    (inr (Done (foldl (fun r p => <[p := JArr (map (fun h => value h p) (map hostname apps))]> r)
                      resp ps)),
     mkWorld (clock w)
       (queries w ++ List.concat (map (fun p => map (fun h => (h, category p)) (map hostname apps)) ps))
       (respond w)).
Proof.
  revert resp w. induction ps as [|p ps IH]; intros resp w Hans Hext; cbn.
  - esm_unfold. rewrite app_nil_r. by destruct w.
  - rewrite PyStr.index0_split. esm_unfold.
    rewrite (collect_appliances_answers _ _ _ _ _ docs value) by
      (done || by intros; apply Hext; [|left]).
    cbn. rewrite IH; [|auto with mast|by intros; apply Hext; [|right]].
    cbn. by rewrite <- !app_assoc.
Qed.

Lemma hostname_in_Environment a hs cs b :
  a ∈ Environment hs cs b -> hostname a ∈ hs.
Proof.
  intros Ha. rewrite <- (Environment_hostnames hs cs b).
  apply list_elem_of_fmap. by exists a.
Qed.

(** Appliances that fail the next [k] queries with [AuthenticationFailure]. *)
Definition fails_next (w : World) (k : nat) : Prop :=
  forall n a c, length (queries w) <= n < length (queries w) + k ->
    respond w n a c = AuthenticationFailure.

(** Appliances that fail the next [k] queries, then answer. *)
Definition fails_then_answers (w : World) (k : nat) (docs : string -> string -> Element) : Prop :=
  fails_next w k /\
  forall n a c, length (queries w) + k <= n -> respond w n a c = StatusResponse (docs (hostname a) c).

Lemma Environment_cons h hs cs b :
  exists a apps, Environment (h :: hs) cs b = a :: apps /\ hostname a = h.
Proof.
  pose proof (Environment_hostnames (h :: hs) cs b) as Hh.
  destruct (Environment (h :: hs) cs b) as [|a apps]; [done|].
  injection Hh as Ha _. by exists a, apps.
Qed.

(** One attempt whose first query fails authentication sleeps two
    seconds and makes the recursive call [self.status()]. *)
Lemma status_attempt_auth_failure req fuel w h hs p ps :
  form_appliances req = h :: hs -> form_providers req = p :: ps ->
  form_credentials req = [] \/ is_Some (cookies req !! COOKIE_KEY) ->
  (forall a c, respond w (length (queries w)) a c = AuthenticationFailure) ->
  status req (S fuel) w =
    status req fuel (mkWorld (clock w + 2) (queries w ++ [(h, category p)]) (respond w)).
Proof.
  intros Hfa Hfp Hck Hfail. cbn [status]. esm_unfold.
  destruct (decode_credentials_ok req (form_credentials req) w Hck) as [creds ->].
  rewrite Hfa, Hfp.
  destruct (Environment_cons h hs creds false) as (a & apps & -> & <-).
  cbn. rewrite PyStr.index0_split. esm_unfold. cbn. by rewrite Hfail.
Qed.

Lemma fails_next_later w k x :
  fails_next w (S k) -> fails_next (mkWorld (clock w + 2) (queries w ++ [x]) (respond w)) k.
Proof. intros Hf n a c Hn. apply Hf. cbn in Hn. rewrite length_app in Hn. cbn in Hn. lia. Qed.

Lemma fails_then_answers_later w k docs x :
  fails_then_answers w (S k) docs ->
  fails_then_answers (mkWorld (clock w + 2) (queries w ++ [x]) (respond w)) k docs.
Proof.
  intros [Hf Ha]. split; [by apply fails_next_later|].
  intros n a c Hn. apply Ha. cbn in Hn. rewrite length_app in Hn. cbn in Hn. lia.
Qed.



Lemma extract_metric_unknown doc p :
  p ∉ metric_names -> extract_metric doc p = inl (KeyError p).
Proof. intros Hp. unfold extract_metric. by rewrite PROVIDER_MAP_lookup_None. Qed.

(** The first query of a run, answered with [o]: what the handler does
    with the answer. *)
Lemma status_first_query req fuel w h hs p ps o :
  form_appliances req = h :: hs -> form_providers req = p :: ps ->
  form_credentials req = [] \/ is_Some (cookies req !! COOKIE_KEY) ->
  (forall a, hostname a = h -> respond w (length (queries w)) a (category p) = o) ->
  let w1 := mkWorld (clock w) (queries w ++ [(h, category p)]) (respond w) in
  match o with
  | OtherException msg => status req (S fuel) w = (inl (DeviceError msg), w1)
  | StatusResponse doc =>
      forall e, extract_metric doc p = inl e -> status req (S fuel) w = (inl e, w1)
  | AuthenticationFailure => True
  end.
Proof.
  intros Hfa Hfp Hck Ho w1. cbn [status]. esm_unfold.
  destruct (decode_credentials_ok req (form_credentials req) w Hck) as [creds ->].
  rewrite Hfa, Hfp.
  destruct (Environment_cons h hs creds false) as (a & apps & -> & <-).
  cbn. rewrite PyStr.index0_split. esm_unfold. cbn. rewrite Ho by done.
  destruct o as [doc| |msg]; [|done|done]. intros e He. by rewrite He.
Qed.
(** One run with answering appliances. *)
Lemma status_answers_run req fuel w docs value :
  form_appliances req <> [] ->
  form_credentials req = [] \/ is_Some (cookies req !! COOKIE_KEY) ->
  answers w docs ->
  (forall h p, h ∈ form_appliances req -> p ∈ form_providers req ->
     extract_metric (docs h (category p)) p = inr (value h p)) ->
  status req (S fuel) w =
    (inr (collect_spec (form_appliances req) (Timestamp_short (clock w))
                       (form_providers req) value),
     mkWorld (clock w) (queries w ++ spec_queries (form_appliances req) (form_providers req))
             (respond w)).
Proof.
  intros Happ Hck Hans Hext. cbn [status]. esm_unfold.
  destruct (decode_credentials_ok req (form_credentials req) w Hck) as [creds ->].
  destruct (form_appliances req) as [|h hs] eqn:Hfa; [done|].
  rewrite (collect_providers_answers _ _ _ _ docs value Hans).
  - by rewrite Environment_hostnames.
  - intros a p Ha Hp. apply Hext; [|done]. by eapply hostname_in_Environment.
Qed.

End Proofs.

#[export] Hint Resolve answers_later fails_next_later fails_then_answers_later : mast.

(** ** Theorems *)

Section Theorems.
Context `{MastLib}.

(** C1: refinement.  When appliances are given, the credentials can be
    decoded, every appliance answers every query, and every requested
    value can be extracted, one run of the handler returns the abstract
    [collect_spec] (appliances echoed, the time read at the start, one
    value per appliance in appliance order for every metric), does not
    sleep, and issues exactly the queries [spec_queries]: one per provider
    and appliance, providers outermost. *)
Theorem status_refines_collect_spec req fuel w docs value :
  form_appliances req <> [] ->
  form_credentials req = [] \/ is_Some (cookies req !! COOKIE_KEY) ->
  answers w docs ->
  (forall h p, h ∈ form_appliances req -> p ∈ form_providers req ->
     extract_metric (docs h (category p)) p = inr (value h p)) ->
  status req (S fuel) w =
    (inr (collect_spec (form_appliances req) (Timestamp_short (clock w))
                       (form_providers req) value),
     mkWorld (clock w) (queries w ++ spec_queries (form_appliances req) (form_providers req))
             (respond w)).
Proof. apply status_answers_run. Qed.

(** C2: whatever the appliances answer and however many retries happen,
    a successful response holds, for every requested provider, a JSON list
    with exactly one value per requested appliance. *)
Theorem status_success_lengths req fuel w r w' :
  status req fuel w = (inr r, w') ->
  forall p, p ∈ form_providers req ->
  exists vs, r !! p = Some (JArr vs) /\ length vs = length (form_appliances req).
Proof.
  revert w. induction fuel as [|fuel IH]; intros w Hrun p Hp; cbn in Hrun; [done|].
  unfold esm_bind, esm_get, esm_ret, esm_raise in Hrun.
  destruct (decode_credentials req _ w) as [[e|creds] w1]; [done|].
  destruct (form_appliances req) as [|h hs] eqn:Happ; [done|].
  destruct (collect_providers _ _ _ w1) as [[e|[resp|]] w2] eqn:Hc; simplify_eq.
  - rewrite <- (length_Environment (h :: hs) creds false).
    by eapply collect_providers_lengths.
  - by eapply IH.
Qed.



(** C3: liveness of the retry.  If the appliances fail the next [k]
    queries with [AuthenticationFailure] and then answer, and the
    recursion budget exceeds [k], the handler succeeds: it re-runs the
    whole request [k] times, each time losing the first query and sleeping
    two seconds, and the last run returns [collect_spec] with the time
    read at its own start, [2 k] seconds after the first. *)
Theorem status_retry_success req fuel k w h hs p ps docs value :
  form_appliances req = h :: hs -> form_providers req = p :: ps ->
  form_credentials req = [] \/ is_Some (cookies req !! COOKIE_KEY) ->
  fails_then_answers w k docs ->
  (forall h' p', h' ∈ form_appliances req -> p' ∈ form_providers req ->
     extract_metric (docs h' (category p')) p' = inr (value h' p')) ->
  k < fuel ->
  status req fuel w =
    (inr (collect_spec (h :: hs) (Timestamp_short (clock w + 2 * Z.of_nat k))
                       (p :: ps) value),
     mkWorld (clock w + 2 * Z.of_nat k)
             (queries w ++ repeat (h, category p) k ++ spec_queries (h :: hs) (p :: ps))
             (respond w)).
Proof.
  intros Hfa Hfp Hck. revert fuel w.
  induction k as [|k IH]; intros fuel w [Hf Hans] Hext Hk;
    destruct fuel as [|fuel]; [lia| |lia|].
  - rewrite Z.add_0_r, <- Hfa, <- Hfp. cbn [repeat app].
    apply status_answers_run with (docs := docs); [by rewrite Hfa|done| |done].
    intros n a c Hn. apply Hans. lia.
  - rewrite (status_attempt_auth_failure req fuel w h hs p ps) by
      (done || by intros; apply Hf; lia).
    rewrite IH; [|by apply fails_then_answers_later|done|lia].
    cbn. rewrite <- app_assoc.
    by replace (clock w + 2 + 2 * Z.of_nat k)%Z with (clock w + 2 * Z.of_nat (S k))%Z by lia.
Qed.

(** C4: the retry is unbounded.  If the appliances fail the next [fuel]
    queries with [AuthenticationFailure] (for instance an appliance that
    always rejects the credentials), the handler re-runs the whole request
    until Python's recursion limit: it ends in [RecursionError] after
    [fuel] attempts, [fuel] queries and [2 fuel] seconds of sleep, and not
    after the two attempts the specification prescribes. *)
Theorem status_retry_exhausted req fuel w h hs p ps :
  form_appliances req = h :: hs -> form_providers req = p :: ps ->
  form_credentials req = [] \/ is_Some (cookies req !! COOKIE_KEY) ->
  fails_next w fuel ->
  status req fuel w =
    (inl RecursionError,
     mkWorld (clock w + 2 * Z.of_nat fuel) (queries w ++ repeat (h, category p) fuel)
             (respond w)).
Proof.
  intros Hfa Hfp Hck. revert w.
  induction fuel as [|fuel IH]; intros w Hf.
  - cbn. rewrite Z.add_0_r, app_nil_r. by destruct w.
  - rewrite (status_attempt_auth_failure req fuel w h hs p ps) by
      (done || by intros; apply Hf; lia).
    rewrite IH by auto with mast.
    cbn. rewrite <- app_assoc.
    by replace (clock w + 2 + 2 * Z.of_nat fuel)%Z with (clock w + 2 * Z.of_nat (S fuel))%Z by lia.
Qed.

(** C6: an extraction error on the first value (unknown metric, a path
    [find] cannot compile, or no element at the path) aborts the whole
    request with that exception, after the first query and without retry. *)
Theorem status_first_extraction_error req fuel w h hs p ps docs e :
  form_appliances req = h :: hs -> form_providers req = p :: ps ->
  form_credentials req = [] \/ is_Some (cookies req !! COOKIE_KEY) ->
  answers w docs ->
  extract_metric (docs h (category p)) p = inl e ->
  status req (S fuel) w =
    (inl e, mkWorld (clock w) (queries w ++ [(h, category p)]) (respond w)).
Proof.
  intros Hfa Hfp Hck Hans He.
  refine (status_first_query req fuel w h hs p ps (StatusResponse (docs h (category p)))
            Hfa Hfp Hck _ e He).
  intros a <-. by rewrite Hans.
Qed.

(** C7: an unknown metric name is not rejected before any I/O: the
    handler first queries the first appliance for the metric's category,
    and only then raises [KeyError] on [PROVIDER_MAP[provider]], with one
    query issued (the specification requires [UnknownMetric] with zero
    queries). *)
Theorem status_unknown_metric_queries_first req fuel w h hs p ps doc :
  form_appliances req = h :: hs -> form_providers req = p :: ps ->
  form_credentials req = [] \/ is_Some (cookies req !! COOKIE_KEY) ->
  p ∉ metric_names ->
  (forall a, hostname a = h ->
     respond w (length (queries w)) a (category p) = StatusResponse doc) ->
  status req (S fuel) w =
    (inl (KeyError p), mkWorld (clock w) (queries w ++ [(h, category p)]) (respond w)).
Proof.
  intros Hfa Hfp Hck Hp Hdoc.
  apply (status_first_query req fuel w h hs p ps (StatusResponse doc) Hfa Hfp Hck Hdoc).
  by apply extract_metric_unknown.
Qed.

(** C8: with no appliance in the form the handler answers 404, without
    any query, as long as the credentials can be decoded. *)
Theorem status_not_found req fuel w :
  form_appliances req = [] ->
  form_credentials req = [] \/ is_Some (cookies req !! COOKIE_KEY) ->
  status req (S fuel) w = (inl HTTPNotFound, w).
Proof.
  intros Hfa Hck. cbn [status]. esm_unfold.
  destruct (decode_credentials_ok req (form_credentials req) w Hck) as [creds ->].
  by rewrite Hfa.
Qed.

(** C9: credentials are decoded before the appliances are checked: a
    request with a credential and without the key cookie fails with
    [BadRequestKeyError], whatever its appliances and providers are (also
    when it has no appliance, where 404 would be expected), with no
    query. *)
Theorem status_missing_cookie req fuel w :
  form_credentials req <> [] -> cookies req !! COOKIE_KEY = None ->
  status req (S fuel) w = (inl (BadRequestKeyError COOKIE_KEY), w).
Proof.
  intros Hc Hk. cbn [status]. esm_unfold.
  destruct (form_credentials req) as [|c cs]; [done|]. cbn. by rewrite Hk.
Qed.

(** C10: any exception of [get_status] other than [AuthenticationFailure]
    propagates at once: no retry, no sleep, one query. *)
Theorem status_device_error_no_retry req fuel w h hs p ps msg :
  form_appliances req = h :: hs -> form_providers req = p :: ps ->
  form_credentials req = [] \/ is_Some (cookies req !! COOKIE_KEY) ->
  (forall a, hostname a = h ->
     respond w (length (queries w)) a (category p) = OtherException msg) ->
  status req (S fuel) w =
    (inl (DeviceError msg), mkWorld (clock w) (queries w ++ [(h, category p)]) (respond w)).
Proof.
  intros Hfa Hfp Hck Hmsg.
  exact (status_first_query req fuel w h hs p ps (OtherException msg) Hfa Hfp Hck Hmsg).
Qed.

(** C11: an empty list of providers is not rejected: the handler answers
    with only the echoed appliances and the time, and issues no query
    (the specification requires [InvalidInput]). *)
Theorem status_no_providers req fuel w :
  form_appliances req <> [] -> form_providers req = [] ->
  form_credentials req = [] \/ is_Some (cookies req !! COOKIE_KEY) ->
  status req (S fuel) w =
    (inr (py_dict [("appliances", JArr (map JStr (form_appliances req)));
                   ("time", JStr (Timestamp_short (clock w)))]), w).
Proof.
  intros Hfa Hfp Hck. cbn [status]. esm_unfold.
  destruct (decode_credentials_ok req (form_credentials req) w Hck) as [creds ->].
  destruct (form_appliances req); [done|]. by rewrite Hfp.
Qed.

End Theorems.

(** ** Concrete runs *)

#[local] Existing Instance sample_lib.

Definition sample_providers : list string := ["CPUUsage.tenSeconds"; "MemoryStatus.Usage"].

Definition sample_request (hosts creds providers : list string) (cookie : option string)
    : Request :=
  mkRequest hosts creds providers
    (match cookie with Some k => {[COOKIE_KEY := k]} | None => ∅ end).

Definition sample_req : Request :=
  sample_request ["dp1"; "dp2"] ["cred"] sample_providers (Some "key").

(** Appliances that answer every query, fail the first [k] queries, always
    fail authentication, or always raise. *)
Definition w_answering : World :=
  mkWorld 0 [] (fun _ a c => StatusResponse (status_doc (hostname a) c)).
Definition w_flaky (k : nat) : World :=
  mkWorld 0 [] (fun n a c => if (n <? k)%nat then AuthenticationFailure
                             else StatusResponse (status_doc (hostname a) c)).
Definition w_locked : World := mkWorld 0 [] (fun _ _ _ => AuthenticationFailure).
Definition w_raising : World := mkWorld 0 [] (fun _ _ _ => OtherException "timed out").

Definition sample_value (h p : string) : JVal :=
  match extract_metric (status_doc h (category p)) p with inr v => v | inl _ => JNull end.

Lemma sample_extract h p :
  h ∈ form_appliances sample_req -> p ∈ form_providers sample_req ->
  extract_metric (status_doc h (category p)) p = inr (sample_value h p).
Proof.
  cbn. intros Hh Hp. list_elem_cases Hh; list_elem_cases Hp; by vm_compute.
Qed.

Lemma status_refines_collect_spec_witness :
  status sample_req 1 w_answering =
    (inr (collect_spec (form_appliances sample_req) (Timestamp_short (clock w_answering))
                       (form_providers sample_req) sample_value),
     mkWorld (clock w_answering)
             (queries w_answering ++ spec_queries (form_appliances sample_req)
                                                  (form_providers sample_req))
             (respond w_answering)) /\
  collect_spec ["dp1"; "dp2"] "12:00:00" sample_providers sample_value !! "CPUUsage.tenSeconds"
    = Some (JArr [JStr "dp1:tenSeconds"; JStr "dp2:tenSeconds"]).
Proof.
  split; [|by vm_compute].
  apply (status_refines_collect_spec sample_req 0 w_answering status_doc sample_value).
  - discriminate.
  - right. by eexists.
  - intros n a c _. reflexivity.
  - exact sample_extract.
Defined.

Lemma status_success_lengths_witness :
  exists r w', status sample_req 3 (w_flaky 2) = (inr r, w') /\
    exists vs, r !! "MemoryStatus.Usage" = Some (JArr vs) /\
               length vs = length (form_appliances sample_req).
Proof.
  pose (res := status sample_req 3 (w_flaky 2)).
  assert (E : status sample_req 3 (w_flaky 2) = res) by reflexivity.
  clearbody res. destruct res as [[e|r] w'];
    [apply (f_equal (fun x : (Exc + gmap string JVal) * World =>
                       match x.1 with inl _ => false | inr _ => true end)) in E;
     vm_compute in E; discriminate|].
  exists r, w'. split; [done|].
  apply (status_success_lengths sample_req 3 (w_flaky 2) r w' E).
  by repeat constructor.
Defined.

Lemma status_retry_success_witness :
  status sample_req 3 (w_flaky 2) =
    (inr (collect_spec ["dp1"; "dp2"] (Timestamp_short (clock (w_flaky 2) + 2 * Z.of_nat 2))
                       sample_providers sample_value),
     mkWorld (clock (w_flaky 2) + 2 * Z.of_nat 2)
             (queries (w_flaky 2) ++ repeat ("dp1", category "CPUUsage.tenSeconds") 2 ++
              spec_queries ["dp1"; "dp2"] sample_providers)
             (respond (w_flaky 2))).
Proof.
  apply (status_retry_success sample_req 3 2 (w_flaky 2) "dp1" ["dp2"]
           "CPUUsage.tenSeconds" ["MemoryStatus.Usage"] status_doc sample_value);
    [done|done|right; by eexists| |exact sample_extract|lia].
  split; intros n a c Hn; cbn [w_flaky respond queries length] in *;
    destruct (Nat.ltb_spec n 2); done || lia.
Defined.

Lemma status_retry_exhausted_witness :
  status sample_req 5 w_locked =
    (inl RecursionError,
     mkWorld (clock w_locked + 2 * Z.of_nat 5)
             (queries w_locked ++ repeat ("dp1", category "CPUUsage.tenSeconds") 5)
             (respond w_locked)).
Proof.
  apply (status_retry_exhausted sample_req 5 w_locked "dp1" ["dp2"]
           "CPUUsage.tenSeconds" ["MemoryStatus.Usage"]);
    [done|done|right; by eexists|].
  intros n a c _. reflexivity.
Defined.

Lemma status_first_extraction_error_witness :
  status (sample_request ["dp1"] [] ["FilesystemStatus.FreeTemporary"] None) 1 w_answering =
    (inl AttributeError,
     mkWorld (clock w_answering)
             (queries w_answering ++ [("dp1", category "FilesystemStatus.FreeTemporary")])
             (respond w_answering)).
Proof.
  apply (status_first_extraction_error _ 0 w_answering "dp1" [] _ [] status_doc);
    [done|done|by left|intros n a c _; reflexivity|by vm_compute].
Defined.

Lemma status_unknown_metric_queries_first_witness :
  status (sample_request ["dp1"] ["cred"] ["Bogus.Field"] (Some "key")) 1 w_answering =
    (inl (KeyError "Bogus.Field"),
     mkWorld (clock w_answering) (queries w_answering ++ [("dp1", category "Bogus.Field")])
             (respond w_answering)).
Proof.
  apply (status_unknown_metric_queries_first _ 0 w_answering "dp1" [] "Bogus.Field" []
           (status_doc "dp1" "Bogus"));
    [done|done|right; by eexists|apply (bool_decide_unpack _); by vm_compute|intros a <-; reflexivity].
Defined.

Lemma status_not_found_witness :
  status (sample_request [] [] sample_providers None) 1 w_answering = (inl HTTPNotFound, w_answering).
Proof. apply status_not_found; [done|by left]. Defined.

Lemma status_missing_cookie_witness :
  status (sample_request [] ["cred"] sample_providers None) 1 w_answering =
    (inl (BadRequestKeyError COOKIE_KEY), w_answering).
Proof. apply status_missing_cookie; [done|by vm_compute]. Defined.

Lemma status_device_error_no_retry_witness :
  status sample_req 1 w_raising =
    (inl (DeviceError "timed out"),
     mkWorld (clock w_raising) (queries w_raising ++ [("dp1", category "CPUUsage.tenSeconds")])
             (respond w_raising)).
Proof.
  apply (status_device_error_no_retry sample_req 0 w_raising "dp1" ["dp2"]
           "CPUUsage.tenSeconds" ["MemoryStatus.Usage"]);
    [done|done|right; by eexists|intros a _; reflexivity].
Defined.

Lemma status_no_providers_witness :
  status (sample_request ["dp1"] ["cred"] [] (Some "key")) 1 w_answering =
    (inr (py_dict [("appliances", JArr (map JStr ["dp1"]));
                   ("time", JStr (Timestamp_short (clock w_answering)))]), w_answering).
Proof. apply status_no_providers; [done|done|right; by eexists]. Defined.

End Status.
