(* ===== verification/StatusLoop.v ===== *)
(** The loops of [WebPlugin.status] (status.py lines 85-111) as the code
    writes them: [resp[provider] = []] stores an empty list first, and
    every value is appended to [resp[provider]] in place
    ([resp[provider].append(metric)]).

    [Status] models the same loops with an accumulator whose list is stored
    once the inner loop finishes.  [status_inplace_equiv] shows that the
    handler built on the in-place loops, [status_inplace], is the same
    function as [Status.status] for every request, recursion budget and
    world, so every theorem about [Status.status] is a theorem about the
    in-place code.  The partially filled [resp] of an attempt that restarts
    or raises is dropped in both: the recursive call [self.status()] builds
    a fresh one. *)

From S2P Require Import Prelude PyStr ElementTree ProviderMap Device Status.

Module StatusLoop.
Import Device Status.

Section Loops.
Context `{MastLib}.
Variable req : Request.

(** Line 111, [resp[provider].append(metric)]: Python raises [KeyError] on
    a missing key and [AttributeError] when the value is not a list. *)
Definition py_append (k : string) (v : JVal) (resp : gmap string JVal)
    : Exc + gmap string JVal :=
  match resp !! k with
  | None => inl (KeyError k)
  | Some (JArr vs) => inr (<[k := JArr (vs ++ [v])]> resp)
  | Some _ => inl AttributeError
  end.

(** Lines 88-111, the loop over [env.appliances], on [resp] itself. *)
Fixpoint loop_appliances (provider cat : string) (apps : list Appliance)
    (resp : gmap string JVal) : M (Step (gmap string JVal)) :=
  match apps with
  | [] => esm_ret (Done resp)
  | a :: apps' =>
      do st <- esm_lift (get_status a cat);
      match st with
      | AuthenticationFailure =>
          do _ <- esm_lift (fun w => (tt, sleep 2 w));
          esm_ret Restart
      | OtherException msg => esm_raise (DeviceError msg)
      | StatusResponse doc =>
          match extract_metric doc provider with
          | inl e => esm_raise e
          | inr v =>
              match py_append provider v resp with
              | inl e => esm_raise e
              | inr resp' => loop_appliances provider cat apps' resp'
              end
          end
      end
  end.

(** Lines 85-111: [_provider = provider.split(".")[0]],
    [resp[provider] = []], then the inner loop. *)
Fixpoint loop_providers (apps : list Appliance) (providers : list string)
    (resp : gmap string JVal) : M (Step (gmap string JVal)) :=
  match providers with
  | [] => esm_ret (Done resp)
  | p :: ps =>
      match PyStr.index0 (PyStr.split "." p) with
      | None => esm_raise IndexError
      | Some cat =>
          do r <- loop_appliances p cat apps (<[p := JArr []]> resp);
          match r with
          | Restart => esm_ret Restart
          | Done resp' => loop_providers apps ps resp'
          end
      end
  end.

(** Lines 64-112 with the in-place loops. *)
Fixpoint status_inplace (fuel : nat) : M (gmap string JVal) :=
  match fuel with
  | O => esm_raise RecursionError
  | S fuel' =>
      do w <- esm_get;
      let t := clock w in
      let appliances := form_appliances req in
      do credentials <- decode_credentials req (form_credentials req);
      match appliances with
      | [] => esm_raise HTTPNotFound
      | _ :: _ =>
          let env := Environment appliances credentials false in
          let providers := form_providers req in
          let resp := py_dict [("appliances", JArr (map JStr appliances));
                               ("time", JStr (Timestamp_short t))] in
          do r <- loop_providers env providers resp;
          match r with
          | Restart => status_inplace fuel'
          | Done resp' => esm_ret resp'
          end
      end
  end.

End Loops.

(** The outcome of the accumulating inner loop, read on [resp]: a finished
    list [vs] is [resp] with [vs] stored at [p]. *)
Definition store_at {A} (p : string) (resp : gmap string JVal)
    (x : (A + Step (list JVal)) * World) : (A + Step (gmap string JVal)) * World :=
  match x with
  | (inl e, w') => (inl e, w')
  | (inr Restart, w') => (inr Restart, w')
  | (inr (Done vs), w') => (inr (Done (<[p := JArr vs]> resp)), w')
  end.

(** ** Lemmas *)

Section Proofs.
Context `{MastLib}.

Lemma py_append_stored p acc v resp :
  py_append p v (<[p := JArr acc]> resp) = inr (<[p := JArr (acc ++ [v])]> resp).
Proof. unfold py_append. by rewrite lookup_insert_eq, insert_insert_eq. Qed.

(** The in-place inner loop on a [resp] holding [acc] at [p] is the
    accumulating loop started from [acc]. *)
Lemma loop_appliances_collect p cat apps acc resp w :
  loop_appliances p cat apps (<[p := JArr acc]> resp) w =
    store_at p resp (collect_appliances p cat apps acc w).
Proof.
  revert acc w. induction apps as [|a apps IH]; intros acc w; [done|].
  cbn [loop_appliances collect_appliances]. esm_unfold. cbn.
  destruct (respond w (length (queries w)) a cat) as [doc| |msg]; [|done|done].
  destruct (extract_metric doc p) as [e|v]; [done|].
  by rewrite py_append_stored, IH.
Qed.

Lemma loop_providers_collect apps ps resp w :
  loop_providers apps ps resp w = collect_providers apps ps resp w.
Proof.
  revert resp w. induction ps as [|p ps IH]; intros resp w; [done|].
  cbn [loop_providers collect_providers]. rewrite PyStr.index0_split. esm_unfold.
  rewrite loop_appliances_collect.
  destruct (collect_appliances p _ apps [] w) as [[e|[vs|]] w']; cbn; [done|apply IH|done].
Qed.

End Proofs.

(** ** Theorems *)

Section Theorems.
Context `{MastLib}.

(** Equivalence.  The handler that updates [resp] in place, as lines
    85-111 do ([resp[provider] = []] then one [append] per appliance), is
    the same function as the accumulating model [Status.status]: for every
    request, recursion budget and world it returns the same response or
    exception and leaves the same world. *)
Theorem status_inplace_equiv req fuel w :
  status_inplace req fuel w = status req fuel w.
Proof.
  revert w. induction fuel as [|fuel IH]; intros w; [done|].
  cbn [status_inplace status]. esm_unfold.
  destruct (decode_credentials req (form_credentials req) w) as [[e|creds] w1]; [done|].
  destruct (form_appliances req); [done|].
  rewrite loop_providers_collect.
  by destruct (collect_providers _ _ _ _) as [[e|[r|]] w2].
Qed.

End Theorems.

End StatusLoop.
