(* ===== verification/StatusProps.v ===== *)
(** Properties of every run of [WebPlugin.status], whatever the appliances
    answer: what a run does to the world (bounds on the queries and on the
    time slept), the shape of the JSON object it returns, and the adequacy
    of the recursion budget.

    - [grows w w' k n] says that the world [w'] extends [w]: the same
      appliances, at most [k] more queries appended to the log, and the
      clock advanced by exactly [n] sleeps of two seconds.
    - [response_shape] is the JSON object of spec section 6: the echoed
      appliances, a time, and one list of strings or [null]s per requested
      metric, each as long as the list of appliances, and no other key.
    - [status_fuel_mono]: a run that does not hit the recursion limit
      returns the same with any larger limit, so the results do not depend
      on the budget chosen for [Status.status].
    - [status_extracts]: a successful run against answering appliances
      extracted every requested metric, which [Extraction] uses.
    - [decode_credentials_spec]: lines 70-72 in closed form. *)

From S2P Require Import Prelude PyStr ElementTree ProviderMap Device Status.

Module StatusProps.
Import ProviderMap Device Status.

(** An exception raised inside the loops: neither the 404 of line 74 nor
    the missing cookie of line 71. *)
Definition loop_error (e : Exc) : Prop :=
  e <> HTTPNotFound /\ forall k, e <> BadRequestKeyError k.

(** A value [.text] produces in the response: a string or [null]. *)
Definition json_scalar (v : JVal) : bool :=
  match v with JStr _ | JNull => true | JArr _ => false end.

(** The JSON object [flask.jsonify(resp)] sends, for the form lists
    [hosts] and [providers]. *)
Definition response_shape `{MastLib} (hosts providers : list string)
    (r : gmap string JVal) : Prop :=
  r !! "appliances" = Some (JArr (map JStr hosts)) /\
  (exists t, r !! "time" = Some (JStr (Timestamp_short t))) /\
  dom r = {["appliances"; "time"]} ∪ list_to_set providers /\
  forall p, p ∈ providers -> p ∈ metric_names /\
    exists vs, r !! p = Some (JArr vs) /\ length vs = length hosts /\
               Forall (fun v => json_scalar v = true) vs.

(** [w'] extends [w] by at most [k] queries and [n] sleeps of 2 s. *)
Definition grows (w w' : World) (k n : nat) : Prop :=
  respond w' = respond w /\
  (exists q, queries w' = queries w ++ q /\ length q <= k) /\
  clock w' = (clock w + 2 * Z.of_nat n)%Z.

(** The sleeps an attempt's outcome stands for. *)
Definition sleeps {E A} (x : E + Step A) : nat :=
  match x with inr Restart => 1 | _ => 0 end.

(** ** Lemmas on [grows] *)

Lemma grows_refl w : grows w w 0 0.
Proof. split; [done|split]; [exists []; rewrite app_nil_r; cbn; split; [done|lia]|lia]. Qed.

Lemma grows_trans w1 w2 w3 k1 n1 k2 n2 k n :
  grows w1 w2 k1 n1 -> grows w2 w3 k2 n2 -> k1 + k2 <= k -> n = n1 + n2 ->
  grows w1 w3 k n.
Proof.
  intros (Hr1 & (q1 & Hq1 & Hl1) & Hc1) (Hr2 & (q2 & Hq2 & Hl2) & Hc2) Hk ->.
  split; [congruence|split; [|lia]].
  exists (q1 ++ q2). rewrite Hq2, Hq1, app_assoc, length_app. split; [done|lia].
Qed.

Lemma grows_weaken w w' k k' n : grows w w' k n -> k <= k' -> grows w w' k' n.
Proof. intros (Hr & (q & Hq & Hl) & Hc) Hk. split; [done|split; [exists q|]]; auto with lia. Qed.

Lemma grows_query w x : grows w (mkWorld (clock w) (queries w ++ [x]) (respond w)) 1 0.
Proof. split; [done|split; [exists [x]|cbn; lia]]. auto. Qed.

Lemma grows_sleep w : grows w (sleep 2 w) 0 1.
Proof. split; [done|split; [exists []|cbn; lia]]. cbn. by rewrite app_nil_r. Qed.

#[export] Hint Resolve grows_refl grows_query grows_sleep : mast.

Lemma union_singleton_shift (X Y : gset string) x :
  ({[x]} ∪ X) ∪ Y = X ∪ ({[x]} ∪ Y).
Proof. set_solver. Qed.

(** ** What an attempt does to the world *)

Section Proofs.
Context `{MastLib}.

Lemma decode_credentials_error req cs w e w' :
  decode_credentials req cs w = (inl e, w') -> e = BadRequestKeyError COOKIE_KEY.
Proof.
  revert w'. induction cs as [|c cs IH]; intros w' Hrun; cbn in Hrun; esm_unfold.
  - done.
  - repeat case_match; simplify_eq; eauto.
Qed.

Lemma extract_metric_loop_error doc p e : extract_metric doc p = inl e -> loop_error e.
Proof. unfold extract_metric, loop_error. repeat case_match; intros; simplify_eq; done. Qed.

Lemma collect_appliances_loop_error p cat apps acc w e w' :
  collect_appliances p cat apps acc w = (inl e, w') -> loop_error e.
Proof.
  revert acc w. induction apps as [|a apps IH]; intros acc w Hrun;
    cbn [collect_appliances] in Hrun; esm_unfold; [done|].
  repeat case_match; simplify_eq; [by eapply extract_metric_loop_error|by eapply IH|].
  by unfold loop_error.
Qed.

Lemma collect_providers_loop_error apps ps resp w e w' :
  collect_providers apps ps resp w = (inl e, w') -> loop_error e.
Proof.
  revert resp w. induction ps as [|p ps IH]; intros resp w Hrun;
    cbn [collect_providers] in Hrun; esm_unfold; [done|].
  destruct (PyStr.index0 _); [|by simplify_eq].
  destruct (collect_appliances _ _ _ _ w) as [[e'|[vs|]] w1] eqn:E; simplify_eq;
    [by eapply collect_appliances_loop_error|by eapply IH].
Qed.

(** A request with appliances and decodable credentials fails, if at all,
    inside the loops or at the recursion limit. *)
Lemma status_loop_error req fuel w e w' :
  form_appliances req <> [] ->
  form_credentials req = [] \/ is_Some (cookies req !! COOKIE_KEY) ->
  status req fuel w = (inl e, w') -> loop_error e.
Proof.
  intros Ha Hck. revert w. induction fuel as [|fuel IH]; intros w Hrun;
    cbn [status] in Hrun; esm_unfold; [by simplify_eq|].
  destruct (decode_credentials_ok req (form_credentials req) w Hck) as [creds Hd].
  rewrite Hd in Hrun. destruct (form_appliances req); [done|].
  destruct (collect_providers _ _ _ w) as [[e'|[r|]] w1] eqn:E; simplify_eq;
    [by eapply collect_providers_loop_error|by eapply IH].
Qed.

Lemma decode_credentials_world req cs w x w' :
  decode_credentials req cs w = (x, w') -> w' = w.
Proof.
  revert x. induction cs as [|c cs IH]; intros x Hrun; cbn in Hrun; esm_unfold.
  - by simplify_eq.
  - repeat case_match; simplify_eq; eauto.
Qed.

Lemma collect_appliances_grows p cat apps acc w x w' :
  collect_appliances p cat apps acc w = (x, w') -> grows w w' (length apps) (sleeps x).
Proof.
  revert acc w. induction apps as [|a apps IH]; intros acc w Hrun; cbn in Hrun.
  - esm_unfold. simplify_eq. auto with mast.
  - esm_unfold. cbn in Hrun.
    repeat case_match; simplify_eq;
      (eapply grows_trans; [apply grows_query|eauto with mast|cbn; lia|cbn; reflexivity]).
Qed.

Lemma collect_providers_grows apps ps resp w x w' :
  collect_providers apps ps resp w = (x, w') ->
  grows w w' (length ps * length apps) (sleeps x).
Proof.
  revert resp w. induction ps as [|p ps IH]; intros resp w Hrun; cbn in Hrun.
  - esm_unfold. simplify_eq. auto with mast.
  - rewrite PyStr.index0_split in Hrun. esm_unfold.
    destruct (collect_appliances p _ apps [] w) as [[e|[vs|]] w1] eqn:Ec;
      apply collect_appliances_grows in Ec; simplify_eq.
    + eapply grows_weaken; [done|cbn; lia].
    + eapply grows_trans; [done|by eapply IH|cbn; lia|done].
    + eapply grows_weaken; [done|cbn; lia].
Qed.

(** ** The values a successful attempt stores *)

Lemma extract_metric_inr doc p v :
  extract_metric doc p = inr v -> p ∈ metric_names /\ json_scalar v = true.
Proof.
  unfold extract_metric.
  destruct (PROVIDER_MAP STATUS_XPATH !! p) as [xp|] eqn:E; [|done].
  destruct (ElementTree.find doc xp) as [|[[t [x|] cs]|]]; intros; simplify_eq;
    split; eauto using PROVIDER_MAP_lookup_key.
Qed.

Lemma collect_appliances_values p cat apps acc w vs w' :
  collect_appliances p cat apps acc w = (inr (Done vs), w') ->
  Forall (fun v => json_scalar v = true) acc ->
  Forall (fun v => json_scalar v = true) vs /\ (apps <> [] -> p ∈ metric_names).
Proof.
  revert acc w. induction apps as [|a apps IH]; intros acc w Hrun Hacc; cbn in Hrun.
  - esm_unfold. simplify_eq. done.
  - esm_unfold. cbn in Hrun. repeat case_match; simplify_eq.
    match goal with He : extract_metric _ _ = inr _ |- _ =>
      destruct (extract_metric_inr _ _ _ He) as [Hp Hv] end.
    edestruct IH as [Hvs _]; [done|by apply Forall_app; auto|]. done.
Qed.

Lemma collect_providers_values apps ps resp w r w' :
  collect_providers apps ps resp w = (inr (Done r), w') -> apps <> [] ->
  dom r = dom resp ∪ list_to_set ps /\
  forall p, p ∈ ps -> p ∈ metric_names /\
    exists vs, r !! p = Some (JArr vs) /\ Forall (fun v => json_scalar v = true) vs.
Proof.
  revert resp w. induction ps as [|p0 ps IH]; intros resp w Hrun Happs; cbn in Hrun.
  - esm_unfold. simplify_eq. split; [set_solver|]. intros p Hp. by apply not_elem_of_nil in Hp.
  - rewrite PyStr.index0_split in Hrun. esm_unfold.
    destruct (collect_appliances p0 _ apps [] w) as [[e|[vs|]] w1] eqn:Ec; [done| |done].
    destruct (collect_appliances_values _ _ _ _ _ _ _ Ec) as [Hvs Hp0]; [done|].
    destruct (IH _ _ Hrun Happs) as [Hdom Hps]. split.
    + by rewrite Hdom, dom_insert_L, list_to_set_cons, union_singleton_shift.
    + intros p Hp. destruct (decide (p ∈ ps)) as [Hin|Hnin]; [by apply Hps|].
      apply elem_of_cons in Hp as [->|]; [|done]. split; [by apply Hp0|].
      exists vs. split; [|done].
      by rewrite (collect_providers_notin _ _ _ _ _ _ _ Hrun Hnin), lookup_insert_eq.
Qed.

Lemma response_keys_not_metrics :
  ("appliances" ∉ metric_names) /\ ("time" ∉ metric_names).
Proof. split; apply (bool_decide_unpack _); by vm_compute. Qed.

Lemma dom_initial_resp hosts (t : string) :
  dom (py_dict [("appliances", JArr (map JStr hosts)); ("time", JStr t)]) =
    ({["appliances"; "time"]} : gset string).
Proof. unfold py_dict. cbn [foldl]. rewrite !dom_insert_L, dom_empty_L. set_solver. Qed.

(** ** Runs against answering appliances *)

Lemma answers_grows w w' k n docs : answers w docs -> grows w w' k n -> answers w' docs.
Proof.
  intros Hans (Hr & (q & Hq & _) & _) m a c Hm. rewrite Hr. apply Hans.
  rewrite Hq, length_app in Hm. lia.
Qed.

Lemma collect_appliances_extracts p cat a apps acc w vs w' docs :
  answers w docs -> collect_appliances p cat (a :: apps) acc w = (inr (Done vs), w') ->
  exists v, extract_metric (docs (hostname a) cat) p = inr v.
Proof.
  intros Hans Hrun. cbn in Hrun. esm_unfold. cbn in Hrun. rewrite Hans in Hrun by done.
  destruct (extract_metric _ p); [done|eauto].
Qed.

Lemma collect_providers_extracts a apps ps resp w r w' docs :
  answers w docs -> collect_providers (a :: apps) ps resp w = (inr (Done r), w') ->
  forall p, p ∈ ps -> exists v, extract_metric (docs (hostname a) (category p)) p = inr v.
Proof.
  revert resp w. induction ps as [|p0 ps IH]; intros resp w Hans Hrun p Hp;
    cbn [collect_providers] in Hrun.
  - by apply not_elem_of_nil in Hp.
  - rewrite PyStr.index0_split in Hrun. esm_unfold.
    destruct (collect_appliances p0 (hd "" (PyStr.split "." p0)) (a :: apps) [] w)
      as [[e|[vs|]] w1] eqn:Ec; [done| |done].
    apply elem_of_cons in Hp as [->|Hp].
    + by eapply collect_appliances_extracts.
    + eapply IH; [|done|done]. eapply answers_grows; [done|].
      by eapply collect_appliances_grows.
Qed.

(** A successful run against appliances that answer extracted every
    requested metric from the first appliance's answer. *)
Lemma status_extracts req fuel w r w' docs :
  answers w docs -> status req fuel w = (inr r, w') ->
  forall p, p ∈ form_providers req ->
  exists h v, h ∈ form_appliances req /\ extract_metric (docs h (category p)) p = inr v.
Proof.
  revert w. induction fuel as [|fuel IH]; intros w Hans Hrun p Hp; [done|].
  cbn [status] in Hrun. esm_unfold.
  destruct (decode_credentials req (form_credentials req) w) as [[e|creds] w1] eqn:Ed;
    [done|]. apply decode_credentials_world in Ed as ->.
  destruct (form_appliances req) as [|h hs] eqn:Hfa; [done|].
  destruct (Environment_cons h hs creds false) as (a & apps & Henv & Ha).
  rewrite Henv in Hrun.
  destruct (collect_providers _ _ _ w) as [[e|[r'|]] w2] eqn:Ec; [done| |].
  - destruct (collect_providers_extracts _ _ _ _ _ _ _ _ Hans Ec p Hp) as [v Hv].
    exists h, v. rewrite <- Ha. split; [by left|done].
  - eapply IH; [|done|done]. eapply answers_grows; [done|].
    by eapply collect_providers_grows.
Qed.

End Proofs.

(** ** Theorems *)

Section Theorems.
Context `{MastLib}.

(** The response of a successful run, for [status_response_shape] and
    the body the view sends. *)
Lemma status_shape req fuel w r w' :
  status req fuel w = (inr r, w') ->
  response_shape (form_appliances req) (form_providers req) r.
Proof.
  revert w. induction fuel as [|fuel IH]; intros w Hrun; [done|].
  cbn [status] in Hrun. esm_unfold.
  destruct (decode_credentials req (form_credentials req) w) as [[e|creds] w1] eqn:Ed;
    [done|]. apply decode_credentials_world in Ed as ->.
  destruct (form_appliances req) as [|h hs] eqn:Hfa; [done|].
  destruct (collect_providers _ _ _ w) as [[e|[r'|]] w2] eqn:Ec; [done| |by eapply IH].
  simplify_eq. destruct response_keys_not_metrics as [Ha Ht].
  assert (Happs : Environment (h :: hs) creds false <> []).
  { intros E. pose proof (length_Environment (h :: hs) creds false) as L.
    rewrite E in L. done. }
  destruct (collect_providers_values _ _ _ _ _ _ Ec Happs) as [Hdom Hps].
  assert (Hnot : forall k, k ∉ metric_names -> k ∉ form_providers req).
  { intros k Hk Hin. by apply Hk, Hps. }
  split; [|split; [|split]].
  - by rewrite (collect_providers_notin _ _ _ _ _ _ _ Ec (Hnot _ Ha)).
  - exists (clock w). by rewrite (collect_providers_notin _ _ _ _ _ _ _ Ec (Hnot _ Ht)).
  - by rewrite Hdom, dom_initial_resp.
  - intros p Hp. split; [by apply Hps|]. destruct (Hps p Hp) as [_ [vs [Hvs Hsc]]].
    destruct (collect_providers_lengths _ _ _ _ _ _ Ec p Hp) as [vs' [Hvs' Hlen]].
    rewrite Hvs in Hvs'. injection Hvs' as <-. rewrite length_Environment in Hlen.
    exists vs. split_and!; done.
Qed.

(** C19: type of the response.  Every response the handler returns, after
    any number of retries, is the JSON object of spec section 6:
    ["appliances"] holds the requested hostnames, ["time"] a short
    timestamp, and every requested provider is one of the eight metric
    names and holds one string or [null] per appliance; there is no other
    key, so no provider overwrites ["appliances"] or ["time"]. *)
Theorem status_response_shape req fuel w r w' :
  status req fuel w = (inr r, w') ->
  response_shape (form_appliances req) (form_providers req) r.
Proof. apply status_shape. Qed.

(** The recursion budget is adequate.  A run that does not end in
    [RecursionError] returns the same outcome and leaves the same world
    with every larger budget: the response of the handler does not depend
    on Python's recursion limit once the retries stop within it. *)
Theorem status_fuel_mono req fuel fuel' w res w' :
  status req fuel w = (res, w') -> res <> inl RecursionError -> fuel <= fuel' ->
  status req fuel' w = (res, w').
Proof.
  revert fuel' w. induction fuel as [|fuel IH]; intros fuel' w Hrun Hres Hle.
  - cbn in Hrun. esm_unfold. congruence.
  - destruct fuel' as [|fuel']; [lia|]. cbn [status] in Hrun |- *. esm_unfold.
    destruct (decode_credentials req (form_credentials req) w) as [[e|creds] w1]; [done|].
    destruct (form_appliances req); [done|].
    destruct (collect_providers _ _ _ w1) as [[e|[r|]] w2]; [done|done|].
    apply IH; [done|done|lia].
Qed.

(** Bounds.  Whatever the appliances answer, a request with
    recursion budget [fuel] leaves the appliances' behaviour unchanged,
    only appends to the query log, issues at most
    [fuel * |providers| * |appliances|] queries, and sleeps [n] times two
    seconds for some [n <= fuel]. *)
Theorem status_world_bounds req fuel w res w' :
  status req fuel w = (res, w') ->
  exists n, n <= fuel /\
    grows w w' (fuel * (length (form_providers req) * length (form_appliances req))) n.
Proof.
  revert w. induction fuel as [|fuel IH]; intros w Hrun.
  - cbn in Hrun. esm_unfold. simplify_eq. exists 0. split; [lia|apply grows_refl].
  - cbn [status] in Hrun. esm_unfold.
    destruct (decode_credentials req (form_credentials req) w) as [[e|creds] w1] eqn:Ed;
      apply decode_credentials_world in Ed as ->;
      [simplify_eq; exists 0; split; [lia|eapply grows_weaken; auto with mast; lia]|].
    destruct (form_appliances req) as [|h hs] eqn:Hfa;
      [simplify_eq; exists 0; split; [lia|eapply grows_weaken; auto with mast; lia]|].
    destruct (collect_providers _ _ _ w) as [x w2] eqn:Ec.
    apply collect_providers_grows in Ec. rewrite length_Environment in Ec.
    destruct x as [e|[r|]]; simplify_eq.
    + exists 0. split; [lia|]. eapply grows_weaken; [done|cbn; lia].
    + exists 0. split; [lia|]. eapply grows_weaken; [done|cbn; lia].
    + destruct (IH _ Hrun) as (n & Hn & Hg). exists (S n). split; [lia|].
      eapply grows_trans; [done|done|cbn; lia|cbn; lia].
Qed.

(** C24: lines 70-72 in closed form.  With no credential the cookie is not
    read; otherwise a missing cookie raises [BadRequestKeyError] and every
    credential is decoded, in order, with the one key derived from the
    cookie.  The world is untouched. *)
Theorem decode_credentials_spec req cs w :
  decode_credentials req cs w =
    match cs, cookies req !! COOKIE_KEY with
    | [], _ => (inr [], w)
    | _ :: _, None => (inl (BadRequestKeyError COOKIE_KEY), w)
    | _ :: _, Some k => (inr (map (fun c => xordecode c (xorencode k)) cs), w)
    end.
Proof.
  induction cs as [|c cs IH]; [done|]. cbn [decode_credentials].
  destruct (cookies req !! COOKIE_KEY) as [k|]; [|done].
  esm_unfold. rewrite IH. by destruct cs.
Qed.

End Theorems.

(** ** Concrete runs *)

#[local] Existing Instance sample_lib.

Lemma status_response_shape_witness :
  exists r w', status sample_req 3 (w_flaky 2) = (inr r, w') /\
    response_shape ["dp1"; "dp2"] sample_providers r.
Proof.
  destruct (run_inr (status sample_req 3 (w_flaky 2))) as (r & w' & E); [by vm_compute|].
  exists r, w'. split; [done|]. exact (status_response_shape sample_req 3 (w_flaky 2) r w' E).
Defined.

Lemma status_fuel_mono_witness :
  status sample_req 1000 (w_flaky 2) = status sample_req 3 (w_flaky 2).
Proof.
  rewrite (surjective_pairing (status sample_req 3 (w_flaky 2))).
  apply (status_fuel_mono sample_req 3 1000 (w_flaky 2)); [apply surjective_pairing| |lia].
  intros E.
  apply (f_equal (fun x : Exc + gmap string JVal =>
                    match x with inl RecursionError => true | _ => false end)) in E.
  vm_compute in E. discriminate.
Defined.

Lemma status_world_bounds_witness :
  exists n, n <= 5 /\ grows w_locked (status sample_req 5 w_locked).2 (5 * (2 * 2)) n.
Proof.
  apply (status_world_bounds sample_req 5 w_locked (status sample_req 5 w_locked).1).
  apply surjective_pairing.
Defined.

End StatusProps.
