(* ===== verification/Extraction.v ===== *)
(** Extraction of a metric from a DataPower [get-status] response (line
    110, [_status.xml.find(PROVIDER_MAP[provider]).text]), for every value
    of [datapower.STATUS_XPATH] and every response of the DataPower shape.

    A response is the SOAP envelope, then one element per step of the
    status root, then the category element with its field elements
    ([status_response]).  [STATUS_XPATH] is external: the Section
    [StatusRoot] takes its steps [ts] and what the tokenizer reads of it
    as hypotheses (a relative path of tag steps that ends inside a name,
    as the [{uri}status] root of the device library does).

    For such a root the three entries whose literal starts with ["/"]
    find the requested field, so [extract_metric] returns its text; the
    five [FilesystemStatus.*] and [SystemUsage.*] entries glue the
    category onto the last step of the root, which selects nothing, so
    [extract_metric] raises [AttributeError] on every response, whatever
    its fields.  The Section [SlashRoot] takes the other case, a root that
    ends with ["/"]: there the five find their field.  Which case holds
    depends on [STATUS_XPATH], which the repository does not define. *)

From S2P Require Import Prelude PyStr ElementTree ProviderMap Device Status StatusProps.

Module Extraction.
Import ElementTree ProviderMap Device Status StatusProps.

(** The response of [get_status(cat)]: the envelope, the status root
    steps [ts], and the category element holding [fields]. *)
Definition status_response (envelope : string) (ts : list string) (cat : string)
    (fields : list Element) : Element :=
  Elem envelope None [chain ts (Elem cat None fields)].

(** The value [.text] of the first field named [f], or the
    [AttributeError] of [None.text]. *)
Definition field_value (f : string) (fields : list Element) : Exc + JVal :=
  match head (filter (has_tag f) fields) with
  | None => inl AttributeError
  | Some e => inr (match text e with Some s => JStr s | None => JNull end)
  end.

(** The field part of a metric name, [k.split(".")[1]]. *)
Definition field (k : string) : string := nth 1 (PyStr.split "." k) "".

(** A lookup of [PROVIDER_MAP] by its entry, and the side conditions on
    literal tags, by evaluation. *)
Ltac provider_entry :=
  apply PROVIDER_MAP_lookup, list_elem_of_In; cbn [PROVIDER_MAP_entries In];
  repeat (first [left; reflexivity | right]).
Ltac literal_side :=
  first [reflexivity | let E := fresh in intros E; vm_compute in E; discriminate].

Section StatusRoot.
Context `{MastLib}.
Variable ts : list string.
Hypothesis Hsplit : path_split STATUS_XPATH = ts.
Hypothesis Hplain : Forall (fun t => plain_tag t = true) ts.
Hypothesis Hstate : tok_state AtStart STATUS_XPATH = InName.
Hypothesis Hstart : PyStr.startswith "/" STATUS_XPATH = false.

Lemma ts_not_nil : ts <> [].
Proof. rewrite <- Hsplit. apply path_split_go_not_nil. Qed.

Lemma STATUS_XPATH_not_empty : STATUS_XPATH <> EmptyString.
Proof. intros E. rewrite E in Hstate. discriminate. Qed.

(** [STATUS_XPATH + '/cat/f'] has the steps of the root, then [cat] and [f]. *)
Lemma path_split_slash cat f :
  path_split cat = [cat] -> tok_state AtStart cat <> InBrace -> path_split f = [f] ->
  path_split (STATUS_XPATH ++ String "/" (cat ++ String "/" f)) = ts ++ [cat; f].
Proof.
  intros Hc Hcs Hf. unfold path_split at 1.
  rewrite path_split_go_app, Hstate. fold (path_split STATUS_XPATH). rewrite Hsplit.
  rewrite path_split_go_sep. unfold path_split at 1.
  rewrite path_split_go_app_slash by done. fold (path_split cat). rewrite Hc, Hf.
  by apply glue_sep, ts_not_nil.
Qed.

(** [STATUS_XPATH + 'cat/f'] glues [cat] onto the last step of the root. *)
Lemma path_split_glued cat f :
  PyStr.count_char "/" cat = 0 -> path_split f = [f] ->
  path_split (STATUS_XPATH ++ (cat ++ String "/" f)) =
    List.removelast ts ++ [(List.last ts "" ++ cat)%string; f].
Proof.
  intros Hc Hf. unfold path_split at 1.
  rewrite path_split_go_app, Hstate. fold (path_split STATUS_XPATH). rewrite Hsplit.
  rewrite path_split_go_app.
  destruct (path_split_go_name cat Hc) as [-> ->].
  rewrite path_split_go_sep, Hf, glue_sep by done. reflexivity.
Qed.

Lemma run_field envelope cat f fields :
  head (run (map SelChild (ts ++ [cat; f])) [status_response envelope ts cat fields]) =
    head (filter (has_tag f) fields).
Proof.
  unfold status_response. rewrite map_app.
  destruct (run_chain ts envelope None (Elem cat None fields) (map SelChild [cat; f]))
    as (r & x & ->).
  cbn [map]. rewrite run_cons, select_child_single, has_tag_elem, run_cons.
  cbn. by rewrite app_nil_r.
Qed.

(** An entry [STATUS_XPATH + '/cat/f'] extracts the first field [f]. *)
Lemma extract_slash envelope cat f fields k :
  PROVIDER_MAP STATUS_XPATH !! k = Some (STATUS_XPATH ++ String "/" (cat ++ String "/" f))%string ->
  plain_tag cat = true -> plain_tag f = true ->
  path_split cat = [cat] -> tok_state AtStart cat <> InBrace -> path_split f = [f] ->
  PyStr.endswith "/" f = false ->
  extract_metric (status_response envelope ts cat fields) k = field_value f fields.
Proof.
  intros Hk Hc Hf Hsc Hcs Hsf He. unfold extract_metric. rewrite Hk.
  destruct (plain_tag_not_op f Hf) as (Hfne%String.eqb_neq & _).
  rewrite (find_run _ _ (map SelChild (ts ++ [cat; f]))), run_field; [done| | |].
  - rewrite PyStr.endswith_app_r, PyStr.endswith_cons, PyStr.endswith_app_r,
      PyStr.endswith_cons by (done || apply string_app_not_empty; done). done.
  - rewrite PyStr.startswith_app_l; [done|apply STATUS_XPATH_not_empty].
  - rewrite path_split_slash by done. apply compile_plain.
    apply Forall_app. split; [done|]. by repeat constructor.
Qed.

(** An entry [STATUS_XPATH + 'cat/f'] selects nothing. *)
Lemma extract_glued envelope cat f fields k :
  PROVIDER_MAP STATUS_XPATH !! k = Some (STATUS_XPATH ++ (cat ++ String "/" f))%string ->
  plain_tag cat = true -> plain_tag f = true ->
  PyStr.count_char "/" cat = 0 -> path_split f = [f] -> PyStr.endswith "/" f = false ->
  extract_metric (status_response envelope ts cat fields) k = inl AttributeError.
Proof.
  intros Hk Hc Hf Hsc Hsf He. unfold extract_metric. rewrite Hk.
  destruct (plain_tag_not_op f Hf) as (Hfne%String.eqb_neq & _).
  destruct (plain_tag_not_op cat Hc) as (Hcne%String.eqb_neq & _).
  pose proof (app_removelast_last "" ts_not_nil) as Hts.
  set (tn := List.last ts "") in *.
  assert (Hpl : Forall (fun t => plain_tag t = true) (List.removelast ts ++ [tn])).
  { by rewrite <- Hts. }
  apply Forall_app in Hpl as [Hpl [Htn _]%Forall_cons].
  rewrite (find_run _ _ (map SelChild (List.removelast ts ++ [(tn ++ cat)%string; f]))).
  - assert (Hch : forall c, chain ts c = chain (List.removelast ts) (chain [tn] c)).
    { intros c. rewrite Hts at 1. by rewrite chain_app. }
    unfold status_response. rewrite Hch, map_app.
    destruct (run_chain (List.removelast ts) envelope None (chain [tn] (Elem cat None fields))
                        (map SelChild [(tn ++ cat)%string; f])) as (r & x & ->).
    cbn [map chain]. rewrite run_cons, select_child_single.
    replace (has_tag (tn ++ cat) (Elem tn None [Elem cat None fields])) with false.
    + by rewrite run_nil.
    + symmetry. apply String.eqb_neq. intros E.
      apply Hcne, eq_sym, (string_app_inv_l tn). by rewrite string_app_nil_r.
  - rewrite PyStr.endswith_app_r, PyStr.endswith_app_r, PyStr.endswith_cons by
      (done || apply string_app_not_empty; done). done.
  - rewrite PyStr.startswith_app_l; [done|apply STATUS_XPATH_not_empty].
  - rewrite path_split_glued by done. apply compile_plain.
    apply Forall_app. split; [done|]. constructor; [apply plain_tag_app; [exact Htn|exact Hc]|].
    by repeat constructor.
Qed.

(** The extraction of every metric from a DataPower response. *)
Lemma extract_metric_response envelope fields k :
  k ∈ metric_names ->
  extract_metric (status_response envelope ts (category k) fields) k =
    if decide (k ∈ well_formed_metrics) then field_value (field k) fields
    else inl AttributeError.
Proof.
  intros Hk. rewrite metric_names_eq in Hk. unfold well_formed_metrics.
  list_elem_cases Hk; case_decide as Hw;
    try (exfalso; revert Hw; apply (bool_decide_unpack _); by vm_compute);
    first [eapply extract_slash; [provider_entry|literal_side..]
          |eapply extract_glued; [provider_entry|literal_side..]].
Qed.

Lemma well_formed_metric_names k : k ∈ well_formed_metrics -> k ∈ metric_names.
Proof. intros Hk. unfold well_formed_metrics in Hk. rewrite metric_names_eq. list_elem_cases Hk; set_solver. Qed.

(** C20: for every status root [STATUS_XPATH] that is a relative path of
    tag steps ending inside a name, and every DataPower response to
    [get_status(category)], the three entries [CPUUsage.tenSeconds],
    [TCPSummary.established] and [MemoryStatus.Usage] extract the text of
    the first field of the requested name (or raise [AttributeError] when
    the category has no such field). *)
Theorem extract_well_formed envelope fields k :
  k ∈ well_formed_metrics ->
  extract_metric (status_response envelope ts (category k) fields) k =
    field_value (field k) fields.
Proof.
  intros Hk. rewrite extract_metric_response by by apply well_formed_metric_names.
  by rewrite decide_True.
Qed.

(** C21: for the same status roots and every DataPower response, the five
    entries [FilesystemStatus.*] and [SystemUsage.*] raise
    [AttributeError], whatever fields the response holds: their path glues
    the category onto the last step of the root, which no element of the
    response has. *)
Theorem extract_glued_fails envelope fields k :
  k ∈ metric_names -> k ∉ well_formed_metrics ->
  extract_metric (status_response envelope ts (category k) fields) k = inl AttributeError.
Proof. intros Hk Hw. rewrite extract_metric_response by done. by rewrite decide_False. Qed.

(** C22: for a status root [STATUS_XPATH] that is a relative path of tag
    steps ending inside a name (the hypotheses of this Section: its steps
    are plain tags, it does not start with ["/"], and the tokenizer ends
    inside a name, so it has no trailing ["/"]), and against appliances
    that answer every query with a DataPower response, a request succeeds
    only if every metric it asks for is one of the three entries written
    with a leading ["/"]: asking for any [FilesystemStatus.*] or
    [SystemUsage.*] metric (or a name outside [PROVIDER_MAP]) makes the
    whole request fail, whatever the responses hold.  For a root ending
    with ["/"] the five are the ones that extract
    ([extract_glued_slash_root]). *)
Theorem status_success_only_well_formed req fuel w r w' envelope fields :
  answers w (fun h c => status_response envelope ts c (fields h c)) ->
  status req fuel w = (inr r, w') ->
  forall p, p ∈ form_providers req -> p ∈ well_formed_metrics.
Proof.
  intros Hans Hrun p Hp.
  destruct (status_extracts _ _ _ _ _ _ Hans Hrun p Hp) as (h & v & _ & Hv).
  destruct (decide (p ∈ metric_names)) as [Hk|Hk];
    [|by rewrite extract_metric_unknown in Hv].
  rewrite extract_metric_response in Hv by done. by case_decide.
Qed.

End StatusRoot.

(** An entry whose path has the steps of the status root, the category
    and the field extracts the first field of that name. *)
Lemma extract_child `{MastLib} envelope ts cat f fields k xp :
  PROVIDER_MAP STATUS_XPATH !! k = Some xp ->
  path_split xp = ts ++ [cat; f] ->
  Forall (fun t => plain_tag t = true) (ts ++ [cat; f]) ->
  PyStr.endswith "/" xp = false -> PyStr.startswith "/" xp = false ->
  extract_metric (status_response envelope ts cat fields) k = field_value f fields.
Proof.
  intros Hk Hs Hp He Hst. unfold extract_metric. rewrite Hk.
  rewrite (find_run _ _ (map SelChild (ts ++ [cat; f]))), run_field; [done|done|done|].
  rewrite Hs. by apply compile_plain.
Qed.

Section SlashRoot.
Context `{MastLib}.
Variable ts : list string.
Hypothesis Hroot : root_steps STATUS_XPATH = ts.
Hypothesis Hplain : Forall (fun t => plain_tag t = true) ts.
Hypothesis Hstate : tok_state AtStart STATUS_XPATH = AtStart.
Hypothesis Hstart : PyStr.startswith "/" STATUS_XPATH = false.
Hypothesis Hne : STATUS_XPATH <> EmptyString.

(** C23: for a status root that is a relative path of tag steps ending
    with ["/"], and every DataPower response to [get_status(category)],
    the five entries [FilesystemStatus.*] and [SystemUsage.*] extract the
    text of the first field of the requested name (or raise
    [AttributeError] when the category has no such field): with such a
    root the literals without a leading ["/"] are the child paths. *)
Theorem extract_glued_slash_root envelope fields k :
  k ∈ glued_metrics ->
  extract_metric (status_response envelope ts (category k) fields) k =
    field_value (field k) fields.
Proof.
  intros Hk. unfold glued_metrics in Hk.
  list_elem_cases Hk;
    (eapply extract_child;
     [provider_entry
     |rewrite path_split_after_sep, Hroot by done; apply (f_equal (app _)); by vm_compute
     |apply Forall_app; split; [done|]; apply (bool_decide_unpack _); by vm_compute
     |rewrite PyStr.endswith_app_r by done; by vm_compute
     |rewrite PyStr.startswith_app_l; [done|exact Hne]]).
Qed.

End SlashRoot.

(** ** Concrete runs *)

#[local] Existing Instance sample_lib.

(** The steps of the sample status root. *)
Definition sample_ts : list string :=
  [SOAP_NS ++ "Body"; MGMT_NS ++ "get-status-response"; MGMT_NS ++ "status"]%string.

Definition sample_fields_of (h cat : string) : list Element :=
  map (fun f => Elem f (Some (h ++ ":" ++ f)%string) []) (sample_fields cat).

Lemma extract_well_formed_witness :
  extract_metric (status_response (SOAP_NS ++ "Envelope") sample_ts (category "CPUUsage.tenSeconds")
                    (sample_fields_of "dp1" "CPUUsage")) "CPUUsage.tenSeconds" =
    field_value (field "CPUUsage.tenSeconds") (sample_fields_of "dp1" "CPUUsage") /\
  field_value (field "CPUUsage.tenSeconds") (sample_fields_of "dp1" "CPUUsage") =
    inr (JStr "dp1:tenSeconds").
Proof.
  split; [|by vm_compute].
  apply (extract_well_formed sample_ts); try by vm_compute.
  - apply (bool_decide_unpack _). by vm_compute.
  - unfold well_formed_metrics. by left.
Defined.

Lemma extract_glued_fails_witness :
  extract_metric (status_response (SOAP_NS ++ "Envelope") sample_ts (category "SystemUsage.Load")
                    (sample_fields_of "dp1" "SystemUsage")) "SystemUsage.Load" = inl AttributeError.
Proof.
  apply (extract_glued_fails sample_ts); try by vm_compute.
  all: apply (bool_decide_unpack _); by vm_compute.
Defined.

(** The device library with the sample status root followed by ["/"]. *)
Definition slash_lib : MastLib.
Proof.
  refine {| xordecode s _ := s; xorencode k := k; Timestamp_short _ := "12:00:00";
            Environment hs cs b := map (fun h => mkAppliance h (hd "" cs) b) hs;
            STATUS_XPATH := (sample_STATUS_XPATH ++ "/")%string |}.
  intros hs cs b. induction hs as [|h hs IH]; cbn; congruence.
Defined.

Lemma extract_glued_slash_root_witness :
  @extract_metric slash_lib (status_response (SOAP_NS ++ "Envelope") sample_ts
       (category "SystemUsage.Load") (sample_fields_of "dp1" "SystemUsage")) "SystemUsage.Load" =
    field_value (field "SystemUsage.Load") (sample_fields_of "dp1" "SystemUsage") /\
  field_value (field "SystemUsage.Load") (sample_fields_of "dp1" "SystemUsage") =
    inr (JStr "dp1:Load").
Proof.
  split; [|by vm_compute].
  refine (@extract_glued_slash_root slash_lib sample_ts _ _ _ _ _ _ _ _ _).
  - by vm_compute.
  - apply (bool_decide_unpack _). by vm_compute.
  - by vm_compute.
  - by vm_compute.
  - intros E. vm_compute in E. discriminate.
  - unfold glued_metrics. set_solver.
Defined.

Lemma status_success_only_well_formed_witness :
  exists r w', status sample_req 1 w_answering = (inr r, w') /\
    forall p, p ∈ form_providers sample_req -> p ∈ well_formed_metrics.
Proof.
  destruct (run_inr (status sample_req 1 w_answering)) as (r & w' & E); [by vm_compute|].
  exists r, w'. split; [done|].
  refine (status_success_only_well_formed sample_ts _ _ _ _ sample_req 1 w_answering r w'
            (SOAP_NS ++ "Envelope") sample_fields_of _ E).
  - by vm_compute.
  - apply (bool_decide_unpack _). by vm_compute.
  - by vm_compute.
  - by vm_compute.
  - intros n a c _. reflexivity.
Defined.

End Extraction.
