(* ===== verification/Logging.v ===== *)
(** The logging of [WebPlugin.status] (status.py lines 65-109): the
    handler with its [logger] calls, as a write-only log kept beside the
    world.

    - [LogEntry] has one constructor per [logger] call of the handler:
      [logger.debug("Appliances: ...")] (line 69), ["Providers: ..."]
      (line 79), ["Checking <category> on <hostname>"] (lines 89-92), and
      [logger.exception("An unhandled exception ...")] (lines 103 and 106),
      which records the exception being handled.  The entries keep the
      values the messages are formatted from.
    - [L] is the error-state monad over the world and the log; [on_world]
      runs a step of [Status] on the world, [log] appends an entry, and
      [log_exceptions m] is [try: m except: logger.exception(...); raise].
    - [lcollect_appliances], [lcollect_providers] and [status_log] are
      [Status.collect_appliances], [collect_providers] and [status] with
      the [logger] calls where the code makes them: the [except:] around
      [get_status] logs a device error once, and the [except:] around the
      recursive [self.status()] logs whatever that call raises, at every
      level of the recursion.

    The [@logged] decorator and [make_logger] belong to [mast.logging],
    outside the repository; what they write is not modelled. *)

From S2P Require Import Prelude PyStr ElementTree ProviderMap Device Status StatusProps.

Module Logging.
Import Device Status StatusProps.

Inductive LogEntry : Type :=
| LogAppliances (hosts : list string)      (** line 69 *)
| LogProviders (providers : list string)   (** line 79 *)
| LogChecking (cat host : string)          (** lines 89-92 *)
| LogUnhandled (e : Exc).                  (** lines 103 and 106 *)

Abbreviation L := (ESM (World * list LogEntry) Exc).

(** A step of the handler that only acts on the world. *)
Definition on_world {A} (m : M A) : L A :=
  fun s => let '(r, w') := m s.1 in (r, (w', s.2)).

(** [logger.debug(...)] *)
Definition log (e : LogEntry) : L unit :=
  fun s => (inr tt, (s.1, s.2 ++ [e])).

(** [try: m except: logger.exception(...); raise] *)
Definition log_exceptions {A} (m : L A) : L A :=
  fun s => match m s with
           | (inl e, (w', l')) => (inl e, (w', l' ++ [LogUnhandled e]))
           | o => o
           end.

(** The queries a log announces, and the exceptions it records. *)
Definition checks (q : list LogEntry) : list (string * string) :=
  omap (fun e => match e with LogChecking c h => Some (h, c) | _ => None end) q.
Definition unhandled (q : list LogEntry) : list Exc :=
  omap (fun e => match e with LogUnhandled x => Some x | _ => None end) q.

Section Handler.
Context `{MastLib}.
Variable req : Request.

(** Lines 88-111 with lines 89-92 and 105-107. *)
Fixpoint lcollect_appliances (provider cat : string) (apps : list Appliance)
    (acc : list JVal) : L (Step (list JVal)) :=
  match apps with
  | [] => esm_ret (Done acc)
  | a :: apps' =>
      do _ <- log (LogChecking cat (hostname a));
      do st <- on_world (esm_lift (get_status a cat));
      match st with
      | AuthenticationFailure =>
          do _ <- on_world (esm_lift (fun w => (tt, sleep 2 w)));
          esm_ret Restart
      | OtherException msg => log_exceptions (esm_raise (DeviceError msg))
      | StatusResponse doc =>
          match extract_metric doc provider with
          | inl e => esm_raise e
          | inr v => lcollect_appliances provider cat apps' (acc ++ [v])
          end
      end
  end.

(** Lines 85-111. *)
Fixpoint lcollect_providers (apps : list Appliance) (providers : list string)
    (resp : gmap string JVal) : L (Step (gmap string JVal)) :=
  match providers with
  | [] => esm_ret (Done resp)
  | p :: ps =>
      match PyStr.index0 (PyStr.split "." p) with
      | None => esm_raise IndexError
      | Some cat =>
          do r <- lcollect_appliances p cat apps [];
          match r with
          | Restart => esm_ret Restart
          | Done vs => lcollect_providers apps ps (<[p := JArr vs]> resp)
          end
      end
  end.

(** Lines 64-112 with lines 69, 79 and 99-104. *)
Fixpoint status_log (fuel : nat) : L (gmap string JVal) :=
  match fuel with
  | O => esm_raise RecursionError
  | S fuel' =>
      do s <- esm_get;
      let t := clock s.1 in
      let appliances := form_appliances req in
      do _ <- log (LogAppliances appliances);
      do credentials <- on_world (decode_credentials req (form_credentials req));
      match appliances with
      | [] => esm_raise HTTPNotFound
      | _ :: _ =>
          let env := Environment appliances credentials false in
          let providers := form_providers req in
          do _ <- log (LogProviders providers);
          let resp := py_dict [("appliances", JArr (map JStr appliances));
                               ("time", JStr (Timestamp_short t))] in
          do r <- lcollect_providers env providers resp;
          match r with
          | Restart => log_exceptions (status_log fuel')
          | Done resp' => esm_ret resp'
          end
      end
  end.

End Handler.

(** The device error an attempt's outcome logs at the innermost level. *)
Definition dev_log {A} (x : Exc + A) : list Exc :=
  match x with inl (DeviceError m) => [DeviceError m] | _ => [] end.

(** ** Lemmas *)

Lemma checks_app q1 q2 : checks (q1 ++ q2) = checks q1 ++ checks q2.
Proof. apply omap_app. Qed.
Lemma unhandled_app q1 q2 : unhandled (q1 ++ q2) = unhandled q1 ++ unhandled q2.
Proof. apply omap_app. Qed.

#[export] Hint Rewrite checks_app unhandled_app : mast_run.

Section Proofs.
Context `{MastLib}.

Lemma extract_metric_dev doc p e :
  extract_metric doc p = inl e -> forall m, e <> DeviceError m.
Proof.
  unfold extract_metric. repeat case_match; intros; simplify_eq; done.
Qed.

(** The logged inner loop does what [collect_appliances] does, and logs
    one [Checking] entry per query and the device error it raises. *)
Lemma lcollect_appliances_run p cat apps acc w l :
  let x := collect_appliances p cat apps acc w in
  exists q, lcollect_appliances p cat apps acc (w, l) = (x.1, (x.2, l ++ q)) /\
    queries x.2 = queries w ++ checks q /\ unhandled q = dev_log x.1.
Proof.
  revert acc w l. induction apps as [|a apps IH]; intros acc w l; cbn zeta.
  - exists []. cbn. by rewrite !app_nil_r.
  - cbn [lcollect_appliances collect_appliances]. esm_unfold. cbn.
    destruct (respond w (length (queries w)) a cat) as [doc| |msg]; cbn.
    + destruct (extract_metric doc p) as [e|v] eqn:Ee; cbn.
      * exists [LogChecking cat (hostname a)]. split_and!; [done|done|].
        destruct e; try done. by edestruct extract_metric_dev.
      * edestruct IH as (q & -> & Hq & Hu).
        exists (LogChecking cat (hostname a) :: q). rewrite <- app_assoc.
        split_and!; [done| |done]. rewrite Hq. cbn. by rewrite <- app_assoc.
    + exists [LogChecking cat (hostname a)]. split_and!; done.
    + exists [LogChecking cat (hostname a); LogUnhandled (DeviceError msg)].
      rewrite <- app_assoc. split_and!; done.
Qed.

Lemma lcollect_providers_run apps ps resp w l :
  let x := collect_providers apps ps resp w in
  exists q, lcollect_providers apps ps resp (w, l) = (x.1, (x.2, l ++ q)) /\
    queries x.2 = queries w ++ checks q /\ unhandled q = dev_log x.1.
Proof.
  revert resp w l. induction ps as [|p ps IH]; intros resp w l; cbn zeta.
  - exists []. cbn. by rewrite !app_nil_r.
  - cbn [lcollect_providers collect_providers]. rewrite PyStr.index0_split. esm_unfold.
    destruct (lcollect_appliances_run p (hd "" (PyStr.split "." p)) apps [] w l)
      as (q1 & -> & Hq1 & Hu1).
    destruct (collect_appliances p _ apps [] w) as [[e|[vs|]] w1]; cbn in *.
    + by exists q1.
    + edestruct IH as (q2 & -> & Hq2 & Hu2). exists (q1 ++ q2).
      rewrite app_assoc, checks_app, unhandled_app, Hq2, Hq1, Hu1, Hu2, app_assoc.
      split_and!; done.
    + by exists q1.
Qed.

(** The logged handler does what [status] does.  Its log records the
    queries in order, and an exception raised after [n] restarts
    ([2 n] seconds of sleep) once per level of the recursion, once more
    for a device error. *)
Lemma status_log_run req fuel w l :
  let x := status req fuel w in
  exists q n, status_log req fuel (w, l) = (x.1, (x.2, l ++ q)) /\
    queries x.2 = queries w ++ checks q /\
    clock x.2 = (clock w + 2 * Z.of_nat n)%Z /\
    unhandled q = match x.1 with
                  | inl e => replicate (n + length (dev_log x.1)) e
                  | inr _ => []
                  end.
Proof.
  revert w l. induction fuel as [|fuel IH]; intros w l; cbn zeta.
  - exists [], 0. cbn. rewrite !app_nil_r. split_and!; [done|done|lia|done].
  - cbn [status_log status]. esm_unfold. unfold on_world, log. cbn.
    destruct (decode_credentials req (form_credentials req) w) as [[e|creds] w1] eqn:Ed;
      pose proof Ed as Ed'; apply decode_credentials_world in Ed as ->; cbn.
    { apply decode_credentials_error in Ed' as ->.
      exists [LogAppliances (form_appliances req)], 0.
      split_and!; [done|by rewrite app_nil_r|lia|done]. }
    destruct (form_appliances req) as [|h hs] eqn:Hfa; cbn.
    { exists [LogAppliances []], 0. split_and!; [done|by rewrite app_nil_r|lia|done]. }
    match goal with |- context [lcollect_providers ?a ?ps ?r0 (?w0, ?l0)] =>
      destruct (lcollect_providers_run a ps r0 w0 l0) as (q1 & -> & Hq1 & Hu1);
      pose proof (collect_providers_grows a ps r0 w0) as Hg end.
    rewrite <- !app_assoc. cbn in *.
    destruct (collect_providers _ _ _ w) as [[e|[r|]] w2]; cbn in *.
    + exists ([LogAppliances (h :: hs); LogProviders (form_providers req)] ++ q1), 0.
      destruct (Hg _ _ eq_refl) as (_ & _ & Hc). cbn in Hc.
      rewrite <- ?app_assoc. split_and!; [done|done|lia|]. rewrite unhandled_app, Hu1. by destruct e.
    + exists ([LogAppliances (h :: hs); LogProviders (form_providers req)] ++ q1), 0.
      destruct (Hg _ _ eq_refl) as (_ & _ & Hc). cbn in Hc.
      rewrite <- ?app_assoc. split_and!; [done|done|lia|by rewrite unhandled_app, Hu1].
    + destruct (Hg _ _ eq_refl) as (_ & _ & Hc). cbn in Hc.
      destruct (IH w2 (l ++ LogAppliances (h :: hs) :: LogProviders (form_providers req) :: q1))
        as (q2 & n & E2 & Hq2 & Hc2 & Hu2).
      unfold log_exceptions. rewrite E2.
      destruct (status req fuel w2) as [[e|r] w3]; cbn in *.
      * exists (LogAppliances (h :: hs) :: LogProviders (form_providers req) :: q1 ++ q2
                ++ [LogUnhandled e]), (S n).
        rewrite <- ?app_assoc. cbn. split_and!; [done| |lia|].
        -- rewrite Hq2, Hq1, checks_app, checks_app. cbn. by rewrite app_nil_r, app_assoc.
        -- transitivity (unhandled (q1 ++ q2 ++ [LogUnhandled e])); [reflexivity|].
           rewrite !unhandled_app, Hu1, Hu2, app_nil_l.
           change (unhandled [LogUnhandled e]) with [e]. by rewrite <- replicate_S_end.
      * exists (LogAppliances (h :: hs) :: LogProviders (form_providers req) :: q1 ++ q2), (S n).
        rewrite <- ?app_assoc. cbn. split_and!; [done| |lia|].
        -- rewrite Hq2, Hq1, checks_app. by rewrite app_assoc.
        -- transitivity (unhandled (q1 ++ q2)); [reflexivity|].
           by rewrite !unhandled_app, Hu1, Hu2.
Qed.

End Proofs.

(** ** Theorems *)

Section Theorems.
Context `{MastLib}.

(** Logging does not interfere.  The handler with its [logger] calls
    returns what [Status.status] returns and leaves the same world; it
    only appends to the log. *)
Theorem status_log_erase req fuel w l :
  (status_log req fuel (w, l)).1 = (status req fuel w).1 /\
  (status_log req fuel (w, l)).2.1 = (status req fuel w).2 /\
  exists q, (status_log req fuel (w, l)).2.2 = l ++ q.
Proof. destruct (status_log_run req fuel w l) as (q & n & -> & _). eauto. Qed.

(** C25: the [Checking <category> on <hostname>] entries a request logs
    are exactly the queries it issues, in the same order: every query is
    announced, also across retries, and nothing else is. *)
Theorem status_log_checks req fuel w l :
  checks (drop (length l) (status_log req fuel (w, l)).2.2) =
    drop (length (queries w)) (queries (status_log req fuel (w, l)).2.1).
Proof.
  destruct (status_log_run req fuel w l) as (q & n & -> & Hq & _). cbn.
  by rewrite Hq, !drop_app_length.
Qed.

(** C26: a request that fails after [n] retries ([2 n] seconds of sleep)
    logs its exception [n] times, once by the [except:] around each
    recursive [self.status()], and once more when it is a device error
    caught around [get_status]; a request that succeeds logs no
    exception. *)
Theorem status_log_unhandled req fuel w l res w' :
  status req fuel w = (res, w') ->
  exists n, clock w' = (clock w + 2 * Z.of_nat n)%Z /\
    unhandled (drop (length l) (status_log req fuel (w, l)).2.2) =
      match res with
      | inl (DeviceError m) => replicate (S n) (DeviceError m)
      | inl e => replicate n e
      | inr _ => []
      end.
Proof.
  intros Hrun. destruct (status_log_run req fuel w l) as (q & n & -> & _ & Hc & Hu).
  rewrite Hrun in Hc, Hu. exists n. cbn. rewrite drop_app_length, Hu. split; [done|].
  destruct res as [[]|]; cbn; by rewrite ?Nat.add_0_r, ?Nat.add_1_r.
Qed.

End Theorems.

(** ** Concrete runs *)

#[local] Existing Instance sample_lib.

(** Appliances that fail authentication once, then raise. *)
Definition w_flaky_raising : World :=
  mkWorld 0 [] (fun n _ _ => if (n <? 1)%nat then AuthenticationFailure
                             else OtherException "timed out").

Lemma status_log_unhandled_witness :
  (exists n, clock (status sample_req 3 w_locked).2 = (clock w_locked + 2 * Z.of_nat n)%Z /\
    unhandled (drop 0 (status_log sample_req 3 (w_locked, [])).2.2) = replicate n RecursionError) /\
  unhandled (status_log sample_req 3 (w_locked, [])).2.2 =
    [RecursionError; RecursionError; RecursionError] /\
  unhandled (status_log sample_req 3 (w_flaky_raising, [])).2.2 =
    [DeviceError "timed out"; DeviceError "timed out"].
Proof.
  split; [|split; by vm_compute].
  assert (E : (status sample_req 3 w_locked).1 = inl RecursionError) by (by vm_compute).
  apply (status_log_unhandled sample_req 3 w_locked [] (inl RecursionError)).
  rewrite <- E. apply surjective_pairing.
Defined.

End Logging.
