(* ===== verification/Json.v ===== *)
(** The body of the handler's answer: [flask.jsonify(resp)] (status.py
    line 112), and the JSON reading the dashboard does on it.

    Flask is not part of the repository; the model follows the documented
    defaults of Flask 1.x outside debug mode: [jsonify] calls [json.dumps]
    with [sort_keys=True] ([JSON_SORT_KEYS]), [ensure_ascii=True]
    ([JSON_AS_ASCII]) and the compact separators [","] and [":"], and
    appends a newline.  Flask 0.x, which Python 2 deployments of this
    plugin may run, indents the body of a request that is not XHR and
    adds no newline; the model covers Flask 1.0 and later only.

    - [dump_string] escapes as [json.dumps] does: a backslash before the
      quote and the backslash, the short escapes b, f, n, r and t, and
      u00xx (lowercase hex) for every other character outside the
      printable range 32..126.
    - [dump] writes a value, [dump_object] an object from its entries, and
      [jsonify] the response map with its keys in increasing order.
    - [parse_value], [parse_array] and [parse_members] read JSON text
      (RFC 8259, strings of one-byte characters) with fuel; [parse_json]
      reads a whole body as an object; a repeated key keeps its last
      value, as [JSON.parse] does.

    [parse_jsonify]: reading the body gives back the response map;
    [jsonify_printable]: the body is printable ASCII up to its newline.  The
    reader's fuel is the length of the text, enough by [jsize_dump] and
    [msize_dump]. *)

From stdpp Require Import sorting.
From S2P Require Import Prelude PyStr Device Status.

Module Json.
Import Status.

(** ** Writing *)

Definition ch (n : nat) : ascii := ascii_of_nat n.

Definition quote : ascii := ch 34.
Definition backslash : ascii := ch 92.

(** A lowercase hexadecimal digit. *)
Definition hex_digit (d : nat) : ascii :=
  if (d <? 10)%nat then ch (48 + d) else ch (87 + d).

(** [json.dumps]'s escape of one character. *)
Definition escape_char (c : ascii) : string :=
  let n := nat_of_ascii c in
  if (n =? 34)%nat then String backslash (String quote EmptyString)
  else if (n =? 92)%nat then String backslash (String backslash EmptyString)
  else if (n =? 8)%nat then String backslash "b"
  else if (n =? 12)%nat then String backslash "f"
  else if (n =? 10)%nat then String backslash "n"
  else if (n =? 13)%nat then String backslash "r"
  else if (n =? 9)%nat then String backslash "t"
  else if (n <? 32)%nat || (126 <? n)%nat then
    String backslash ("u00" ++ String (hex_digit (n / 16)) (String (hex_digit (n mod 16)) EmptyString))
  else String c EmptyString.

Fixpoint escape (s : string) : string :=
  match s with
  | EmptyString => EmptyString
  | String c s' => (escape_char c ++ escape s')%string
  end.

Definition dump_string (s : string) : string :=
  String quote (escape s ++ String quote EmptyString)%string.

Fixpoint dump (v : JVal) : string :=
  match v with
  | JStr s => dump_string s
  | JNull => "null"
  | JArr vs =>
      String "[" ((fix elems (vs : list JVal) : string :=
                     match vs with
                     | [] => "]"
                     | [v] => (dump v ++ "]")%string
                     | v :: vs' => (dump v ++ String "," (elems vs'))%string
                     end) vs)
  end.

Definition dump_member (kv : string * JVal) : string :=
  (dump_string kv.1 ++ String ":" (dump kv.2))%string.

Fixpoint dump_members (kvs : list (string * JVal)) : string :=
  match kvs with
  | [] => "}"
  | [kv] => (dump_member kv ++ "}")%string
  | kv :: kvs' => (dump_member kv ++ String "," (dump_members kvs'))%string
  end.

Definition dump_object (kvs : list (string * JVal)) : string := String "{" (dump_members kvs).

(** Python's order on strings: by code points. *)
Fixpoint str_leb (s t : string) : bool :=
  match s, t with
  | EmptyString, _ => true
  | String _ _, EmptyString => false
  | String a s', String b t' =>
      if (nat_of_ascii a <? nat_of_ascii b)%nat then true
      else if (nat_of_ascii a =? nat_of_ascii b)%nat then str_leb s' t' else false
  end.

Definition key_le (a b : string * JVal) : Prop := str_leb a.1 b.1 = true.

#[export] Instance key_le_dec : RelDecision key_le.
Proof. intros a b. unfold key_le. apply _. Defined.

(** [flask.jsonify(resp)]: the body of the answer. *)
Definition jsonify (r : gmap string JVal) : string :=
  (dump_object (merge_sort key_le (map_to_list r)) ++ String (ch 10) EmptyString)%string.

(** ** Reading *)

Definition is_ws (c : ascii) : bool :=
  let n := nat_of_ascii c in (n =? 32) || (n =? 9) || (n =? 10) || (n =? 13).

Fixpoint skip_ws (s : string) : string :=
  match s with
  | String c s' => if is_ws c then skip_ws s' else s
  | EmptyString => EmptyString
  end.

Definition hex_val (c : ascii) : option nat :=
  let n := nat_of_ascii c in
  if (48 <=? n) && (n <=? 57) then Some (n - 48)
  else if (97 <=? n) && (n <=? 102) then Some (n - 87)
  else if (65 <=? n) && (n <=? 70) then Some (n - 55)
  else None.

Definition cons_str (c : ascii) (r : option (string * string)) : option (string * string) :=
  match r with Some (t, rest) => Some (String c t, rest) | None => None end.

(** The rest of a string literal after its opening quote.  A [\u] escape
    above [00ff] is refused: the model's characters are one byte. *)
Fixpoint parse_string (s : string) : option (string * string) :=
  match s with
  | EmptyString => None
  | String c s' =>
      let n := nat_of_ascii c in
      if (n =? 34)%nat then Some (EmptyString, s')
      else if (n =? 92)%nat then
        match s' with
        | String e s'' =>
            let m := nat_of_ascii e in
            if (m =? 34) || (m =? 92) || (m =? 47) then cons_str e (parse_string s'')
            else if (m =? 98)%nat then cons_str (ch 8) (parse_string s'')
            else if (m =? 102)%nat then cons_str (ch 12) (parse_string s'')
            else if (m =? 110)%nat then cons_str (ch 10) (parse_string s'')
            else if (m =? 114)%nat then cons_str (ch 13) (parse_string s'')
            else if (m =? 116)%nat then cons_str (ch 9) (parse_string s'')
            else if (m =? 117)%nat then
              match s'' with
              | String h1 (String h2 (String h3 (String h4 rest))) =>
                  match hex_val h1, hex_val h2, hex_val h3, hex_val h4 with
                  | Some a, Some b, Some c', Some d =>
                      let code := a * 4096 + b * 256 + c' * 16 + d in
                      if (code <? 256)%nat then cons_str (ch code) (parse_string rest) else None
                  | _, _, _, _ => None
                  end
              | _ => None
              end
            else None
        | EmptyString => None
        end
      else if (n <? 32)%nat then None
      else cons_str c (parse_string s')
  end.

(** [null] after its first letter. *)
Definition after_null (r : string) : option string :=
  match r with
  | String a (String b (String d r')) =>
      if (nat_of_ascii a =? 117) && (nat_of_ascii b =? 108) && (nat_of_ascii d =? 108)
      then Some r' else None
  | _ => None
  end.

Fixpoint parse_value (fuel : nat) (s : string) : option (JVal * string) :=
  match fuel with
  | O => None
  | S f =>
      match skip_ws s with
      | String c r =>
          let n := nat_of_ascii c in
          if (n =? 34)%nat then
            match parse_string r with Some (t, r') => Some (JStr t, r') | None => None end
          else if (n =? 110)%nat then
            match after_null r with Some r' => Some (JNull, r') | None => None end
          else if (n =? 91)%nat then
            match skip_ws r with
            | String d r' =>
                if (nat_of_ascii d =? 93)%nat then Some (JArr [], r')
                else match parse_array f r with Some (vs, r') => Some (JArr vs, r') | None => None end
            | EmptyString => None
            end
          else None
      | EmptyString => None
      end
  end
(** The elements of a non-empty array and its closing bracket. *)
with parse_array (fuel : nat) (s : string) : option (list JVal * string) :=
  match fuel with
  | O => None
  | S f =>
      match parse_value f s with
      | Some (v, r) =>
          match skip_ws r with
          | String c r' =>
              if (nat_of_ascii c =? 44)%nat then
                match parse_array f r' with Some (vs, r'') => Some (v :: vs, r'') | None => None end
              else if (nat_of_ascii c =? 93)%nat then Some ([v], r')
              else None
          | EmptyString => None
          end
      | None => None
      end
  end.

(** The members of a non-empty object and its closing brace. *)
Fixpoint parse_members (fuel : nat) (s : string) : option (list (string * JVal) * string) :=
  match fuel with
  | O => None
  | S f =>
      match skip_ws s with
      | String c r =>
          if (nat_of_ascii c =? 34)%nat then
            match parse_string r with
            | Some (k, r1) =>
                match skip_ws r1 with
                | String d r2 =>
                    if (nat_of_ascii d =? 58)%nat then
                      match parse_value f r2 with
                      | Some (v, r3) =>
                          match skip_ws r3 with
                          | String e r4 =>
                              if (nat_of_ascii e =? 44)%nat then
                                match parse_members f r4 with
                                | Some (kvs, r5) => Some ((k, v) :: kvs, r5)
                                | None => None
                                end
                              else if (nat_of_ascii e =? 125)%nat then Some ([(k, v)], r4)
                              else None
                          | EmptyString => None
                          end
                      | None => None
                      end
                    else None
                | EmptyString => None
                end
            | None => None
            end
          else None
      | EmptyString => None
      end
  end.

(** A whole body holding one object, with only white space after it. *)
Definition parse_json (s : string) : option (gmap string JVal) :=
  match skip_ws s with
  | String c r =>
      if (nat_of_ascii c =? 123)%nat then
        match skip_ws r with
        | String d r' =>
            if (nat_of_ascii d =? 125)%nat then
              (if String.eqb (skip_ws r') EmptyString then Some ∅ else None)
            else
              match parse_members (String.length s) r with
              | Some (kvs, rest) =>
                  if String.eqb (skip_ws rest) EmptyString then Some (py_dict kvs) else None
              | None => None
              end
        | EmptyString => None
        end
      else None
  | EmptyString => None
  end.

(** ** Sizes and the elements of an array, for the proofs *)

Fixpoint dump_elems (vs : list JVal) : string :=
  match vs with
  | [] => "]"
  | [v] => (dump v ++ "]")%string
  | v :: vs' => (dump v ++ String "," (dump_elems vs'))%string
  end.

Fixpoint jsize (v : JVal) : nat :=
  match v with
  | JArr vs => S (length vs + list_sum (map jsize vs))
  | _ => 1
  end.

Definition lsize (vs : list JVal) : nat := length vs + list_sum (map jsize vs).

Definition msize (kvs : list (string * JVal)) : nat :=
  length kvs + list_sum (map (fun kv => jsize kv.2) kvs).

(** Every character in the printable ASCII range 32..126. *)
Fixpoint printable (s : string) : bool :=
  match s with
  | EmptyString => true
  | String c s' => (32 <=? nat_of_ascii c) && (nat_of_ascii c <=? 126) && printable s'
  end.

(** ** Lemmas *)

Lemma str_leb_total s t : str_leb s t = true \/ str_leb t s = true.
Proof.
  revert t. induction s as [|a s IH]; intros [|b t]; cbn [str_leb]; auto.
  destruct (Nat.ltb_spec (nat_of_ascii a) (nat_of_ascii b)); auto.
  destruct (Nat.ltb_spec (nat_of_ascii b) (nat_of_ascii a)); auto.
  assert (nat_of_ascii a = nat_of_ascii b) as -> by lia. rewrite Nat.eqb_refl. apply IH.
Qed.

#[export] Instance key_le_total : Total key_le.
Proof. intros a b. apply str_leb_total. Qed.

(** Induction on values through the elements of arrays. *)
Lemma JVal_nested_ind (P : JVal -> Prop) :
  (forall s, P (JStr s)) -> P JNull -> (forall vs, Forall P vs -> P (JArr vs)) ->
  forall v, P v.
Proof.
  intros Hs Hn Ha. fix IH 1. intros [s| |vs]; [done|done|].
  apply Ha. induction vs as [|v vs IHvs]; constructor; [apply IH|apply IHvs].
Qed.

Lemma skip_ws_char c t : is_ws c = false -> skip_ws (String c t) = String c t.
Proof. intros H. cbn. by rewrite H. Qed.

Lemma dump_arr vs : dump (JArr vs) = String "[" (dump_elems vs).
Proof. reflexivity. Qed.

(** A value starts with a quote, an [n] or a bracket. *)
Lemma dump_first v rest :
  exists c t, (dump v ++ rest)%string = String c t /\ is_ws c = false /\ (nat_of_ascii c =? 93)%nat = false.
Proof. destruct v; do 2 eexists; (split; [reflexivity|done]). Qed.

(** Reading back one escaped character, for each of the 256. *)
Lemma parse_string_escape_char c t :
  parse_string (escape_char c ++ t) = cons_str c (parse_string t).
Proof. destruct c as [[] [] [] [] [] [] [] []]; reflexivity. Qed.

Lemma parse_string_escape s t :
  parse_string (escape s ++ String quote t) = Some (s, t).
Proof.
  induction s as [|c s IH]; [reflexivity|].
  cbn [escape]. rewrite <- string_app_assoc, parse_string_escape_char, IH. done.
Qed.

Lemma parse_string_dump s t : parse_string ((escape s ++ String quote EmptyString) ++ t) = Some (s, t).
Proof. rewrite <- string_app_assoc. apply parse_string_escape. Qed.

Lemma skip_ws_dump v rest : skip_ws (dump v ++ rest) = (dump v ++ rest)%string.
Proof. destruct (dump_first v rest) as (c & t & E & W & _). rewrite E. by apply skip_ws_char. Qed.

Lemma dump_elems_cons v vs rest :
  (dump_elems (v :: vs) ++ rest)%string =
  (dump v ++ match vs with [] => String "]" rest | _ => String "," (dump_elems vs ++ rest) end)%string.
Proof. destruct vs; cbn [dump_elems]; by rewrite <- string_app_assoc. Qed.

Lemma elems_first v vs rest :
  exists c t, (dump_elems (v :: vs) ++ rest)%string = String c t /\
    is_ws c = false /\ (nat_of_ascii c =? 93)%nat = false.
Proof. rewrite dump_elems_cons. apply dump_first. Qed.

Lemma parse_value_arr f x :
  parse_value (S f) (String "[" x) =
  match skip_ws x with
  | String d r' =>
      if (nat_of_ascii d =? 93)%nat then Some (JArr [], r')
      else match parse_array f x with Some (vs, r') => Some (JArr vs, r') | None => None end
  | EmptyString => None
  end.
Proof. reflexivity. Qed.

Lemma lsize_cons v vs : lsize (v :: vs) = S (jsize v + lsize vs).
Proof. unfold lsize. simpl. lia. Qed.

Lemma msize_cons kv kvs : msize (kv :: kvs) = S (jsize kv.2 + msize kvs).
Proof. unfold msize. simpl. lia. Qed.

(** Reading back a written value or array, with fuel above its size. *)
Lemma parse_dump f :
  (forall v rest, jsize v < f -> parse_value f (dump v ++ rest) = Some (v, rest)) /\
  (forall vs rest, vs <> [] -> lsize vs < f ->
     parse_array f (dump_elems vs ++ rest) = Some (vs, rest)).
Proof.
  induction f as [|f [IHv IHa]]; [split; intros; lia|]. split.
  - intros [s| |[|v vs]] rest Hs; [|reflexivity|reflexivity|].
    + cbn [parse_value dump]. unfold dump_string. rewrite string_app_cons.
      rewrite skip_ws_char by reflexivity. cbn -[parse_string].
      by rewrite parse_string_dump.
    + rewrite dump_arr, string_app_cons, parse_value_arr.
      destruct (elems_first v vs rest) as (c & t & E & W & N).
      rewrite E, skip_ws_char, N by done. rewrite <- E, IHa; [done|done|].
      cbn [jsize] in Hs. unfold lsize. lia.
  - intros [|v vs] rest Hne Hs; [done|]. rewrite lsize_cons in Hs.
    cbn [parse_array]. rewrite dump_elems_cons, IHv by lia.
    destruct vs as [|v' vs]; [reflexivity|].
    rewrite skip_ws_char by reflexivity. cbn -[parse_array dump_elems]. rewrite IHa by (done || lia). done.
Qed.

Lemma dump_members_cons k v kvs rest :
  (dump_members ((k, v) :: kvs) ++ rest)%string =
  String quote ((escape k ++ String quote EmptyString) ++
    String ":" (dump v ++ match kvs with
                          | [] => String "}" rest
                          | _ => String "," (dump_members kvs ++ rest) end))%string.
Proof.
  destruct kvs; cbn [dump_members fst snd]; unfold dump_member, dump_string;
    repeat (rewrite string_app_cons || rewrite <- string_app_assoc); reflexivity.
Qed.

(** Reading back written members, with fuel above their size. *)
Lemma parse_members_dump kvs f rest :
  kvs <> [] -> msize kvs < f -> parse_members f (dump_members kvs ++ rest) = Some (kvs, rest).
Proof.
  revert f. induction kvs as [|[k v] kvs IH]; intros [|f] Hne Hs; [done|done|lia|].
  rewrite msize_cons in Hs. cbn [parse_members]. rewrite dump_members_cons.
  rewrite skip_ws_char by reflexivity. cbn -[parse_string parse_value dump escape].
  rewrite parse_string_dump, skip_ws_char by reflexivity.
  cbn -[parse_value parse_members dump dump_members].
  rewrite (proj1 (parse_dump f)) by (cbn in Hs; lia).
  destruct kvs as [|kv' kvs]; [reflexivity|].
  rewrite skip_ws_char by reflexivity. cbn -[parse_members dump_members].
  by rewrite IH by (done || lia).
Qed.

(** A written value is at least as long as its size. *)
Lemma dump_size f :
  (forall v, jsize v < f -> jsize v <= String.length (dump v)) /\
  (forall vs, lsize vs < f -> lsize vs <= String.length (dump_elems vs)).
Proof.
  induction f as [|f [IHv IHa]]; [split; intros; lia|]. split.
  - intros [s| |vs] Hs; [cbn; lia|cbn; lia|].
    rewrite dump_arr. cbn [String.length jsize]. fold (lsize vs).
    enough (lsize vs <= String.length (dump_elems vs)) by lia.
    apply IHa. cbn [jsize] in Hs. unfold lsize. lia.
  - intros [|v vs] Hs; [cbn; lia|]. rewrite lsize_cons in Hs |- *.
    rewrite <- (string_app_nil_r (dump_elems _)), dump_elems_cons, string_length_app.
    assert (jsize v <= String.length (dump v)) by (apply IHv; lia).
    destruct vs as [|v' vs]; cbn [String.length]; [unfold lsize; cbn; lia|].
    rewrite string_app_nil_r. enough (lsize (v' :: vs) <= String.length (dump_elems (v' :: vs))) by lia.
    apply IHa. lia.
Qed.

Lemma jsize_dump v : jsize v <= String.length (dump v).
Proof. apply (proj1 (dump_size (S (jsize v)))). lia. Qed.

Lemma msize_dump kvs : msize kvs <= String.length (dump_members kvs).
Proof.
  induction kvs as [|[k v] kvs IH]; [cbn; lia|]. rewrite msize_cons.
  rewrite <- (string_app_nil_r (dump_members _)), dump_members_cons.
  pose proof (jsize_dump v). cbn [String.length fst snd].
  rewrite !string_length_app. destruct kvs;
    cbn [String.length]; rewrite ?string_app_nil_r, !string_length_app;
    cbn [String.length]; [unfold msize; cbn|]; lia.
Qed.

Lemma skip_ws_newline : skip_ws (String (ch 10) EmptyString) = EmptyString.
Proof. reflexivity. Qed.

Lemma printable_app s t : printable (s ++ t) = printable s && printable t.
Proof. induction s as [|c s IH]; [done|]. rewrite string_app_cons. cbn [printable]. by rewrite IH, andb_assoc. Qed.

Lemma printable_escape_char c : printable (escape_char c) = true.
Proof. destruct c as [[] [] [] [] [] [] [] []]; reflexivity. Qed.

Lemma printable_dump_string s : printable (dump_string s) = true.
Proof.
  unfold dump_string. cbn [printable]. rewrite printable_app, andb_true_r.
  induction s as [|c s IH]; [done|]. cbn [escape]. by rewrite printable_app, printable_escape_char.
Qed.

#[local] Hint Rewrite printable_app printable_dump_string : mast_run.

Lemma printable_dump v : printable (dump v) = true.
Proof.
  induction v as [s| |vs Hvs] using JVal_nested_ind; [apply printable_dump_string|done|].
  rewrite dump_arr. cbn [printable].
  enough (printable (dump_elems vs) = true) as -> by done.
  induction Hvs as [|v vs Hv Hvs IH]; [done|]. destruct vs as [|v' vs].
  - cbn [dump_elems]. by rewrite printable_app, Hv.
  - change (dump_elems (v :: v' :: vs)) with (dump v ++ String "," (dump_elems (v' :: vs)))%string.
    rewrite printable_app, Hv. cbn [printable]. by rewrite IH.
Qed.

Lemma printable_dump_members kvs : printable (dump_members kvs) = true.
Proof.
  induction kvs as [|[k v] kvs IH]; [done|].
  assert (Hm : printable (dump_member (k, v)) = true).
  { unfold dump_member. cbn [fst snd]. autorewrite with mast_run. cbn [printable].
    by rewrite printable_dump. }
  destruct kvs as [|kv' kvs].
  - cbn [dump_members]. by rewrite printable_app, Hm.
  - change (dump_members ((k, v) :: kv' :: kvs))
      with (dump_member (k, v) ++ String "," (dump_members (kv' :: kvs)))%string.
    rewrite printable_app, Hm. cbn [printable]. by rewrite IH.
Qed.

(** The body lists the entries of the map with their keys in increasing
    order. *)
Lemma jsonify_sorted (r : gmap string JVal) :
  exists kvs, jsonify r = (dump_object kvs ++ String (ch 10) EmptyString)%string /\
    Sorted key_le kvs /\ kvs ≡ₚ map_to_list r.
Proof.
  eexists. split_and!; [reflexivity|apply Sorted_merge_sort, _|apply merge_sort_Permutation].
Qed.

(** Reading back the body gives the map: every key with its value, and
    no other key, whatever the strings hold. *)
Lemma parse_jsonify (r : gmap string JVal) : parse_json (jsonify r) = Some r.
Proof.
  unfold jsonify.
  pose proof (merge_sort_Permutation key_le (map_to_list r)) as Hp.
  destruct (merge_sort key_le (map_to_list r)) as [|[k v] kvs] eqn:EL.
  - apply Permutation_nil in Hp. apply map_to_list_empty_iff in Hp as ->. reflexivity.
  - unfold parse_json, dump_object. rewrite string_app_cons, skip_ws_char by reflexivity.
    cbn -[skip_ws dump_members String.length parse_members].
    rewrite dump_members_cons, skip_ws_char by reflexivity.
    cbn -[parse_members String.length dump_members escape dump].
    rewrite <- dump_members_cons, parse_members_dump; [|done|].
    + rewrite skip_ws_newline. cbn -[py_dict]. f_equal. apply py_dict_map_to_list. by symmetry.
    + pose proof (msize_dump ((k, v) :: kvs)). cbn [String.length].
      rewrite string_length_app. lia.
Qed.

(** The body is printable ASCII up to its final newline. *)
Lemma jsonify_printable (r : gmap string JVal) :
  exists b, jsonify r = (b ++ String (ch 10) EmptyString)%string /\ printable b = true.
Proof.
  eexists. split; [reflexivity|]. unfold dump_object. cbn [printable].
  apply printable_dump_members.
Qed.

End Json.
