(* ===== verification/View.v ===== *)
(** The [status] view as Flask serves it: the handler of [Status.status]
    followed by [flask.jsonify] of [Json] (status.py lines 64-112), what a
    client reading the body finds in it (the response map, in key order,
    in printable ASCII), and the status code of every answer ([serve]). *)

From stdpp Require Import sorting.
From S2P Require Import Prelude PyStr Device Status StatusProps Json.

Module View.
Import Device Status StatusProps Json.

(** The status code Flask answers with when the view raises, outside
    debug mode, with Werkzeug 1.0 or later: [abort(404)] raises
    [NotFound], 404; a missing key of [request.cookies] raises Werkzeug's
    [BadRequestKeyError], a [BadRequest], 400 (before Werkzeug 1.0 the
    cookie dict raised a plain [KeyError], which Flask answers with 500);
    any other exception is an internal server error, 500. *)
Definition http_status (e : Exc) : nat :=
  match e with
  | HTTPNotFound => 404
  | BadRequestKeyError _ => 400
  | _ => 500
  end.

Section Handler.
Context `{MastLib}.

(** Lines 64-112: the handler's response map, returned as
    [flask.jsonify(resp)] (line 112); an exception leaves the view. *)
Definition status_view (req : Request) (fuel : nat) : M string :=
  do r <- status req fuel ; esm_ret (jsonify r).

(** The answer to the POST: 200 with the body, or the status code of the
    exception that left the view. *)
Definition serve (req : Request) (fuel : nat) (w : World) : (nat * option string) * World :=
  match status_view req fuel w with
  | (inr body, w') => ((200, Some body), w')
  | (inl e, w') => ((http_status e, None), w')
  end.

Lemma http_status_loop_error e : loop_error e -> http_status e = 500.
Proof. intros [H1 H2]. destruct e; try done. by destruct (H2 key). Qed.

Lemma serve_code_decoded req fuel w :
  form_credentials req = [] \/ is_Some (cookies req !! COOKIE_KEY) ->
  (serve req (S fuel) w).1.1 =
    match form_appliances req with
    | [] => 404
    | _ :: _ => match (status req (S fuel) w).1 with inr _ => 200 | inl _ => 500 end
    end.
Proof.
  intros Hck. unfold serve, status_view. esm_unfold.
  destruct (form_appliances req) as [|h hs] eqn:Ha.
  - cbn [status]. esm_unfold.
    destruct (decode_credentials_ok req (form_credentials req) w Hck) as [creds ->].
    by rewrite Ha.
  - destruct (status req (S fuel) w) as [[e|r] w'] eqn:E; [|done]. cbn.
    apply http_status_loop_error. eapply status_loop_error; [|done|done]. by rewrite Ha.
Qed.

(** The body of a successful answer reads back, as JSON, to exactly
    the response map the handler built: every key with its value and no
    other key, whatever the hostnames and metric texts hold (quotes,
    backslashes, control characters). *)
Theorem status_view_roundtrip req fuel w body w' :
  status_view req fuel w = (inr body, w') ->
  exists r, status req fuel w = (inr r, w') /\ parse_json body = Some r.
Proof.
  unfold status_view. esm_unfold.
  destruct (status req fuel w) as [[e|r] w1]; [done|]. intros [= <- <-].
  exists r. split; [done|]. apply parse_jsonify.
Qed.

(** The body of a successful answer is a JSON object that reads
    back to a response of the shape of [status_response_shape]: the
    appliances echoed, a time, and one list per requested metric with one
    string or [null] per appliance. *)
Theorem status_view_body req fuel w body w' :
  status_view req fuel w = (inr body, w') ->
  exists r, parse_json body = Some r /\
    response_shape (form_appliances req) (form_providers req) r.
Proof.
  unfold status_view. esm_unfold.
  destruct (status req fuel w) as [[e|r] w1] eqn:E; [done|]. intros [= <- _].
  exists r. split; [apply parse_jsonify|]. by eapply status_shape.
Qed.

(** The body of a successful answer is pure ASCII
    ([JSON_AS_ASCII]): every character before its final newline is
    printable, whatever bytes the hostnames and metric texts hold. *)
Theorem status_view_ascii req fuel w body w' :
  status_view req fuel w = (inr body, w') ->
  exists b, body = (b ++ String (ch 10) EmptyString)%string /\ printable b = true.
Proof.
  unfold status_view. esm_unfold.
  destruct (status req fuel w) as [[e|r] w1]; [done|]. intros [= <- _].
  apply jsonify_printable.
Qed.

(** The body of a successful answer is the object of the handler's
    response with its entries in increasing key order ([sort_keys]): a
    client that reads the members in order sees the keys sorted by code
    point, each once. *)
Theorem status_view_sorted_keys req fuel w body w' :
  status_view req fuel w = (inr body, w') ->
  exists r kvs, status req fuel w = (inr r, w') /\
    body = (dump_object kvs ++ String (ch 10) EmptyString)%string /\
    Sorted key_le kvs /\ kvs ≡ₚ map_to_list r.
Proof.
  unfold status_view. esm_unfold.
  destruct (status req fuel w) as [[e|r] w1]; [done|]. intros [= <- <-].
  destruct (jsonify_sorted r) as (kvs & -> & Hs & Hp). by exists r, kvs.
Qed.

(** C27: the status code of every answer (Werkzeug 1.0 or later, see
    [http_status]), the error paths included:
    400 when a credential is sent without the key cookie, checked first
    (line 71, before the empty check of line 73); otherwise 404 when no
    appliance is given; otherwise 200 when the handler succeeds and 500
    when it fails, so no error of the loops or of the recursion limit is
    ever reported as 404 or 400. *)
Theorem serve_status_code req fuel w :
  (serve req (S fuel) w).1.1 =
    match form_credentials req, cookies req !! COOKIE_KEY, form_appliances req with
    | _ :: _, None, _ => 400
    | _, _, [] => 404
    | _, _, _ :: _ => match (status req (S fuel) w).1 with inr _ => 200 | inl _ => 500 end
    end.
Proof.
  destruct (form_credentials req) as [|c cs] eqn:Hc;
    destruct (cookies req !! COOKIE_KEY) as [k|] eqn:Hk;
    try (apply serve_code_decoded; rewrite Hc, ?Hk; by eauto).
  unfold serve, status_view. cbn [status]. esm_unfold. rewrite Hc. cbn. by rewrite Hk.
Qed.

End Handler.

#[local] Existing Instance sample_lib.

(** Two appliances, two metrics, one authentication failure and retry. *)
Lemma status_view_roundtrip_witness :
  exists r, status sample_req 3 (w_flaky 2) = (inr r, (status sample_req 3 (w_flaky 2)).2) /\
    parse_json (match (status_view sample_req 3 (w_flaky 2)).1 with
                | inr body => body | inl _ => EmptyString end) = Some r.
Proof.
  destruct (run_inr (status_view sample_req 3 (w_flaky 2))) as (b & w' & E); [by vm_compute|].
  rewrite E. destruct (status_view_roundtrip sample_req 3 (w_flaky 2) b w' E) as (r & Hs & Hp).
  exists r. rewrite Hs. split; [|done]. reflexivity.
Defined.

Lemma status_view_sorted_keys_witness :
  exists r kvs,
    status sample_req 3 (w_flaky 2) = (inr r, (status_view sample_req 3 (w_flaky 2)).2) /\
    (status_view sample_req 3 (w_flaky 2)).1 = inr (dump_object kvs ++ String (ch 10) EmptyString)%string /\
    Sorted key_le kvs /\ kvs ≡ₚ map_to_list r.
Proof.
  destruct (run_inr (status_view sample_req 3 (w_flaky 2))) as (body & w' & E); [by vm_compute|].
  rewrite E.
  destruct (status_view_sorted_keys sample_req 3 (w_flaky 2) body w' E) as (r & kvs & Hr & -> & Hs & Hp).
  exists r, kvs. exact (conj Hr (conj eq_refl (conj Hs Hp))).
Defined.

Lemma status_view_ascii_witness :
  exists b, (status_view sample_req 3 (w_flaky 2)).1 = inr (b ++ String (ch 10) EmptyString)%string /\
    printable b = true.
Proof.
  destruct (run_inr (status_view sample_req 3 (w_flaky 2))) as (body & w' & E); [by vm_compute|].
  rewrite E. destruct (status_view_ascii sample_req 3 (w_flaky 2) body w' E) as (b & -> & Hb).
  by exists b.
Defined.

Lemma status_view_body_witness :
  exists r, parse_json (match (status_view sample_req 3 (w_flaky 2)).1 with
                        | inr body => body | inl _ => EmptyString end) = Some r /\
    response_shape ["dp1"; "dp2"] sample_providers r.
Proof.
  destruct (run_inr (status_view sample_req 3 (w_flaky 2))) as (b & w' & E); [by vm_compute|].
  rewrite E. exact (status_view_body sample_req 3 (w_flaky 2) b w' E).
Defined.

End View.
