(* ===== verification/Plugin.v ===== *)
(** The plugin's bootstrap (status.py lines 20-61): reading [MAST_HOME] at
    import, [get_data_file], [WebPlugin.__init__] (which writes a default
    [status.conf] when there is none) and the [css]/[js]/[html] methods.

    The state is a filesystem: regular files with their contents and a set
    of directories.  [open(p, "w")] creates or truncates [p] (its parent
    directory must exist), [write] appends, [open(p, "rb").read()] reads,
    and [os.path.exists] looks at both.  [os.path.join] and
    [os.path.dirname] follow posixpath.

    The order of effects in [__init__] matters: [with open(config_file,
    "w") as fout: fout.write(get_data_file("plugin.conf"))] opens, and so
    truncates, the config file before [get_data_file] runs; if the data file
    cannot be read the config file is left empty, and since it now exists
    no later start writes it again ([init_missing_data_empty_config]). *)

From S2P Require Import Prelude PyStr.

Module Plugin.

(** ** os.path *)

(** [s.rstrip(c)] *)
Fixpoint rstrip (c : ascii) (s : string) : string :=
  match s with
  | EmptyString => EmptyString
  | String a s' =>
      let r := rstrip c s' in
      if String.eqb r "" && Ascii.eqb a c then EmptyString else String a r
  end.

(** [posixpath.join(a, *p)] *)
Definition join (a : string) (ps : list string) : string :=
  foldl (fun path b =>
           if PyStr.startswith "/" b then b
           else if String.eqb path "" || PyStr.endswith "/" path then (path ++ b)%string
           else (path ++ "/" ++ b)%string) a ps.

(** [posixpath.dirname(p)]: the part before the last ["/"], without its
    trailing slashes unless it is made of slashes only. *)
Definition dirname (p : string) : string :=
  let fields := PyStr.split "/" p in
  let head := match fields with
              | [_] => EmptyString
              | _ => (PyStr.join "/" (removelast fields) ++ "/")%string
              end in
  if negb (String.eqb head "") && negb (String.eqb (rstrip "/" head) "")
  then rstrip "/" head else head.

(** ** Filesystem and exceptions *)

Record FS : Type := mkFS {
  files : gmap string string;
  dirs : gset string
}.

Inductive PyError : Type :=
| EnvKeyError (key : string)   (** [os.environ[key]], absent *)
| IOError (path : string)      (** [open] failing on [path] *)
| ImportError (module : string) (name : option string)
                               (** [import module], or [from module import name] *)
| NameError (name : string)    (** a global name that is not bound *)
| AttributeError (obj attr : string). (** [obj.attr], absent *)

Abbreviation IO := (ESM FS PyError).

(** [os.path.exists(p)] *)
Definition path_exists (p : string) (fs : FS) : bool :=
  bool_decide (is_Some (files fs !! p)) || bool_decide (p ∈ dirs fs).

(** [open(p, "rb").read()] *)
Definition read_file (p : string) : IO string :=
  fun fs => match files fs !! p with
            | Some c => (inr c, fs)
            | None => (inl (IOError p), fs)
            end.

(** [open(p, "w")]: creates or truncates [p]. *)
Definition open_w (p : string) : IO unit :=
  fun fs => if bool_decide (dirname p ∈ dirs fs) && negb (bool_decide (p ∈ dirs fs))
            then (inr tt, mkFS (<[p := EmptyString]> (files fs)) (dirs fs))
            else (inl (IOError p), fs).

(** [fout.write(data)] on a file opened by [open_w]. *)
Definition write (p data : string) : IO unit :=
  fun fs => let old := match files fs !! p with Some c => c | None => EmptyString end in
            (inr tt, mkFS (<[p := (old ++ data)%string]> (files fs)) (dirs fs)).

(** ** The plugin *)

Section WithModuleFile.

(** [__file__] of [mast/datapower/status/status.py]. *)
Variable module_file : string.

(** Lines 23-28. *)
Definition get_data_file (f : string) : IO string :=
  read_file (join (dirname module_file) ["data"; f]).

(** Lines 42-46. *)
Definition config_file (mast_home : string) : string :=
  join mast_home ["etc"; "default"; "status.conf"].

(** Lines 36-50 ([self.route = self.status] and the logging aside). *)
Definition WebPlugin_init (mast_home : string) : IO unit :=
  do fs <- esm_get;
  if path_exists (config_file mast_home) fs then esm_ret tt
  else
    do _ <- open_w (config_file mast_home);
    do data <- get_data_file "plugin.conf";
    write (config_file mast_home) data.

(** Lines 54-61. *)
Definition css : IO string := get_data_file "plugin.css".
Definition js : IO string := get_data_file "plugin.js".
Definition html : IO string := get_data_file "plugin.html".

(** Line 20 (import) followed by the instantiation [WebPlugin()] that the
    web console performs. *)
Definition load_plugin (environ : gmap string string) : IO unit :=
  match environ !! "MAST_HOME" with
  | None => esm_raise (EnvKeyError "MAST_HOME")
  | Some mast_home => WebPlugin_init mast_home
  end.

End WithModuleFile.

(** ** Lemmas *)

Arguments join : simpl never.
Arguments dirname : simpl never.
Arguments config_file : simpl never.

Lemma path_exists_file p c (m : gmap string string) d :
  path_exists p (mkFS (<[p := c]> m) d) = true.
Proof. unfold path_exists. cbn. rewrite lookup_insert_eq. by rewrite bool_decide_true. Qed.

#[export] Hint Rewrite path_exists_file : mast_run.

Lemma open_w_cases p fs :
  open_w p fs = (inl (IOError p), fs) \/
  open_w p fs = (inr tt, mkFS (<[p := EmptyString]> (files fs)) (dirs fs)).
Proof. unfold open_w. case_match; auto. Qed.

Lemma open_w_ok p fs :
  dirname p ∈ dirs fs -> p ∉ dirs fs ->
  open_w p fs = (inr tt, mkFS (<[p := EmptyString]> (files fs)) (dirs fs)).
Proof. intros. unfold open_w. by rewrite bool_decide_true, bool_decide_false. Qed.

Lemma read_file_cases p fs :
  read_file p fs = (inl (IOError p), fs) \/ exists c, read_file p fs = (inr c, fs).
Proof. unfold read_file. case_match; eauto. Qed.

Lemma path_exists_false_not_dir p fs : path_exists p fs = false -> p ∉ dirs fs.
Proof.
  unfold path_exists. intros H Hin. rewrite (bool_decide_true (_ ∈ _)) in H by done.
  by rewrite orb_true_r in H.
Qed.

Section InitLemmas.
Variables module_file mast_home : string.

(** A start on a filesystem without the config file: open, read, write. *)
Lemma init_no_config fs :
  path_exists (config_file mast_home) fs = false ->
  WebPlugin_init module_file mast_home fs =
    esm_bind (open_w (config_file mast_home))
      (fun _ => esm_bind (get_data_file module_file "plugin.conf")
                         (write (config_file mast_home))) fs.
Proof. intros Hc. unfold WebPlugin_init. esm_unfold. by rewrite Hc. Qed.

(** Whatever happens, a start keeps the directories and the other files,
    and leaves the filesystem unchanged or the config file in place. *)
Lemma init_effect fs :
  let fs' := (WebPlugin_init module_file mast_home fs).2 in
  dirs fs' = dirs fs /\
  (forall p, p <> config_file mast_home -> files fs' !! p = files fs !! p) /\
  (fs' = fs \/ path_exists (config_file mast_home) fs' = true).
Proof.
  cbn zeta. destruct (path_exists (config_file mast_home) fs) eqn:Hc.
  - unfold WebPlugin_init. esm_unfold. rewrite Hc. cbn. auto.
  - rewrite init_no_config by done. esm_unfold.
    destruct (open_w_cases (config_file mast_home) fs) as [E|E]; rewrite E; [cbn; auto|].
    unfold get_data_file.
    destruct (read_file_cases (join (dirname module_file) ["data"; "plugin.conf"])
                (mkFS (<[config_file mast_home := EmptyString]> (files fs)) (dirs fs)))
      as [E2|[c E2]]; rewrite E2; cbn.
    + split; [done|]. split; [|right; by autorewrite with mast_run].
      intros p Hp. by rewrite lookup_insert_ne.
    + split; [done|]. split; [|right; by autorewrite with mast_run].
      intros p Hp. by rewrite !lookup_insert_ne.
Qed.

(** A first start whose data file is missing: [open] has already
    truncated the config file when [get_data_file] raises. *)
Lemma init_missing_data fs :
  path_exists (config_file mast_home) fs = false ->
  dirname (config_file mast_home) ∈ dirs fs ->
  join (dirname module_file) ["data"; "plugin.conf"] <> config_file mast_home ->
  files fs !! join (dirname module_file) ["data"; "plugin.conf"] = None ->
  WebPlugin_init module_file mast_home fs =
    (inl (IOError (join (dirname module_file) ["data"; "plugin.conf"])),
     mkFS (<[config_file mast_home := EmptyString]> (files fs)) (dirs fs)).
Proof.
  intros Hc Hd Hne Hdata. rewrite init_no_config by done. esm_unfold.
  rewrite open_w_ok by auto using path_exists_false_not_dir.
  unfold get_data_file, read_file. cbn. by rewrite lookup_insert_ne, Hdata.
Qed.

End InitLemmas.

Lemma init_config_exists module_file mast_home fs :
  path_exists (config_file mast_home) fs = true ->
  WebPlugin_init module_file mast_home fs = (inr tt, fs).
Proof. intros Hc. unfold WebPlugin_init. esm_unfold. by rewrite Hc. Qed.

(** ** Theorems *)

(** C18: starting the plugin when [status.conf] exists changes nothing,
    and any start keeps every directory and every other file. *)
Theorem init_preserves module_file mast_home fs :
  (path_exists (config_file mast_home) fs = true ->
     WebPlugin_init module_file mast_home fs = (inr tt, fs)) /\
  dirs (WebPlugin_init module_file mast_home fs).2 = dirs fs /\
  (forall p, p <> config_file mast_home ->
     files (WebPlugin_init module_file mast_home fs).2 !! p = files fs !! p).
Proof.
  split; [apply init_config_exists|].
  destruct (init_effect module_file mast_home fs) as (Hd & Hf & _). auto.
Qed.

(** C17: on a first start, with the directory of the config file present
    and [data/plugin.conf] readable, [status.conf] receives its contents. *)
Theorem init_writes_default module_file mast_home fs c :
  path_exists (config_file mast_home) fs = false ->
  dirname (config_file mast_home) ∈ dirs fs ->
  join (dirname module_file) ["data"; "plugin.conf"] <> config_file mast_home ->
  files fs !! join (dirname module_file) ["data"; "plugin.conf"] = Some c ->
  WebPlugin_init module_file mast_home fs =
    (inr tt, mkFS (<[config_file mast_home := c]> (files fs)) (dirs fs)).
Proof.
  intros Hc Hd Hne Hdata. rewrite init_no_config by done. esm_unfold.
  rewrite open_w_ok by auto using path_exists_false_not_dir.
  unfold get_data_file, read_file, write. cbn.
  rewrite lookup_insert_ne, Hdata by done. cbn.
  by rewrite lookup_insert_eq, insert_insert_eq.
Qed.

(** C14: if [data/plugin.conf] cannot be read on a first start, the start
    raises [IOError] after [open(config_file, "w")] has created an empty
    [status.conf]; every later start then finds the file and succeeds
    without writing it, so the default configuration is never written. *)
Theorem init_missing_data_empty_config module_file mast_home fs :
  path_exists (config_file mast_home) fs = false ->
  dirname (config_file mast_home) ∈ dirs fs ->
  join (dirname module_file) ["data"; "plugin.conf"] <> config_file mast_home ->
  files fs !! join (dirname module_file) ["data"; "plugin.conf"] = None ->
  let fs1 := mkFS (<[config_file mast_home := EmptyString]> (files fs)) (dirs fs) in
  WebPlugin_init module_file mast_home fs =
    (inl (IOError (join (dirname module_file) ["data"; "plugin.conf"])), fs1) /\
  WebPlugin_init module_file mast_home fs1 = (inr tt, fs1).
Proof.
  intros Hc Hd Hne Hdata fs1. split; [by apply init_missing_data|].
  apply init_config_exists. apply path_exists_file.
Qed.

(** ** Concrete runs *)

Definition sample_module : string := "/site/mast/datapower/status/status.py".
Definition fs_fresh : FS := mkFS ∅ {[ "/mast/etc/default" ]}.
Definition fs_dev : FS :=
  mkFS {[ "/site/mast/datapower/status/data/plugin.conf" := "[status]" ]}
       {[ "/mast/etc/default" ]}.

Lemma init_preserves_witness :
  WebPlugin_init sample_module "/mast"
    (mkFS {[ "/mast/etc/default/status.conf" := "x" ]} ∅) =
    (inr tt, mkFS {[ "/mast/etc/default/status.conf" := "x" ]} ∅).
Proof. apply (init_preserves sample_module "/mast"). by vm_compute. Defined.

Lemma init_writes_default_witness :
  WebPlugin_init sample_module "/mast" fs_dev =
    (inr tt, mkFS (<[config_file "/mast" := "[status]"]> (files fs_dev)) (dirs fs_dev)).
Proof.
  apply init_writes_default; try by vm_compute.
  all: apply (bool_decide_unpack _); by vm_compute.
Defined.

Lemma init_missing_data_empty_config_witness :
  WebPlugin_init sample_module "/mast" fs_fresh =
    (inl (IOError "/site/mast/datapower/status/data/plugin.conf"),
     mkFS (<[config_file "/mast" := EmptyString]> (files fs_fresh)) (dirs fs_fresh)).
Proof.
  apply (init_missing_data_empty_config sample_module "/mast" fs_fresh); try by vm_compute.
  all: apply (bool_decide_unpack _); by vm_compute.
Defined.

End Plugin.
