(* ===== verification/Packaging.v ===== *)
(** The packaging of the plugin (src/setup.py): which files of the package
    directory an installation made by setuptools contains, and what the
    plugin then finds at run time.

    [setup_args readme] transcribes the arguments of [setup(...)], with
    [readme] the contents [read("README.md")] returns ([read], [setup_py]).
    setuptools' [build_py] copies the modules of each package (the [*.py]
    files directly in its directory) and the files matching the package's
    [package_data] glob patterns; [glob] matches one path segment per
    pattern segment, [*] and [?] do not cross ["/"] and do not match a
    leading ["."] (modelled from the documented behaviour of [glob] and
    [fnmatch]).  [install args] is the installation made from [args].

    [get_data_file] reads [data/<f>] next to status.py, but
    [package_data] only names ["docroot/*"]: no file under [data/] is
    ever installed ([installed_no_data_files]), so on an installed copy
    every [get_data_file] raises [IOError] ([installed_get_data_file_fails]),
    and the first start leaves an empty [status.conf]
    ([installed_first_start_empty_config]). *)

From S2P Require Import Prelude PyStr Plugin.

Module Packaging.
Import Plugin.

(** ** setup.py *)

Record SetupArgs : Type := mkSetup {
  name : string;
  version : string;
  author : string;
  author_email : string;
  description : string;
  license : string;
  keywords : string;
  url : string;
  namespace_packages : list string;
  packages : list string;
  entry_points : list (string * list string);
  package_data : list (string * list string);
  long_description : string;
  classifiers : list string
}.

(** Lines 12-37: the arguments of [setup(...)], [long_description] being
    the contents [read("README.md")] returned. *)
Definition setup_args (readme : string) : SetupArgs := {|
  name := "mast.datapower.status";
  version := "2.0.1";
  author := "Clifford Bressette";
  author_email := "cliffordbressette@mcindi.com";
  description := "A utility to help manage users and groups for IBM DataPower";
  license := "GPLv3";
  keywords := "DataPower user group account rbm";
  url := "http://github.com/mcindi/mast.datapower.accounts";
  namespace_packages := ["mast"; "mast.datapower"];
  packages := ["mast"; "mast.datapower"; "mast.datapower.status"];
  entry_points := [("mast_web_plugin", ["status = mast.datapower.status:WebPlugin"])];
  package_data := [("mast.datapower.status", ["docroot/*"])];
  long_description := readme;
  classifiers := ["Development Status :: 5 - Production/Stable"; "Topic :: Utilities";
                  "License :: OSI Approved :: GPLv3"]
|}%string.

(** Lines 9-10: [read(fname)], the file next to setup.py. *)
Definition read (setup_file fname : string) : IO string :=
  read_file (join (dirname setup_file) [fname]).

(** Running setup.py: the arguments are evaluated, [read("README.md")]
    among them, before [setup] receives them. *)
Definition setup_py (setup_file : string) : IO SetupArgs :=
  do readme <- read setup_file "README.md";
  esm_ret (setup_args readme).

(** ** glob *)

(** [fnmatch] of one segment: [*] any sequence, [?] one character. *)
Fixpoint fnmatch (pat s : list ascii) {struct pat} : bool :=
  match pat with
  | [] => match s with [] => true | _ => false end
  | a :: pat' =>
      if Ascii.eqb a "*" then
        (fix star (s : list ascii) : bool :=
           fnmatch pat' s || match s with [] => false | _ :: s' => star s' end) s
      else match s with
           | [] => false
           | b :: s' => (Ascii.eqb a "?" || Ascii.eqb a b) && fnmatch pat' s'
           end
  end.

(** A segment pattern that starts with a wildcard does not match a hidden
    name. *)
Definition segment_match (pat seg : string) : bool :=
  let p := list_ascii_of_string pat in
  let s := list_ascii_of_string seg in
  match p, s with
  | a :: _, b :: _ => if (Ascii.eqb a "*" || Ascii.eqb a "?") && Ascii.eqb b "."
                      then false else fnmatch p s
  | _, _ => fnmatch p s
  end.

(** [glob(pattern)] relative to the package directory, for one path. *)
Definition glob_match (pat path : string) : bool :=
  let ps := PyStr.split "/" pat in
  let ss := PyStr.split "/" path in
  (length ps =? length ss)%nat && forallb (fun '(p, s) => segment_match p s) (zip ps ss).

(** ** build_py *)

(** A module of the package: a [*.py] file directly in its directory. *)
Definition is_module (rel : string) : bool :=
  (PyStr.count_char "/" rel =? 0)%nat &&
  String.eqb (substring (String.length rel - 3) 3 rel) ".py" &&
  (3 <? String.length rel)%nat.

Definition patterns_of (args : SetupArgs) (pkg : string) : list string :=
  List.concat (map snd (List.filter (fun '(k, _) => String.eqb k pkg) (package_data args))).

(** The files of the package directory [tree] (paths relative to it) that
    an installation contains. *)
Definition build_py_files (args : SetupArgs) (pkg : string) (tree : list string)
    : list string :=
  if existsb (String.eqb pkg) (packages args) then
    List.filter (fun rel => is_module rel ||
                       existsb (fun pat => glob_match pat rel) (patterns_of args pkg)) tree
  else [].

(** The filesystem after installing [tree] (with contents) into [pkg_dir]
    on top of [fs]. *)
Definition install (args : SetupArgs) (pkg_dir : string) (tree : list (string * string))
    (fs : FS) : FS :=
  let rels := build_py_files args "mast.datapower.status" tree.*1 in
  mkFS (foldr (fun '(rel, c) m => if existsb (String.eqb rel) rels
                                  then <[join pkg_dir [rel] := c]> m else m)
              (files fs) tree)
       ({[pkg_dir]} ∪ dirs fs).

(** ** Lemmas *)

Lemma split_data_path f : PyStr.split "/" ("data/" ++ f)%string = "data" :: PyStr.split "/" f.
Proof. change ("data/" ++ f)%string with ("data" ++ String "/" f)%string.
  by rewrite PyStr.split_app_sep. Qed.

(** A file the installation contains is relative, and is not under
    [data/]. *)
Lemma installed_rel readme tree rel :
  rel ∈ build_py_files (setup_args readme) "mast.datapower.status" tree ->
  PyStr.startswith "/" rel = false /\ forall f, rel <> ("data/" ++ f)%string.
Proof.
  unfold build_py_files. cbn -[is_module glob_match].
  intros Hin. apply list_elem_of_In, filter_In in Hin as [_ Hsel].
  apply orb_true_iff in Hsel as [Hm|Hg].
  - unfold is_module in Hm. apply andb_true_iff in Hm as [[Hc _]%andb_true_iff _].
    apply Nat.eqb_eq in Hc. split.
    + destruct rel as [|a r]; [done|]. cbn in *. by destruct (Ascii.eqb a "/").
    + intros f ->. cbn in Hc. done.
  - rewrite orb_false_r in Hg. unfold glob_match in Hg.
    apply andb_true_iff in Hg as [_ Hg]. split.
    + destruct rel as [|a r]; [done|]. cbn [PyStr.startswith].
      destruct (Ascii.eqb a "/") eqn:E; [|done].
      apply Ascii.eqb_eq in E as ->. cbn in Hg. done.
    + intros f ->. rewrite split_data_path in Hg. cbn in Hg.
      cbn in Hg. done.
Qed.

Lemma join_one pkg rel :
  pkg <> EmptyString -> PyStr.endswith "/" pkg = false -> PyStr.startswith "/" rel = false ->
  join pkg [rel] = (pkg ++ "/" ++ rel)%string.
Proof.
  intros Hp He Hs. unfold join. cbn. rewrite Hs, He.
  by destruct (String.eqb_spec pkg "").
Qed.

Lemma join_data pkg f :
  pkg <> EmptyString -> PyStr.endswith "/" pkg = false -> PyStr.startswith "/" f = false ->
  join pkg ["data"; f] = (pkg ++ "/" ++ ("data/" ++ f))%string.
Proof.
  intros Hp He Hs. unfold join. cbn [foldl].
  change (PyStr.startswith "/" "data") with false. rewrite He, Hs.
  destruct (String.eqb_spec pkg "") as [->|_]; [done|]. cbn [orb].
  destruct (String.eqb_spec (pkg ++ "/" ++ "data") "")%string as [E|_];
    [by apply string_app_not_empty in E|]. cbn [orb].
  replace (PyStr.endswith "/" (pkg ++ "/" ++ "data")) with false
    by (unfold PyStr.endswith; by rewrite PyStr.last_char_app).
  by rewrite <- !string_app_assoc.
Qed.

Lemma existsb_eqb_In (x : string) l : existsb (String.eqb x) l = true -> x ∈ l.
Proof.
  intros H. apply existsb_exists in H as [y [Hy E]].
  apply String.eqb_eq in E as ->. by apply list_elem_of_In.
Qed.

(** Installing files whose paths avoid [key] leaves [key] as it was. *)
Lemma install_fold_lookup pkg_dir rels (tree : list (string * string)) (m : gmap string string) key :
  (forall rel, rel ∈ rels -> join pkg_dir [rel] <> key) ->
  foldr (fun '(rel, c) m => if existsb (String.eqb rel) rels
                            then <[join pkg_dir [rel] := c]> m else m) m tree !! key
  = m !! key.
Proof.
  intros H. induction tree as [|[rel c] tree IH]; [done|]. cbn.
  destruct (existsb (String.eqb rel) rels) eqn:E; [|done].
  rewrite lookup_insert_ne; [done|]. by apply H, existsb_eqb_In.
Qed.

(** The data file's path is not the path of any installed file. *)
Lemma install_lookup_data readme pkg_dir tree fs f :
  pkg_dir <> EmptyString -> PyStr.endswith "/" pkg_dir = false ->
  PyStr.startswith "/" f = false ->
  files (install (setup_args readme) pkg_dir tree fs) !! join pkg_dir ["data"; f] =
  files fs !! join pkg_dir ["data"; f].
Proof.
  intros Hp He Hs. apply install_fold_lookup. intros rel Hin.
  destruct (installed_rel _ _ _ Hin) as [Hr Hnd].
  rewrite join_one, join_data by done.
  intros E%string_app_inv_l%string_app_inv_l. by apply (Hnd f).
Qed.

(** ** Theorems *)

(** C16: whatever the package directory holds, the installation made from
    setup.py contains no file under [data/]: [package_data] lists
    ["docroot/*"] only, and [data/...] is neither a module nor matched by
    that pattern. *)
Theorem installed_no_data_files readme tree f :
  ("data/" ++ f)%string ∉ build_py_files (setup_args readme) "mast.datapower.status" tree.
Proof. intros Hin. by apply (proj2 (installed_rel _ _ _ Hin) f). Qed.

(** C15: on an installed copy of the package, [get_data_file(f)] raises
    [IOError] for every relative [f] whose [data/] path was not already on
    the filesystem: the installation never supplies it. *)
Theorem installed_get_data_file_fails readme module_file tree fs f :
  dirname module_file <> EmptyString ->
  PyStr.endswith "/" (dirname module_file) = false ->
  PyStr.startswith "/" f = false ->
  files fs !! join (dirname module_file) ["data"; f] = None ->
  let fs' := install (setup_args readme) (dirname module_file) tree fs in
  get_data_file module_file f fs' =
    (inl (IOError (join (dirname module_file) ["data"; f])), fs').
Proof.
  intros Hp He Hs Hn fs'. unfold get_data_file, read_file, fs'.
  by rewrite install_lookup_data, Hn.
Qed.

(** C13: the first start of an installed plugin, with no [status.conf]
    yet and nothing under [data/] beside the package, raises [IOError] and
    leaves an empty [status.conf] behind (with [Plugin.init_missing_data],
    no later start rewrites it). *)
Theorem installed_first_start_empty_config readme module_file mast_home tree fs :
  dirname module_file <> EmptyString ->
  PyStr.endswith "/" (dirname module_file) = false ->
  let fs' := install (setup_args readme) (dirname module_file) tree fs in
  path_exists (config_file mast_home) fs' = false ->
  dirname (config_file mast_home) ∈ dirs fs ->
  join (dirname module_file) ["data"; "plugin.conf"] <> config_file mast_home ->
  files fs !! join (dirname module_file) ["data"; "plugin.conf"] = None ->
  WebPlugin_init module_file mast_home fs' =
    (inl (IOError (join (dirname module_file) ["data"; "plugin.conf"])),
     mkFS (<[config_file mast_home := EmptyString]> (files fs')) (dirs fs')).
Proof.
  intros Hp He fs' Hc Hd Hne Hn. apply init_missing_data; [done| |done|].
  - unfold fs', install. cbn [dirs]. set_solver.
  - unfold fs'. by rewrite install_lookup_data.
Qed.

Definition sample_readme : string := "mast.datapower.status".

Definition sample_tree : list (string * string) :=
  [("__init__.py", ""); ("status.py", "import os"); ("data/plugin.conf", "[status]");
   ("data/plugin.js", ""); ("docroot/status.html", "")]%string.

(** What setuptools installs from [sample_tree]. *)
Lemma sample_tree_installed :
  build_py_files (setup_args sample_readme) "mast.datapower.status" sample_tree.*1 =
    ["__init__.py"; "status.py"; "docroot/status.html"]%string.
Proof. by vm_compute. Qed.

Lemma installed_no_data_files_witness :
  "data/plugin.conf"%string ∉ build_py_files (setup_args sample_readme) "mast.datapower.status" sample_tree.*1.
Proof. apply (installed_no_data_files sample_readme _ "plugin.conf"). Defined.

Lemma installed_get_data_file_fails_witness :
  get_data_file sample_module "plugin.conf"
    (install (setup_args sample_readme) "/site/mast/datapower/status" sample_tree fs_fresh) =
  (inl (IOError "/site/mast/datapower/status/data/plugin.conf"),
   install (setup_args sample_readme) "/site/mast/datapower/status" sample_tree fs_fresh).
Proof.
  apply (installed_get_data_file_fails sample_readme sample_module sample_tree fs_fresh "plugin.conf");
    by vm_compute.
Defined.

Lemma installed_first_start_empty_config_witness :
  WebPlugin_init sample_module "/mast"
    (install (setup_args sample_readme) "/site/mast/datapower/status" sample_tree fs_fresh) =
  (inl (IOError "/site/mast/datapower/status/data/plugin.conf"),
   mkFS (<[config_file "/mast" := EmptyString]>
          (files (install (setup_args sample_readme) "/site/mast/datapower/status" sample_tree fs_fresh)))
        (dirs (install (setup_args sample_readme) "/site/mast/datapower/status" sample_tree fs_fresh))).
Proof.
  apply (installed_first_start_empty_config sample_readme sample_module "/mast" sample_tree fs_fresh);
    try by vm_compute.
  all: apply (bool_decide_unpack _); by vm_compute.
Defined.

End Packaging.
