(* ===== verification/Bootstrap.v ===== *)
(** Loading the plugin: the top-level statements of status.py (lines 1-35,
    the class statement standing for lines 35-112), run in order when the
    web console imports the module through the [mast_web_plugin] entry
    point of setup.py, followed by the console's [WebPlugin()], whose
    [__init__] is [Plugin.WebPlugin_init].

    - [Interp] is the Python installation: the importable modules with
      the names each defines, the value of [datapower.STATUS_XPATH] and
      [os.environ].
    - [Stmt] has one constructor per form of top-level statement the
      module uses, [module_body] lists the module's statements in source
      order, and [exec_stmt] runs one of them on the module's globals
      with Python's semantics: [import m] binds the top package,
      [from m import x] binds the attribute [x] of [m], or its submodule
      [m.x] when [m] does not define [x] (as [_handle_fromlist] does), a
      decorator or base class must be a bound name, and [PROVIDER_MAP] and
      [mast_home] are computed as lines 9-18 and 20 compute them.
    - [start_plugin] imports the module and instantiates [WebPlugin].

    [start_plugin_refines]: in an installation that provides every module
    and name the module imports, loading the plugin does what
    [Plugin.load_plugin] does, binds [PROVIDER_MAP] to
    [ProviderMap.PROVIDER_MAP] for the installation's [STATUS_XPATH], and
    without [MAST_HOME] stops at line 20, before [WebPlugin] exists.
    [start_plugin_no_mast_home]: without [MAST_HOME] the load fails at
    line 20 as soon as lines 1-18 succeed, whatever lines 31-33 import;
    [start_plugin_import_error]: a module that fails to import leaves the
    filesystem untouched.

    Only the names a statement binds are modelled: a name imported from a
    module is an opaque value, and attribute access is modelled on
    modules (and on imported names that are submodules). *)

From S2P Require Import Prelude PyStr ElementTree ProviderMap Plugin.

Module Bootstrap.
Import ProviderMap Plugin.

(** The Python installation the console runs in. *)
Record Interp : Type := mkInterp {
  modules : gmap string (gset string);  (** importable modules, with the names each defines *)
  STATUS_XPATH_value : string;          (** [datapower.STATUS_XPATH] *)
  environ : gmap string string          (** [os.environ] *)
}.

(** The values the module's top level binds. *)
Inductive Val : Type :=
| VModule (m : string)                  (** a module object *)
| VName (m x : string)                  (** the name [x] defined by module [m] *)
| VStr (s : string)
| VDict (d : gmap string string)
| VFunction (f : string)
| VClass (c base : string).

Abbreviation Globals := (gmap string Val).

(** The forms of top-level statement of status.py. *)
Inductive Stmt : Type :=
| SImport (m : string)                         (** [import m] *)
| SImportAs (m alias : string)                 (** [import m as alias] *)
| SFromImport (m : string) (xs : list string)  (** [from m import x1, x2, ...] *)
| SProviderMap                                 (** [PROVIDER_MAP = {...}], lines 9-18 *)
| SMastHome                                    (** [mast_home = os.environ["MAST_HOME"]] *)
| SDef (f : string) (decorators : list string) (** [@d(...)] then [def f(...)] *)
| SClass (c base : string) (decorators : list string).
    (** [class c(base)], with the decorators used in its body *)

(** Lines 1-35, in order. *)
Definition module_body : list Stmt :=
  [SImport "os";                                            (* line 1 *)
   SImport "flask";                                         (* line 2 *)
   SFromImport "mast.logging" ["make_logger"; "logged"];    (* line 3 *)
   SFromImport "time" ["sleep"];                            (* line 4 *)
   SFromImport "mast.timestamp" ["Timestamp"];              (* line 5 *)
   SFromImport "mast.xor" ["xordecode"; "xorencode"];       (* line 6 *)
   SFromImport "mast.datapower" ["datapower"];              (* line 7 *)
   SProviderMap;                                            (* lines 9-18 *)
   SMastHome;                                               (* line 20 *)
   SDef "get_data_file" ["logged"];                         (* lines 23-28 *)
   SFromImport "mast.plugins.web" ["Plugin"];               (* line 31 *)
   SImportAs "mast.plugin_utils.plugin_functions" "pf";     (* line 32 *)
   SFromImport "functools" ["partial"; "update_wrapper"];   (* line 33 *)
   SClass "WebPlugin" "Plugin" ["logged"]].                 (* lines 35-112 *)

Section Exec.
Variable I : Interp.

(** One name of [from m import ...]: the attribute [x] of [m], else its
    submodule [m.x]. *)
Definition import_name (m : string) (ns : gset string) (x : string) : ESM Globals PyError unit :=
  if bool_decide (x ∈ ns) then esm_modify (insert x (VName m x))
  else if bool_decide (is_Some (modules I !! (m ++ "." ++ x)%string))
  then esm_modify (insert x (VModule (m ++ "." ++ x)%string))
  else esm_raise (ImportError m (Some x)).

(** [x.a] for the global [x]: [a] must be defined by the module [x] is, a
    module or an imported name that is a submodule. *)
Definition check_attr (x a : string) : ESM Globals PyError unit :=
  do g <- esm_get;
  do v <- esm_from_option (NameError x) (g !! x);
  let m := match v with
           | VModule m => Some m
           | VName m y =>
               if bool_decide (is_Some (modules I !! (m ++ "." ++ y)%string))
               then Some (m ++ "." ++ y)%string else None
           | _ => None
           end in
  match m ≫= (modules I !!.) with
  | Some ns => if bool_decide (a ∈ ns) then esm_ret tt else esm_raise (AttributeError x a)
  | None => esm_raise (AttributeError x a)
  end.

Definition exec_stmt (s : Stmt) : ESM Globals PyError unit :=
  let import_module m := esm_from_option (ImportError m None) (modules I !! m) in
  let bound x := (do g <- esm_get; do _ <- esm_from_option (NameError x) (g !! x); esm_ret tt) in
  match s with
  | SImport m =>
      let top := default m (PyStr.index0 (PyStr.split "." m)) in
      do _ <- import_module m; esm_modify (insert top (VModule top))
  | SImportAs m alias =>
      do _ <- import_module m; esm_modify (insert alias (VModule m))
  | SFromImport m xs =>
      do ns <- import_module m; esm_iter (import_name m ns) xs
  | SProviderMap =>
      do _ <- check_attr "datapower" "STATUS_XPATH";
      esm_modify (insert "PROVIDER_MAP" (VDict (PROVIDER_MAP (STATUS_XPATH_value I))))
  | SMastHome =>
      do _ <- check_attr "os" "environ";
      match environ I !! "MAST_HOME" with
      | Some h => esm_modify (insert "mast_home" (VStr h))
      | None => esm_raise (EnvKeyError "MAST_HOME")
      end
  | SDef f ds =>
      do _ <- esm_iter bound ds;
      esm_modify (insert f (VFunction f))
  | SClass c base ds =>
      do _ <- bound base;
      do _ <- esm_iter bound ds;
      esm_modify (insert c (VClass c base))
  end.

End Exec.

(** The console loads the plugin: it imports the module, then calls
    [WebPlugin()], whose [__init__] reads the global [mast_home]. *)
Definition start_plugin (module_file : string) (I : Interp) : ESM (Globals * FS) PyError unit :=
  do _ <- esm_on_fst (esm_iter (exec_stmt I) module_body);
  do st <- esm_get;
  match st.1 !! "WebPlugin" with
  | Some (VClass _ _) =>
      match st.1 !! "mast_home" with
      | Some (VStr h) => esm_on_snd (WebPlugin_init module_file h)
      | _ => esm_raise (NameError "mast_home")
      end
  | _ => esm_raise (NameError "WebPlugin")
  end.

(** What the module needs from the installation: each module it imports,
    with the names it asks of it. *)
Definition requirements : list (string * list string) :=
  [("os", ["environ"]); ("flask", []); ("mast.logging", ["make_logger"; "logged"]);
   ("time", ["sleep"]); ("mast.timestamp", ["Timestamp"]);
   ("mast.xor", ["xordecode"; "xorencode"]); ("mast.datapower", []);
   ("mast.datapower.datapower", ["STATUS_XPATH"]); ("mast.plugins.web", ["Plugin"]);
   ("mast.plugin_utils.plugin_functions", []); ("functools", ["partial"; "update_wrapper"])].

Definition provides (I : Interp) (req : string * list string) : Prop :=
  match modules I !! req.1 with
  | Some ns => Forall (fun x => x ∈ ns) req.2
  | None => False
  end.

#[export] Instance provides_dec I req : Decision (provides I req).
Proof. unfold provides. destruct (modules I !! req.1); apply _. Defined.

Definition installed (I : Interp) : Prop := Forall (provides I) requirements.

(** ** Lemmas *)

Lemma submodule_datapower : ("mast.datapower" ++ "." ++ "datapower")%string = "mast.datapower.datapower".
Proof. reflexivity. Qed.

Ltac boot_run :=
  repeat first
    [ progress esm_unfold
    | progress unfold import_name, check_attr in *
    | match goal with
      | H : modules ?I !! ?m = Some _ |- context [modules ?I !! ?m] => rewrite H
      | H : ?x ∈ ?ns |- context [bool_decide (?x ∈ ?ns)] => rewrite (bool_decide_true _ H)
      | H : ?g !! ?k = _ |- context [?g !! ?k] => rewrite H
      | |- context [bool_decide (is_Some (Some ?v))] =>
          rewrite (bool_decide_true (is_Some (Some v)) (mk_is_Some _ _ eq_refl))
      | |- context [("mast.datapower" ++ "." ++ "datapower")%string] => rewrite submodule_datapower
      | |- context [<[?i:=?x]> ?m !! ?j] => rewrite (lookup_insert m i j x)
      | |- context [(∅ : Globals) !! ?j] => rewrite lookup_empty
      | |- context [decide (?a = ?b)] =>
          first [rewrite (decide_True (P := a = b)) by reflexivity
                |rewrite (decide_False (P := a = b)) by discriminate]
      end
    | progress cbn -[PROVIDER_MAP WebPlugin_init String.append]
    | case_bool_decide ].

Ltac provides_destruct H :=
  unfold provides in H;
  repeat (let Hx := fresh "Hx" in apply Forall_cons in H as [Hx H]; cbn [fst snd] in Hx);
  repeat match goal with
    | Hx : match modules ?I !! ?m with _ => _ end |- _ =>
        let Hm := fresh "Hm" in destruct (modules I !! m) eqn:Hm; [|contradiction]
    end;
  repeat match goal with Hf : Forall _ (_ :: _) |- _ => apply Forall_cons in Hf as [? Hf] end.

(** Lines 1-18. *)
Lemma exec_head I :
  Forall (provides I) (take 8 requirements) ->
  exists g, esm_iter (exec_stmt I) (take 8 module_body) ∅ = (inr tt, g) /\
    g !! "os" = Some (VModule "os") /\ g !! "logged" = Some (VName "mast.logging" "logged") /\
    g !! "PROVIDER_MAP" = Some (VDict (PROVIDER_MAP (STATUS_XPATH_value I))) /\
    g !! "mast_home" = None /\ g !! "WebPlugin" = None.
Proof.
  intros H. cbn [take requirements] in H. provides_destruct H.
  cbn [take module_body esm_iter exec_stmt]. boot_run.
  all: eexists; split; [reflexivity|]; by simplify_map_eq.
Qed.

(** Line 20. *)
Lemma exec_mast_home I g ns :
  g !! "os" = Some (VModule "os") -> modules I !! "os" = Some ns -> "environ" ∈ ns ->
  exec_stmt I SMastHome g =
    match environ I !! "MAST_HOME" with
    | Some h => (inr tt, <["mast_home" := VStr h]> g)
    | None => (inl (EnvKeyError "MAST_HOME"), g)
    end.
Proof. intros. cbn [exec_stmt]. boot_run. by destruct (environ I !! "MAST_HOME"). Qed.

(** Lines 23-35. *)
Lemma exec_tail I g :
  Forall (provides I) (drop 8 requirements) ->
  g !! "logged" = Some (VName "mast.logging" "logged") ->
  exists g', esm_iter (exec_stmt I) (drop 9 module_body) g = (inr tt, g') /\
    g' !! "WebPlugin" = Some (VClass "WebPlugin" "Plugin") /\
    g' !! "PROVIDER_MAP" = g !! "PROVIDER_MAP" /\ g' !! "mast_home" = g !! "mast_home".
Proof.
  intros H Hl. cbn [drop requirements] in H. provides_destruct H.
  cbn [drop module_body esm_iter exec_stmt]. boot_run.
  eexists; split; [reflexivity|]. boot_run. by split_and!.
Qed.

Lemma provides_os I :
  Forall (provides I) (take 8 requirements) ->
  exists ns, modules I !! "os" = Some ns /\ "environ" ∈ ns.
Proof. intros H. cbn [take requirements] in H. provides_destruct H. eauto. Qed.

Lemma module_body_split : module_body = take 8 module_body ++ SMastHome :: drop 9 module_body.
Proof. reflexivity. Qed.

Lemma requirements_split : requirements = take 8 requirements ++ drop 8 requirements.
Proof. reflexivity. Qed.

(** The module stops at line 20 without [MAST_HOME], whatever lines 31-33
    import; otherwise it defines [WebPlugin]. *)
Lemma exec_module I :
  installed I ->
  exists g, esm_iter (exec_stmt I) module_body ∅ =
    (match environ I !! "MAST_HOME" with
     | Some _ => inr tt | None => inl (EnvKeyError "MAST_HOME") end, g) /\
    g !! "PROVIDER_MAP" = Some (VDict (PROVIDER_MAP (STATUS_XPATH_value I))) /\
    match environ I !! "MAST_HOME" with
    | Some h => g !! "mast_home" = Some (VStr h) /\
        g !! "WebPlugin" = Some (VClass "WebPlugin" "Plugin")
    | None => g !! "WebPlugin" = None
    end.
Proof.
  unfold installed. rewrite requirements_split, Forall_app. intros [Hh Ht].
  destruct (exec_head I Hh) as (g1 & E1 & Hos & Hlog & Hpm & Hmh & Hwp).
  destruct (provides_os I Hh) as (ns & Hns & Hen).
  rewrite module_body_split, esm_iter_app. unfold esm_bind at 1. rewrite E1.
  cbn [esm_iter]. unfold esm_bind at 1. rewrite (exec_mast_home I g1 ns) by done.
  destruct (environ I !! "MAST_HOME") as [h|]; [|by exists g1].
  destruct (exec_tail I (<["mast_home" := VStr h]> g1) Ht) as (g2 & E2 & Hw & Hp & Hm).
  { by rewrite lookup_insert_ne. }
  exists g2. rewrite E2, Hp, Hm, lookup_insert_ne, lookup_insert_eq by done. by split_and!.
Qed.

(** A module that fails to import fails the load, with the filesystem
    untouched: [__init__] never runs. *)
Lemma start_plugin_import_error module_file I g fs e g' :
  esm_iter (exec_stmt I) module_body g = (inl e, g') ->
  start_plugin module_file I (g, fs) = (inl e, (g', fs)).
Proof. intros E. unfold start_plugin, esm_on_fst. esm_unfold. cbn [fst snd]. by rewrite E. Qed.

(** Without [MAST_HOME] the load stops at line 20 as soon as lines 1-18
    succeed, whether or not the modules of lines 31-33 are installed. *)
Lemma start_plugin_no_mast_home module_file I fs :
  Forall (provides I) (take 8 requirements) -> environ I !! "MAST_HOME" = None ->
  exists g, start_plugin module_file I (∅, fs) = (inl (EnvKeyError "MAST_HOME"), (g, fs)) /\
    g !! "WebPlugin" = None.
Proof.
  intros Hh Hn. destruct (exec_head I Hh) as (g1 & E1 & Hos & _ & _ & _ & Hwp).
  destruct (provides_os I Hh) as (ns & Hns & Hen).
  exists g1. split; [|done]. apply start_plugin_import_error.
  rewrite module_body_split, esm_iter_app. unfold esm_bind at 1. rewrite E1.
  cbn [esm_iter]. unfold esm_bind at 1. by rewrite (exec_mast_home I g1 ns), Hn.
Qed.

(** Loading the plugin as the web console does, by importing
    status.py (its top-level statements, lines 1-35, in order) and
    calling [WebPlugin()], refines [load_plugin]: in an installation that
    provides every module and name the module imports, the outcome and
    the filesystem are those of [load_plugin] (the [MAST_HOME] lookup of
    line 20, then [__init__]); [PROVIDER_MAP] is bound to the map of
    [ProviderMap] for the installation's [datapower.STATUS_XPATH]; and
    without [MAST_HOME] the class [WebPlugin] is never defined. *)
Theorem start_plugin_refines module_file I fs :
  installed I ->
  let '(r, (g, fs')) := start_plugin module_file I (∅, fs) in
  (r, fs') = load_plugin module_file (environ I) fs /\
  g !! "PROVIDER_MAP" = Some (VDict (PROVIDER_MAP (STATUS_XPATH_value I))) /\
  match environ I !! "MAST_HOME" with
  | Some h => g !! "mast_home" = Some (VStr h) /\
      g !! "WebPlugin" = Some (VClass "WebPlugin" "Plugin")
  | None => g !! "WebPlugin" = None
  end.
Proof.
  intros Hi. destruct (exec_module I Hi) as (g & E & Hpm & Hm).
  unfold load_plugin. destruct (environ I !! "MAST_HOME") as [h|] eqn:Hh.
  - destruct Hm as [Hmh Hwp]. unfold start_plugin, esm_on_fst, esm_on_snd. esm_unfold.
    cbn [fst snd]. rewrite E. cbn [fst snd]. rewrite Hwp, Hmh.
    cbn [fst snd]. destruct (WebPlugin_init module_file h fs) as [r fs']. by split_and!.
  - rewrite (start_plugin_import_error _ _ _ _ _ _ E). by split_and!.
Qed.

(** ** A concrete installation *)

Definition I_full : Interp := mkInterp
  (list_to_map [("os", {["environ"]}); ("flask", ∅);
                ("mast.logging", {["make_logger"; "logged"]}); ("time", {["sleep"]});
                ("mast.timestamp", {["Timestamp"]}); ("mast.xor", {["xordecode"; "xorencode"]});
                ("mast.datapower", ∅); ("mast.datapower.datapower", {["STATUS_XPATH"]});
                ("mast.plugins.web", {["Plugin"]}); ("mast.plugin_utils.plugin_functions", ∅);
                ("functools", {["partial"; "update_wrapper"]})])
  "/*[local-name()='Envelope']/*[local-name()='Body']" {[ "MAST_HOME" := "/mast" ]}.

Lemma installed_I_full : installed I_full.
Proof. apply (bool_decide_unpack _). by vm_compute. Qed.

Lemma start_plugin_refines_witness :
  let '(r, (g, fs')) := start_plugin sample_module I_full (∅, fs_dev) in
  (r, fs') = load_plugin sample_module (environ I_full) fs_dev /\
  g !! "PROVIDER_MAP" = Some (VDict (PROVIDER_MAP (STATUS_XPATH_value I_full))) /\
  g !! "mast_home" = Some (VStr "/mast") /\ g !! "WebPlugin" = Some (VClass "WebPlugin" "Plugin").
Proof. exact (start_plugin_refines sample_module I_full fs_dev installed_I_full). Defined.

End Bootstrap.
